(** * html_to_json_converter: a shallow embedding of [HTMLToJSONConverter]

    The development follows [html_to_json_converter.py].  Python values are
    modelled by the data they hold, library calls (the HTML parser, the
    regular-expression engine, pandoc, the header splitter, [urlparse], the
    file system) are operations of a [World] the converter runs in, and the
    converter's own methods are functions in a small monad that records the
    log and the output events and carries a raised exception. *)

From Stdlib Require Import String Ascii List Bool Arith Lia.
From Stdlib Require Import DecimalString DecimalNat.
Import ListNotations.
#[local] Set Warnings "-register-all".
Open Scope list_scope.
Open Scope string_scope.

(** ** Python strings

    A [str] is a [string]; each [ascii] stands for one character (the
    code points below 256). *)

Module Py.

Definition newline : string := String (ascii_of_nat 10) "".

(** [str.isspace] on one character: TAB..CR, FS..US, SPACE, NEL, NBSP. *)
Definition isspace (c : ascii) : bool :=
  let n := nat_of_ascii c in
  ((9 <=? n)%nat && (n <=? 13)%nat) || ((28 <=? n)%nat && (n <=? 32)%nat)
  || (n =? 133)%nat || (n =? 160)%nat.

Fixpoint lstrip (s : string) : string :=
  match s with
  | EmptyString => EmptyString
  | String c s' => if isspace c then lstrip s' else s
  end.

Fixpoint rstrip (s : string) : string :=
  match s with
  | EmptyString => EmptyString
  | String c s' =>
      match rstrip s' with
      | EmptyString => if isspace c then EmptyString else String c EmptyString
      | r => String c r
      end
  end.

(** [s.strip()] *)
Definition strip (s : string) : string := lstrip (rstrip s).

(** [s.startswith(p)] *)
Definition startswith (s p : string) : bool := String.prefix p s.

Fixpoint rev_string (s : string) : string :=
  match s with
  | EmptyString => EmptyString
  | String c s' => rev_string s' ++ String c EmptyString
  end.

(** [s.endswith(p)] *)
Definition endswith (s p : string) : bool :=
  String.prefix (rev_string p) (rev_string s).

(** [s.split(sep)] for a one-character separator. *)
Fixpoint split_on (sep : ascii) (s : string) : list string :=
  match s with
  | EmptyString => [EmptyString]
  | String c s' =>
      if Ascii.eqb c sep then EmptyString :: split_on sep s'
      else match split_on sep s' with
           | [] => [String c EmptyString]
           | w :: ws => String c w :: ws
           end
  end.

(** [sep.join(l)] *)
Fixpoint join (sep : string) (l : list string) : string :=
  match l with
  | [] => EmptyString
  | [x] => x
  | x :: rest => x ++ sep ++ join sep rest
  end.

(** [s.split()]: the maximal runs of characters that are not white space. *)
Fixpoint split_whitespace_aux (cur : string) (s : string) : list string :=
  match s with
  | EmptyString => match cur with EmptyString => [] | _ => [rev_string cur] end
  | String c s' =>
      if isspace c
      then match cur with
           | EmptyString => split_whitespace_aux EmptyString s'
           | _ => rev_string cur :: split_whitespace_aux EmptyString s'
           end
      else split_whitespace_aux (String c cur) s'
  end.

Definition split_whitespace (s : string) : list string :=
  split_whitespace_aux EmptyString s.

(** [s.rfind(c)], [None] for -1. *)
Fixpoint rfind (c : ascii) (s : string) : option nat :=
  match s with
  | EmptyString => None
  | String a s' =>
      match rfind c s' with
      | Some i => Some (S i)
      | None => if Ascii.eqb a c then Some 0 else None
      end
  end.

(** [str(i)] for a non-negative [int]. *)
Definition str_of_nat (i : nat) : string :=
  NilEmpty.string_of_uint (Nat.to_uint i).

(** [c * n] *)
Fixpoint repeat_string (c : string) (n : nat) : string :=
  match n with
  | 0 => EmptyString
  | S n' => c ++ repeat_string c n'
  end.

Definition truthy (s : string) : bool :=
  match s with EmptyString => false | _ => true end.

(** *** Values and dictionaries

    A [dict] keeps its keys in insertion order; assigning to a key that is
    present keeps the key's place. *)

Inductive value : Type :=
| Str (s : string)
| Int (n : nat).

Definition dict : Type := list (string * value).

Fixpoint get (k : string) (d : dict) : option value :=
  match d with
  | [] => None
  | (k', v) :: d' => if String.eqb k k' then Some v else get k d'
  end.

Fixpoint set (k : string) (v : value) (d : dict) : dict :=
  match d with
  | [] => [(k, v)]
  | (k', v') :: d' =>
      if String.eqb k k' then (k, v) :: d' else (k', v') :: set k v d'
  end.

(** [{**d, **m}]: the items of [m] assigned into [d] one after the other. *)
Definition update (d m : dict) : dict :=
  fold_left (fun acc kv => set (fst kv) (snd kv) acc) m d.

Definition keys (d : dict) : list string := map fst d.

(** What every Python [dict] satisfies: no key twice. *)
Definition well_formed (d : dict) : Prop := NoDup (keys d).

(** [pathlib.PurePath.stem] of a file name: the name up to its last dot,
    unless that dot is the first or the last character. *)
Definition stem (name : string) : string :=
  match rfind "." name with
  | Some i =>
      if (0 <? i)%nat && (i <? String.length name - 1)%nat
      then String.substring 0 i name
      else name
  | None => name
  end.

End Py.

(** ** Records of the pipeline *)

(** [langchain.schema.Document]: a chunk of text and its heading path. *)
Module Document.
Record t : Type := mk { page_content : string; metadata : Py.dict }.
End Document.

(** One element of [json_docs]: the dict with the keys ["id"], ["content"]
    and ["metadata"] built in [markdown_to_json]. *)
Module JsonDoc.
Record t : Type := mk { id : string; content : string; metadata : Py.dict }.
End JsonDoc.

(** [pathlib.Path]: a directory and the name of an entry in it. *)
Module Path.
Record t : Type := mk { parent : string; name : string }.
Definition stem (p : t) : string := Py.stem (name p).
End Path.

(** ** Exceptions, logging and output events *)

Inductive exn : Type :=
| re_error (msg : string)      (* [re.error] *)
| Exception (msg : string).    (* any other subclass of [Exception] *)

Definition exn_str (e : exn) : string :=
  match e with re_error m => m | Exception m => m end.

Definition is_re_error (e : exn) : bool :=
  match e with re_error _ => true | Exception _ => false end.

Definition is_Exception (e : exn) : bool := true.

Inductive result (A : Type) : Type :=
| Ok (a : A)
| Raise (e : exn).
Arguments Ok {A} a.
Arguments Raise {A} e.

Inductive level : Type := INFO | WARNING | ERROR.

Inductive re_flag : Type := MULTILINE | DOTALL.

(** What a run does to the outside: a [logger] call, the one [json.dump]
    into the opened output file, the statistics printed at the end. *)
Inductive event : Type :=
| Log (lvl : level) (msg : string)
| JsonDump (file : Path.t) (encoding : string) (obj : list JsonDoc.t)
           (ensure_ascii : bool) (indent : nat)
| PrintStatistics (total_docs total_chars processed_files average : nat).

(** A computation: its outcome and the events it emitted, in order. *)
Definition M (A : Type) : Type := (result A * list event)%type.

Definition ret {A} (a : A) : M A := (Ok a, []).

Definition raise {A} (e : exn) : M A := (Raise e, []).

Definition lift {A} (r : result A) : M A := (r, []).

Definition emit (ev : event) : M unit := (Ok tt, [ev]).

Definition bind {A B} (m : M A) (k : A -> M B) : M B :=
  match fst m with
  | Ok a => let r := k a in (fst r, (snd m ++ snd r)%list)
  | Raise e => (Raise e, snd m)
  end.

(** [try: m  except <class> as e: handler e] *)
Definition try_except {A} (m : M A) (catches : exn -> bool)
    (handler : exn -> M A) : M A :=
  match fst m with
  | Ok a => m
  | Raise e =>
      if catches e
      then let r := handler e in (fst r, (snd m ++ snd r)%list)
      else m
  end.

Notation "x <- m ;; k" := (bind m (fun x => k))
  (at level 61, m at next level, right associativity).
Notation "m ;; k" := (bind m (fun _ => k))
  (at level 61, right associativity).

Definition logger_info (msg : string) : M unit := emit (Log INFO msg).
Definition logger_warning (msg : string) : M unit := emit (Log WARNING msg).
Definition logger_error (msg : string) : M unit := emit (Log ERROR msg).

Definition outcome {A} (m : M A) : result A := fst m.
Definition events {A} (m : M A) : list event := snd m.

(** ** The parsed document (bs4)

    The tree the parser builds: tags with their attributes and contents,
    and strings of several kinds.  Attribute values are kept as written;
    the attributes bs4 holds as lists of tokens are split when matched. *)

Module Bs4.

Inductive string_kind : Type :=
| NavigableString | CData | Comment | Doctype | Declaration
| ProcessingInstruction.

Inductive PageElement : Type :=
| Tag (name : string) (attrs : list (string * string))
      (contents : list PageElement)
| Text (kind : string_kind) (s : string).

(** The [BeautifulSoup] object: the top-level contents of the document. *)
Definition BeautifulSoup : Type := list PageElement.

(** [tag.descendants]: document order. *)
Fixpoint descendants_of (e : PageElement) : list PageElement :=
  match e with
  | Tag _ _ cs => flat_map (fun c => c :: descendants_of c) cs
  | Text _ _ => []
  end.

Definition descendants (soup : BeautifulSoup) : list PageElement :=
  flat_map (fun c => c :: descendants_of c) soup.

Fixpoint lookup (k : string) (attrs : list (string * string)) : option string :=
  match attrs with
  | [] => None
  | (k', v) :: rest => if String.eqb k k' then Some v else lookup k rest
  end.

(** [tag.get(k)]; [None] on a string. *)
Definition get (e : PageElement) (k : string) : option string :=
  match e with
  | Tag _ attrs _ => lookup k attrs
  | Text _ _ => None
  end.

(** [tag[k]] where the caller has checked that the attribute is there. *)
Definition item (e : PageElement) (k : string) : string :=
  match get e k with Some v => v | None => EmptyString end.

(** bs4's [cdata_list_attributes] for HTML: the attributes whose value is
    a list of white-space separated tokens. *)
Definition cdata_list_attribute (tag attr : string) : bool :=
  existsb (String.eqb attr) ["class"; "accesskey"; "dropzone"]
  || (existsb (String.eqb tag) ["a"; "link"]
      && existsb (String.eqb attr) ["rel"; "rev"])
  || (existsb (String.eqb tag) ["td"; "th"] && String.eqb attr "headers")
  || (String.eqb tag "form" && String.eqb attr "accept-charset")
  || (String.eqb tag "object" && String.eqb attr "archive")
  || (String.eqb tag "area" && String.eqb attr "rel")
  || (String.eqb tag "icon" && String.eqb attr "sizes")
  || (String.eqb tag "iframe" && String.eqb attr "sandbox")
  || (String.eqb tag "output" && String.eqb attr "for").

(** A keyword argument of [find]/[find_all]: [attr='v'] or [attr=True]. *)
Inductive attr_filter : Type :=
| Equals (v : string)
| Present.

Definition attr_matches (tag attr : string) (f : attr_filter)
    (value : option string) : bool :=
  match f, value with
  | _, None => false
  | Present, Some _ => true
  | Equals v, Some s =>
      if cdata_list_attribute tag attr
      then existsb (String.eqb v) (Py.split_whitespace s)
           || String.eqb v (Py.join " " (Py.split_whitespace s))
      else String.eqb v s
  end.

Definition matches (name : string) (kw : option (string * attr_filter))
    (e : PageElement) : bool :=
  match e with
  | Tag n attrs _ =>
      String.eqb n name
      && match kw with
         | None => true
         | Some (attr, f) => attr_matches n attr f (lookup attr attrs)
         end
  | Text _ _ => false
  end.

(** [soup.find_all(name, attr=...)] *)
Definition find_all (soup : BeautifulSoup) (name : string)
    (kw : option (string * attr_filter)) : list PageElement :=
  filter (matches name kw) (descendants soup).

(** [soup.find(name, attr=...)]: the first match, or [None]. *)
Definition find (soup : BeautifulSoup) (name : string)
    (kw : option (string * attr_filter)) : option PageElement :=
  match find_all soup name kw with
  | [] => None
  | e :: _ => Some e
  end.

(** Removing from the tree every element [drop] selects, wherever it is:
    what [decompose]/[extract] on each element of a [find_all] leaves. *)
Fixpoint prune (drop : PageElement -> bool) (e : PageElement) : PageElement :=
  match e with
  | Tag n a cs =>
      Tag n a (flat_map (fun c => if drop c then [] else [prune drop c]) cs)
  | Text _ _ => e
  end.

Definition prune_all (drop : PageElement -> bool) (soup : BeautifulSoup)
    : BeautifulSoup :=
  flat_map (fun c => if drop c then [] else [prune drop c]) soup.

Definition is_tag (name : string) (e : PageElement) : bool :=
  matches name None e.

Definition is_comment (e : PageElement) : bool :=
  match e with
  | Text Comment _ => true
  | _ => false
  end.

(** [get_text()]: the strings of kinds [NavigableString] and [CData]. *)
Fixpoint get_text_of (e : PageElement) : string :=
  match e with
  | Tag _ _ cs => String.concat "" (map get_text_of cs)
  | Text NavigableString s | Text CData s => s
  | Text _ _ => EmptyString
  end.

Definition get_text (soup : BeautifulSoup) : string :=
  String.concat "" (map get_text_of soup).

(** [for e in soup.find_all(name): e.string = f(e.get_text())].  The list
    is built before the loop; an element inside an earlier one is detached
    by the time it is reached, so only the outermost matches show. *)
Fixpoint set_strings_of (name : string) (f : string -> string)
    (e : PageElement) : PageElement :=
  match e with
  | Tag n a cs =>
      if String.eqb n name
      then Tag n a [Text NavigableString (f (get_text_of e))]
      else Tag n a (map (set_strings_of name f) cs)
  | Text _ _ => e
  end.

Definition set_strings (name : string) (f : string -> string)
    (soup : BeautifulSoup) : BeautifulSoup :=
  map (set_strings_of name f) soup.

(** [for i, li in enumerate(ol.find_all('li'), start): li.string = f i text]:
    every [li] below takes a number, nested ones too, and only the
    outermost are still in the tree when they are written. *)
Fixpoint number_items_of (f : nat -> string -> string) (i : nat)
    (e : PageElement) : PageElement * nat :=
  match e with
  | Tag n a cs =>
      if String.eqb n "li"
      then (Tag n a [Text NavigableString (f i (get_text_of e))],
            S i + List.length (filter (is_tag "li") (descendants_of e)))
      else
        let r := fold_left
                   (fun acc c =>
                      let r := number_items_of f (snd acc) c in
                      ((fst acc ++ [fst r])%list, snd r))
                   cs ([], i) in
        (Tag n a (fst r), snd r)
  | Text _ _ => (e, i)
  end.

Definition number_items (f : nat -> string -> string) (start : nat)
    (cs : list PageElement) : list PageElement :=
  fst (fold_left
         (fun acc c =>
            let r := number_items_of f (snd acc) c in
            ((fst acc ++ [fst r])%list, snd r))
         cs ([], start)).

(** The two list loops of [_simple_html_to_markdown] on one list element. *)
Fixpoint convert_lists_of (name : string)
    (items : list PageElement -> list PageElement)
    (e : PageElement) : PageElement :=
  match e with
  | Tag n a cs =>
      if String.eqb n name
      then Tag n a [Text NavigableString
                      (String.concat "" (map get_text_of (items cs))
                       ++ Py.newline)]
      else Tag n a (map (convert_lists_of name items) cs)
  | Text _ _ => e
  end.

Definition convert_lists (name : string)
    (items : list PageElement -> list PageElement)
    (soup : BeautifulSoup) : BeautifulSoup :=
  map (convert_lists_of name items) soup.

End Bs4.

(** Induction on a page element, with the property known of the contents
    of a tag. *)
Section PageElementInduction.

Variable P : Bs4.PageElement -> Prop.
Hypothesis on_tag : forall n a cs, Forall P cs -> P (Bs4.Tag n a cs).
Hypothesis on_text : forall k s, P (Bs4.Text k s).

Fixpoint PageElement_induction (e : Bs4.PageElement) : P e :=
  match e with
  | Bs4.Tag n a cs =>
      on_tag n a cs
        ((fix all (l : list Bs4.PageElement) : Forall P l :=
            match l return Forall P l with
            | nil => Forall_nil P
            | cons c l' => Forall_cons c (PageElement_induction c) (all l')
            end) cs)
  | Bs4.Text k s => on_text k s
  end.

End PageElementInduction.

(** ** The world the converter runs in

    The libraries and the file system, as the calls the converter makes.
    A call that can raise returns a [result]. *)

Class World : Type := {
  (** [BeautifulSoup(markup, 'html.parser')] *)
  html_parser : string -> result Bs4.BeautifulSoup;
  (** [str(soup)] *)
  soup_str : Bs4.BeautifulSoup -> string;
  (** [urlparse(url)]: its [scheme] and [netloc] *)
  urlparse : string -> result (string * string);
  (** [re.sub(pattern, repl, string, flags=...)] *)
  re_sub : string -> string -> string -> list re_flag -> result string;
  (** [pypandoc.convert_text(source, to, format=..., extra_args=...)] *)
  pypandoc_convert_text :
    string -> string -> string -> list string -> result string;
  (** [MarkdownHeaderTextSplitter(headers_to_split_on=..., strip_headers=...)
      .split_text(text)] *)
  split_text :
    list (string * string) -> bool -> string -> result (list Document.t);
  (** the names in a directory, in the order the scan gives them *)
  iterdir : string -> list string;
  (** [open(path, 'r', encoding='utf-8').read()] *)
  read_text : Path.t -> result string;
  (** [path.exists()] and the lines of a text file, for the pattern file *)
  path_exists : string -> bool;
  read_lines : string -> result (list string);
  (** [path.mkdir(exist_ok=True)] *)
  mkdir : string -> result unit;
  (** [open(path, 'w', encoding='utf-8')] *)
  open_w : Path.t -> result unit
}.

(** [HTMLToJSONConverter]'s attributes. *)
Record HTMLToJSONConverter : Type := {
  input_dir : string;
  output_dir : string;
  noise_pattern_file : string;
  noise_patterns : list string
}.

Section Converter.

Context {W : World}.

(** [Path.glob('*' + suffix)]: the entries whose name ends in [suffix]. *)
Definition glob (dir suffix : string) : list Path.t :=
  map (Path.mk dir) (filter (fun n => Py.endswith n suffix) (iterdir dir)).

Definition _load_noise_patterns (noise_pattern_file : string)
    : M (list string) :=
  if path_exists noise_pattern_file
  then
    try_except
      (lines <- lift (read_lines noise_pattern_file) ;;
       let patterns :=
         map Py.strip (filter (fun l => Py.truthy (Py.strip l)) lines) in
       logger_info ("Loaded " ++ Py.str_of_nat (List.length patterns)
                    ++ " noise patterns") ;;
       ret patterns)
      is_Exception
      (fun e =>
         logger_warning ("Failed to load noise patterns: " ++ exn_str e) ;;
         ret [])
  else
    logger_warning ("Noise pattern file not found: " ++ noise_pattern_file) ;;
    ret [].

(** [__init__] *)
Definition init (input_dir output_dir noise_pattern_file : string)
    : M HTMLToJSONConverter :=
  patterns <- _load_noise_patterns noise_pattern_file ;;
  lift (mkdir output_dir) ;;
  ret {| input_dir := input_dir;
         output_dir := output_dir;
         noise_pattern_file := noise_pattern_file;
         noise_patterns := patterns |}.

Definition truthy_attr (e : option Bs4.PageElement) (k : string) : bool :=
  match e with
  | Some t => match Bs4.get t k with Some v => Py.truthy v | None => false end
  | None => false
  end.

Definition item_of (e : option Bs4.PageElement) (k : string) : string :=
  match e with
  | Some t => Bs4.item t k
  | None => EmptyString
  end.

(** The loop over [soup.find_all('a', href=True)]. *)
Fixpoint first_http_link (links : list Bs4.PageElement) : M string :=
  match links with
  | [] => ret EmptyString
  | link :: rest =>
      let href := Bs4.item link "href" in
      if Py.startswith href "http"
      then
        parsed <- lift (urlparse href) ;;
        ret (fst parsed ++ "://" ++ snd parsed)
      else first_http_link rest
  end.

Definition extract_page_url (html_content : string) : M string :=
  soup <- lift (html_parser html_content) ;;
  let canonical := Bs4.find soup "link" (Some ("rel", Bs4.Equals "canonical")) in
  if truthy_attr canonical "href" then ret (item_of canonical "href")
  else
    let og_url :=
      Bs4.find soup "meta" (Some ("property", Bs4.Equals "og:url")) in
    if truthy_attr og_url "content" then ret (item_of og_url "content")
    else first_http_link (Bs4.find_all soup "a" (Some ("href", Bs4.Present))).

Definition noise_tags : list string :=
  ["script"; "style"; "noscript"; "iframe"; "object"; "embed"].

Definition remove_common_noise (soup : Bs4.BeautifulSoup)
    : M Bs4.BeautifulSoup :=
  let soup :=
    fold_left (fun soup tag => Bs4.prune_all (Bs4.is_tag tag) soup)
              noise_tags soup in
  let soup := Bs4.prune_all Bs4.is_comment soup in
  logger_info "Removed common noise elements" ;;
  ret soup.

(** The loop of [remove_pattern_noise]. *)
Fixpoint remove_patterns (patterns : list string) (html_content : string)
    : M string :=
  match patterns with
  | [] => ret html_content
  | pattern :: rest =>
      html_content <-
        try_except
          (lift (re_sub pattern "" html_content [MULTILINE; DOTALL]))
          is_re_error
          (fun e =>
             logger_warning ("Invalid regex pattern '" ++ pattern ++ "': "
                             ++ exn_str e) ;;
             ret html_content) ;;
      remove_patterns rest html_content
  end.

Definition remove_pattern_noise (self : HTMLToJSONConverter)
    (html_content : string) : M string :=
  html_content <- remove_patterns (noise_patterns self) html_content ;;
  match noise_patterns self with
  | [] => ret tt
  | _ => logger_info ("Applied "
                      ++ Py.str_of_nat (List.length (noise_patterns self))
                      ++ " noise patterns")
  end ;;
  ret html_content.

Definition heading_string (i : nat) (text : string) : string :=
  Py.repeat_string "#" i ++ " " ++ text ++ Py.newline ++ Py.newline.

Definition _simple_html_to_markdown (html_content : string) : M string :=
  soup <- lift (html_parser html_content) ;;
  let soup :=
    fold_left
      (fun soup i =>
         Bs4.set_strings ("h" ++ Py.str_of_nat i) (heading_string i) soup)
      (seq 1 6) soup in
  let soup :=
    Bs4.set_strings "p" (fun t => t ++ Py.newline ++ Py.newline) soup in
  let soup :=
    Bs4.convert_lists "ul"
      (map (Bs4.set_strings_of "li" (fun t => "- " ++ t ++ Py.newline)))
      soup in
  let soup :=
    Bs4.convert_lists "ol"
      (Bs4.number_items
         (fun i t => Py.str_of_nat i ++ ". " ++ t ++ Py.newline) 1)
      soup in
  ret (Bs4.get_text soup).

Definition html_to_markdown (html_content : string) : M string :=
  try_except
    (markdown <-
       lift (pypandoc_convert_text html_content "commonmark" "html"
               ["--wrap=none"]) ;;
     logger_info "Successfully converted HTML to Markdown" ;;
     ret markdown)
    is_Exception
    (fun e =>
       logger_error ("Failed to convert HTML to Markdown: " ++ exn_str e) ;;
       _simple_html_to_markdown html_content).

Definition headers_to_split_on : list (string * string) :=
  [("#", "Header 1"); ("##", "Header 2"); ("###", "Header 3");
   ("####", "Header 4"); ("#####", "Header 5"); ("######", "Header 6")].

(** The dict built for [doc], the [i]-th document. *)
Definition json_doc (url filename : string) (i : nat) (doc : Document.t)
    : JsonDoc.t :=
  {| JsonDoc.id := filename ++ "_" ++ Py.str_of_nat i;
     JsonDoc.content := Py.strip (Document.page_content doc);
     JsonDoc.metadata :=
       Py.update
         [("source", Py.Str filename); ("url", Py.Str url);
          ("section_id", Py.Int i)]
         (Document.metadata doc) |}.

(** [for i, doc in enumerate(docs): json_docs.append(...)], from index [i]. *)
Fixpoint json_docs_from (i : nat) (docs : list Document.t)
    (url filename : string) : list JsonDoc.t :=
  match docs with
  | [] => []
  | doc :: rest =>
      json_doc url filename i doc :: json_docs_from (S i) rest url filename
  end.

(** The [try] around [split_text], with its fallback. *)
Definition split_markdown (markdown_content : string) : M (list Document.t) :=
  try_except
    (docs <- lift (split_text headers_to_split_on false markdown_content) ;;
     logger_info ("Split markdown into " ++ Py.str_of_nat (List.length docs)
                  ++ " sections") ;;
     ret docs)
    is_Exception
    (fun e =>
       logger_warning ("Failed to split markdown with headers: "
                       ++ exn_str e) ;;
       ret [Document.mk markdown_content []]).

Definition markdown_to_json (markdown_content url filename : string)
    : M (list JsonDoc.t) :=
  docs <- split_markdown markdown_content ;;
  ret (json_docs_from 0 docs url filename).

(** Steps 2 and 3 of [process_html_file]: the noise filter. *)
Definition noise_filter (self : HTMLToJSONConverter) (html_content : string)
    : M string :=
  soup <- lift (html_parser html_content) ;;
  soup <- remove_common_noise soup ;;
  remove_pattern_noise self (soup_str soup).

(** The body of the [try] in [process_html_file]. *)
Definition process_html_file_body (self : HTMLToJSONConverter)
    (html_file : Path.t) : M (list JsonDoc.t) :=
  html_content <- lift (read_text html_file) ;;
  url <- extract_page_url html_content ;;
  logger_info ("Extracted URL: " ++ url) ;;
  clean_html <- noise_filter self html_content ;;
  markdown_content <- html_to_markdown clean_html ;;
  json_docs <- markdown_to_json markdown_content url (Path.stem html_file) ;;
  logger_info ("Successfully processed " ++ Path.name html_file ++ " -> "
               ++ Py.str_of_nat (List.length json_docs) ++ " documents") ;;
  ret json_docs.

Definition process_html_file (self : HTMLToJSONConverter)
    (html_file : Path.t) : M (list JsonDoc.t) :=
  logger_info ("Processing " ++ Path.name html_file) ;;
  try_except
    (process_html_file_body self html_file)
    is_Exception
    (fun e =>
       logger_error ("Failed to process " ++ Path.name html_file ++ ": "
                     ++ exn_str e) ;;
       ret []).

Definition value_eq_dec (a b : option Py.value) : {a = b} + {a <> b}.
Proof. repeat decide equality. Defined.

Definition _print_statistics (documents : list JsonDoc.t) : M unit :=
  let total_docs := List.length documents in
  let total_chars :=
    list_sum (map (fun doc => String.length (JsonDoc.content doc)) documents) in
  let sources :=
    nodup value_eq_dec
      (map (fun doc => Py.get "source" (JsonDoc.metadata doc)) documents) in
  emit (PrintStatistics total_docs total_chars (List.length sources)
          (if (0 <? total_docs)%nat then total_chars / total_docs else 0)).

(** The loop of [convert_all]: [all_documents.extend(docs)] file by file. *)
Fixpoint process_files (self : HTMLToJSONConverter) (html_files : list Path.t)
    (all_documents : list JsonDoc.t) : M (list JsonDoc.t) :=
  match html_files with
  | [] => ret all_documents
  | html_file :: rest =>
      docs <- process_html_file self html_file ;;
      process_files self rest (all_documents ++ docs)%list
  end.

Definition html_files_of (self : HTMLToJSONConverter) : list Path.t :=
  (glob (input_dir self) ".html" ++ glob (input_dir self) ".htm")%list.

Definition convert_all (self : HTMLToJSONConverter) : M unit :=
  let html_files := html_files_of self in
  match html_files with
  | [] => logger_warning ("No HTML files found in " ++ input_dir self)
  | _ =>
      logger_info ("Found " ++ Py.str_of_nat (List.length html_files)
                   ++ " HTML files") ;;
      all_documents <- process_files self html_files [] ;;
      let output_file :=
        Path.mk (output_dir self) "converted_documents.json" in
      lift (open_w output_file) ;;
      emit (JsonDump output_file "utf-8" all_documents false 2) ;;
      logger_info ("Saved " ++ Py.str_of_nat (List.length all_documents)
                   ++ " documents to " ++ output_dir self
                   ++ "/converted_documents.json") ;;
      _print_statistics all_documents
  end.

Definition main : M unit :=
  converter <- init "input" "output" "noise_pattern.txt" ;;
  convert_all converter.

End Converter.

(** The converter [self] with another list of patterns. *)
Definition with_patterns (self : HTMLToJSONConverter)
    (patterns : list string) : HTMLToJSONConverter :=
  {| input_dir := input_dir self;
     output_dir := output_dir self;
     noise_pattern_file := noise_pattern_file self;
     noise_patterns := patterns |}.

(** ** Installing the libraries: [install_requirements], [install_pandoc]

    The two functions run commands with [subprocess] and log; a command
    changes the machine it runs on, so the machine is threaded through. *)

Module Setup.

(** What [subprocess.check_call] and [subprocess.run(..., check=True)]
    raise: [CalledProcessError] on a non-zero exit status,
    [FileNotFoundError] when the program is not there, or another
    [OSError]; each with its [str]. *)
Inductive failure : Type :=
| CalledProcessError (msg : string)
| FileNotFoundError (msg : string)
| OSError (msg : string).

Definition str (e : failure) : string :=
  match e with
  | CalledProcessError m => m
  | FileNotFoundError m => m
  | OSError m => m
  end.

(** [except subprocess.CalledProcessError] *)
Definition is_CalledProcessError (e : failure) : bool :=
  match e with
  | CalledProcessError _ => true
  | _ => false
  end.

(** [except (subprocess.CalledProcessError, FileNotFoundError)] *)
Definition is_CalledProcessError_or_FileNotFoundError (e : failure) : bool :=
  match e with
  | CalledProcessError _ | FileNotFoundError _ => true
  | OSError _ => false
  end.

(** What a run does, in order: a command started, a [logger] call. *)
Inductive step : Type :=
| Spawn (argv : list string)
| Logged (lvl : level) (msg : string).

Definition commands (trace : list step) : list (list string) :=
  flat_map (fun st => match st with
                      | Spawn argv => [argv]
                      | Logged _ _ => []
                      end) trace.

Record run (machine A : Type) : Type :=
  Run { value : failure + A; trace : list step; final : machine }.
Arguments Run {machine A} value trace final.
Arguments value {machine A} r.
Arguments trace {machine A} r.
Arguments final {machine A} r.

Section Machine.

Context {machine : Type}.

(** [sys.executable] *)
Variable sys_executable : string.

(** Running a command to its end: what the call raises, if anything, and
    the machine the command leaves. *)
Variable spawn : list string -> machine -> option failure * machine.

Definition M (A : Type) : Type := machine -> run machine A.

Definition ret {A} (a : A) : M A := fun s => Run (inr a) [] s.

Definition andthen {A B} (m : M A) (k : M B) : M B :=
  fun s =>
    let r := m s in
    match value r with
    | inl e => Run (inl e) (trace r) (final r)
    | inr _ =>
        let r' := k (final r) in
        Run (value r') (trace r ++ trace r')%list (final r')
    end.

(** [try: m  except <classes> as e: handler e] *)
Definition try_except {A} (m : M A) (catches : failure -> bool)
    (handler : failure -> M A) : M A :=
  fun s =>
    let r := m s in
    match value r with
    | inl e =>
        if catches e
        then let r' := handler e (final r) in
             Run (value r') (trace r ++ trace r')%list (final r')
        else r
    | inr _ => r
    end.

Local Notation "m >> k" := (andthen m k) (at level 61, right associativity).

Definition log (lvl : level) (msg : string) : M unit :=
  fun s => Run (inr tt) [Logged lvl msg] s.

(** [subprocess.check_call(argv)]; [subprocess.run(argv, check=True,
    capture_output=True)] differs in what becomes of the output only. *)
Definition check_call (argv : list string) : M unit :=
  fun s =>
    let r := spawn argv s in
    Run (match fst r with Some e => inl e | None => inr tt end)
        [Spawn argv] (snd r).

Definition packages : list string :=
  ["beautifulsoup4"; "lxml"; "requests"; "langchain";
   "langchain-text-splitters"].

Definition pip_install (package : string) : list string :=
  [sys_executable; "-m"; "pip"; "install"; package].

(** The body of the loop of [install_requirements]. *)
Definition install_package (package : string) : M unit :=
  try_except
    (check_call (pip_install package) >>
     log INFO ("Successfully installed " ++ package))
    is_CalledProcessError
    (fun e => log ERROR ("Failed to install " ++ package ++ ": " ++ str e)).

Fixpoint for_each {A} (l : list A) (body : A -> M unit) : M unit :=
  match l with
  | [] => ret tt
  | x :: rest => body x >> for_each rest body
  end.

Definition install_requirements : M unit := for_each packages install_package.

Definition pandoc_version : list string := ["pandoc"; "--version"].
Definition apt_get_update : list string := ["apt-get"; "update"].
Definition apt_get_install : list string :=
  ["apt-get"; "install"; "-y"; "pandoc"].

(** The handler of the inner [try] of [install_pandoc]. *)
Definition pip_fallback (e : failure) : M unit :=
  log ERROR ("Failed to install Pandoc: " ++ str e) >>
  log INFO "Trying alternative installation method..." >>
  check_call (pip_install "pypandoc").

(** The inner [try] of [install_pandoc]. *)
Definition install_with_apt_get : M unit :=
  try_except
    (check_call apt_get_update >>
     check_call apt_get_install >>
     log INFO "Successfully installed Pandoc")
    is_CalledProcessError
    pip_fallback.

Definition install_pandoc : M unit :=
  try_except
    (check_call pandoc_version >>
     log INFO "Pandoc is already installed")
    is_CalledProcessError_or_FileNotFoundError
    (fun _ =>
       log INFO "Installing Pandoc..." >>
       install_with_apt_get).

(** The line logged for a package: its success, or its failure. *)
Definition package_report (package : string) (st : step) : Prop :=
  st = Logged INFO ("Successfully installed " ++ package)
  \/ exists e, is_CalledProcessError e = true
               /\ st = Logged ERROR ("Failed to install " ++ package ++ ": "
                                     ++ str e).

(** The check for pandoc failed with an exception [install_pandoc]
    handles. *)
Definition pandoc_missing (s : machine) : Prop :=
  exists e, fst (spawn pandoc_version s) = Some e
            /\ is_CalledProcessError_or_FileNotFoundError e = true.

(** One of the two [apt-get] commands, run from [s], ended with a non-zero
    exit status. *)
Definition apt_get_failed (s : machine) : Prop :=
  exists e, is_CalledProcessError e = true
            /\ (fst (spawn apt_get_update s) = Some e
                \/ (fst (spawn apt_get_update s) = None
                    /\ fst (spawn apt_get_install
                              (snd (spawn apt_get_update s))) = Some e)).

End Machine.

End Setup.

(** ** The section chunker, as the specification describes it *)

Module Chunker.

(** The name a heading of level [l] is recorded under. *)
Definition header_name (l : nat) : string := "Header " ++ Py.str_of_nat l.

Fixpoint count_hashes (s : string) : nat * string :=
  match s with
  | String c s' =>
      if Ascii.eqb c "#"
      then let r := count_hashes s' in (S (fst r), snd r)
      else (0, s)
  | EmptyString => (0, s)
  end.

(** Modelled from the spec: the heading splitter behind [split_text] is the
    langchain library's [MarkdownHeaderTextSplitter], whose code is not
    among the sources.  Section 4.3: a line is recognized as a heading of
    level 1 to 6 by its split marker, [#] to [######]; here the marker is
    followed by a space or ends the line, and the heading text is the rest
    of the line, trimmed. *)
Definition heading_of (line : string) : option (nat * string) :=
  let r := count_hashes line in
  if ((1 <=? fst r)%nat && (fst r <=? 6)%nat
      && (String.eqb (snd r) "" || Py.startswith (snd r) " "))%bool
  then Some (fst r, Py.strip (snd r))
  else None.

Definition at_or_below (l : nat) (key : string) : bool :=
  existsb (String.eqb key) (map header_name (seq l (7 - l))).

(** Modelled from the spec: the heading path kept by the splitter, which is
    not among the sources.  Section 4.3: each new heading at level [l]
    replaces any previously recorded heading at level [l] or deeper and
    leaves the shallower levels untouched. *)
Definition enter (l : nat) (title : string) (path : Py.dict) : Py.dict :=
  (filter (fun kv => negb (at_or_below l (fst kv))) path
   ++ [(header_name l, Py.Str title)])%list.

(** Modelled from the spec: the loop of the splitter, which is not among the
    sources.  Section 4.3: the text is split at heading lines, and the
    heading line stays in the content of the section it introduces;
    [current] holds the lines of the section being read and [path] its
    heading path. *)
Fixpoint chunk_from (path : Py.dict) (current : list string)
    (lines : list string) : list Document.t :=
  match lines with
  | [] => [Document.mk (Py.join Py.newline current) path]
  | line :: rest =>
      match heading_of line with
      | Some (l, title) =>
          Document.mk (Py.join Py.newline current) path
          :: chunk_from (enter l title path) [line] rest
      | None => chunk_from path (current ++ [line])%list rest
      end
  end.

(** Modelled from the spec: [chunk(text)] of section 4.3, the splitter that
    is not among the sources.  A text with no heading is one section with
    an empty heading path; text before the first heading is a section of
    its own. *)
Definition chunk (text : string) : list Document.t :=
  match Py.split_on (ascii_of_nat 10) text with
  | [] => []
  | line :: rest =>
      match heading_of line with
      | Some (l, title) => chunk_from (enter l title []) [line] rest
      | None => chunk_from [] [line] rest
      end
  end.

(** The first line of a section's content. *)
Definition first_line (d : Document.t) : string :=
  hd EmptyString (Py.split_on (ascii_of_nat 10) (Document.page_content d)).

Definition no_heading (text : string) : Prop :=
  Forall (fun line => heading_of line = None)
         (Py.split_on (ascii_of_nat 10) text).

End Chunker.

(** ** A small world to run the converter in

    A directory with two pages that share a stem and a file the parser
    rejects, a pattern file with a malformed and a valid pattern, and no
    pandoc, so that the converter's own fallback does the conversion. *)

Module Demo.

Definition dquote : string := String (ascii_of_nat 34) "".

Definition void_element (name : string) : bool :=
  existsb (String.eqb name) ["link"; "meta"; "br"; "hr"; "img"; "input"].

(** [str(soup)]: tags with their attributes, strings as they are. *)
Fixpoint render_of (e : Bs4.PageElement) : string :=
  match e with
  | Bs4.Tag n attrs cs =>
      "<" ++ n
      ++ String.concat ""
           (map (fun kv => " " ++ fst kv ++ "=" ++ dquote ++ snd kv ++ dquote)
                attrs)
      ++ (if void_element n then "/>"
          else ">" ++ String.concat "" (map render_of cs)
               ++ "</" ++ n ++ ">")
  | Bs4.Text Bs4.Comment s => "<!--" ++ s ++ "-->"
  | Bs4.Text _ s => s
  end.

Definition render (soup : Bs4.BeautifulSoup) : string :=
  String.concat "" (map render_of soup).

Definition hello_html : string := "<p>Hello world</p>".

Definition hello_soup : Bs4.BeautifulSoup :=
  [Bs4.Tag "p" [] [Bs4.Text Bs4.NavigableString "Hello world"]].

Definition canonical_html : string :=
  "<link rel='canonical' href='https://x.test/page'>"
  ++ "<meta property='og:url' content='https://other.test/elsewhere'>"
  ++ "<a href='https://third.test/a'>a</a>".

Definition canonical_link : Bs4.PageElement :=
  Bs4.Tag "link" [("rel", "canonical"); ("href", "https://x.test/page")] [].

Definition page_rest : Bs4.BeautifulSoup :=
  [Bs4.Tag "meta" [("property", "og:url");
                   ("content", "https://other.test/elsewhere")] [];
   Bs4.Tag "a" [("href", "https://third.test/a")]
     [Bs4.Text Bs4.NavigableString "a"]].

Definition canonical_soup : Bs4.BeautifulSoup := canonical_link :: page_rest.

Definition rejected_html : string := "<![x y]>".

(** The documents this world's parser knows; any other markup without a
    tag is a single string. *)
Definition pages : list (string * Bs4.BeautifulSoup) :=
  [(hello_html, hello_soup);
   (canonical_html, canonical_soup);
   (render canonical_soup, canonical_soup);
   (render page_rest, page_rest)].

Fixpoint page_of (markup : string) (table : list (string * Bs4.BeautifulSoup))
    : option Bs4.BeautifulSoup :=
  match table with
  | [] => None
  | (m, soup) :: rest =>
      if String.eqb markup m then Some soup else page_of markup rest
  end.

Definition parser (markup : string) : result Bs4.BeautifulSoup :=
  match page_of markup pages with
  | Some soup => Ok soup
  | None =>
      if String.eqb markup rejected_html
      then Raise (Exception "ParserRejectedMarkup")
      else Ok [Bs4.Text Bs4.NavigableString markup]
  end.

(** Scheme and host of a URL of the form [scheme://host/...]. *)
Fixpoint split_scheme (acc url : string) : option (string * string) :=
  match url with
  | EmptyString => None
  | String c rest =>
      if Py.startswith url "://"
      then Some (Py.rev_string acc, String.substring 2 (String.length rest) rest)
      else split_scheme (String c acc) rest
  end.

Definition parse_url (url : string) : result (string * string) :=
  match split_scheme "" url with
  | Some (scheme, rest) => Ok (scheme, hd "" (Py.split_on "/" rest))
  | None => Ok ("", "")
  end.

(** Patterns without metacharacters, and one that does not compile. *)
Fixpoint delete_all (fuel : nat) (pattern s : string) : string :=
  match fuel with
  | 0 => s
  | S fuel' =>
      match s with
      | EmptyString => EmptyString
      | String c rest =>
          if (Py.truthy pattern && Py.startswith s pattern)%bool
          then delete_all fuel' pattern
                 (String.substring (String.length pattern)
                    (String.length s) s)
          else String c (delete_all fuel' pattern rest)
      end
  end.

Definition sub (pattern repl s : string) (flags : list re_flag)
    : result string :=
  if String.eqb pattern "("
  then Raise (re_error "missing ), unterminated subpattern at position 0")
  else Ok (delete_all (S (String.length s)) pattern s).

Definition read (p : Path.t) : result string :=
  if String.eqb (Path.name p) "a.html" then Ok hello_html
  else if String.eqb (Path.name p) "a.htm" then Ok hello_html
  else if String.eqb (Path.name p) "bad.html" then Ok rejected_html
  else if String.eqb (Path.name p) "page.html" then Ok canonical_html
  else Raise (Exception "FileNotFoundError").

Definition pattern_lines : list string :=
  ["(" ++ Py.newline; Py.newline; "  Hello " ++ Py.newline].

#[local] Instance world : World := {
  html_parser := parser;
  soup_str := render;
  urlparse := parse_url;
  re_sub := sub;
  pypandoc_convert_text := fun _ _ _ _ => Raise (Exception "No pandoc was found");
  split_text := fun _ _ text => Ok (Chunker.chunk text);
  iterdir := fun dir =>
    if String.eqb dir "input" then ["a.html"; "bad.html"; "a.htm"] else [];
  read_text := read;
  path_exists := fun path => String.eqb path "noise_pattern.txt";
  read_lines := fun path =>
    if String.eqb path "noise_pattern.txt" then Ok pattern_lines
    else Raise (Exception "FileNotFoundError");
  mkdir := fun _ => Ok tt;
  open_w := fun _ => Ok tt
}.

Definition converter (patterns : list string) : HTMLToJSONConverter :=
  {| input_dir := "input";
     output_dir := "output";
     noise_pattern_file := "noise_pattern.txt";
     noise_patterns := patterns |}.

End Demo.

(** ** A second world, where more goes wrong

    The first world with a directory that holds only the rejected page, a
    page whose first link is not a URL [urlparse] accepts, an output
    directory that cannot be written and one that cannot be made. *)

Module Failing.

Definition links_html : string :=
  "<a href='http://[::1'>broken</a><a href='https://good.test/x'>good</a>".

Definition links_soup : Bs4.BeautifulSoup :=
  [Bs4.Tag "a" [("href", "http://[::1")]
     [Bs4.Text Bs4.NavigableString "broken"];
   Bs4.Tag "a" [("href", "https://good.test/x")]
     [Bs4.Text Bs4.NavigableString "good"]].

Definition article_html : string :=
  "<div><h2>Title</h2><p>Some <b>bold</b> text</p>"
  ++ "<ul><li>a</li><li>b</li></ul><ol><li>x</li><li>y</li></ol></div>".

Definition article_soup : Bs4.BeautifulSoup :=
  let text := Bs4.Text Bs4.NavigableString in
  [Bs4.Tag "div" []
     [Bs4.Tag "h2" [] [text "Title"];
      Bs4.Tag "p" [] [text "Some "; Bs4.Tag "b" [] [text "bold"]; text " text"];
      Bs4.Tag "ul" [] [Bs4.Tag "li" [] [text "a"]; Bs4.Tag "li" [] [text "b"]];
      Bs4.Tag "ol" [] [Bs4.Tag "li" [] [text "x"]; Bs4.Tag "li" [] [text "y"]]]].

Definition article_markdown : string :=
  Py.join Py.newline
    ["## Title"; ""; "Some bold text"; ""; "- a"; "- b"; "";
     "1. x"; "2. y"; ""; ""].

Definition parser (markup : string) : result Bs4.BeautifulSoup :=
  if String.eqb markup links_html then Ok links_soup
  else if String.eqb markup article_html then Ok article_soup
  else Demo.parser markup.

Definition parse_url (url : string) : result (string * string) :=
  if String.eqb url "http://[::1" then Raise (Exception "Invalid IPv6 URL")
  else Demo.parse_url url.

Definition read (p : Path.t) : result string :=
  if String.eqb (Path.name p) "links.html" then Ok links_html
  else Demo.read p.

#[local] Instance world : World := {
  html_parser := parser;
  soup_str := Demo.render;
  urlparse := parse_url;
  re_sub := Demo.sub;
  pypandoc_convert_text := fun _ _ _ _ => Raise (Exception "No pandoc was found");
  split_text := fun _ _ text => Ok (Chunker.chunk text);
  iterdir := fun dir =>
    if String.eqb dir "rejected" then ["bad.html"]
    else if String.eqb dir "input" then ["a.html"; "bad.html"; "a.htm"]
    else [];
  read_text := read;
  path_exists := fun path => String.eqb path "noise_pattern.txt";
  read_lines := fun path =>
    if String.eqb path "noise_pattern.txt" then Ok Demo.pattern_lines
    else Raise (Exception "FileNotFoundError");
  mkdir := fun dir =>
    if String.eqb dir "forbidden/output"
    then Raise (Exception "FileNotFoundError") else Ok tt;
  open_w := fun p =>
    if String.eqb (Path.parent p) "readonly"
    then Raise (Exception "PermissionError") else Ok tt
}.

Definition converter (input output : string) : HTMLToJSONConverter :=
  {| input_dir := input;
     output_dir := output;
     noise_pattern_file := "noise_pattern.txt";
     noise_patterns := [] |}.

End Failing.

(** A machine to run the installers on: what is installed, whether
    [apt-get] is there and whether it works.  [pip] cannot build [lxml]. *)
Module Colab.

Record machine : Type :=
  mk { installed : list string; has_apt : bool; apt_works : bool }.

Definition python : string := "/usr/bin/python3".

Definition argv_eqb (a b : list string) : bool :=
  if list_eq_dec String.string_dec a b then true else false.

Definition install (package : string) (m : machine) : machine :=
  {| installed := package :: installed m;
     has_apt := has_apt m;
     apt_works := apt_works m |}.

Definition exit_status_1 (program : string) : Setup.failure :=
  Setup.CalledProcessError
    ("Command '" ++ program ++ "' returned non-zero exit status 1.").

Definition no_such_file (program : string) : Setup.failure :=
  Setup.FileNotFoundError
    ("[Errno 2] No such file or directory: '" ++ program ++ "'").

Definition spawn (argv : list string) (m : machine)
    : option Setup.failure * machine :=
  match argv with
  | [_; "-m"; "pip"; "install"; package] =>
      if String.eqb package "lxml" then (Some (exit_status_1 "pip"), m)
      else (None, install package m)
  | ["pandoc"; "--version"] =>
      if existsb (String.eqb "pandoc") (installed m) then (None, m)
      else (Some (no_such_file "pandoc"), m)
  | "apt-get" :: _ =>
      if negb (has_apt m) then (Some (no_such_file "apt-get"), m)
      else if negb (apt_works m) then (Some (exit_status_1 "apt-get"), m)
      else if argv_eqb argv Setup.apt_get_install
           then (None, install "pandoc" m)
           else (None, m)
  | _ => (Some (no_such_file "?"), m)
  end.

Definition fresh : machine :=
  {| installed := []; has_apt := true; apt_works := true |}.

Definition without_apt : machine :=
  {| installed := []; has_apt := false; apt_works := false |}.

Definition broken_apt : machine :=
  {| installed := []; has_apt := true; apt_works := false |}.

End Colab.

(** ** Notions the statements are written with *)

Module Spec.

Definition all_space (s : string) : Prop :=
  Forall (fun c => Py.isspace c = true) (list_ascii_of_string s).

Definition starts_clean (s : string) : Prop :=
  match s with
  | String c _ => Py.isspace c = false
  | EmptyString => True
  end.

(** [t] is [s] with its leading and trailing white space trimmed. *)
Definition trimmed_of (s t : string) : Prop :=
  (exists pre post, s = pre ++ t ++ post /\ all_space pre /\ all_space post)
  /\ starts_clean t /\ starts_clean (Py.rev_string t).

Definition is_dump (ev : event) : bool :=
  match ev with
  | JsonDump _ _ _ _ _ => true
  | _ => false
  end.

Definition is_log (ev : event) : bool :=
  match ev with
  | Log _ _ => true
  | _ => false
  end.

(** The character [c] does not occur in [s]. *)
Definition free_of (c : ascii) (s : string) : Prop :=
  ~ In c (list_ascii_of_string s).

(** [e] is the node [e0] as far as its own name, attributes and text go. *)
Definition same_node (e e0 : Bs4.PageElement) : Prop :=
  match e, e0 with
  | Bs4.Tag n a _, Bs4.Tag n0 a0 _ => n = n0 /\ a = a0
  | Bs4.Text k s, Bs4.Text k0 s0 => k = k0 /\ s = s0
  | _, _ => False
  end.

(** *** The documents the fallback conversion renders block by block *)

(** The level of a heading element, from its name. *)
Definition heading_level (name : string) : option nat :=
  List.find (fun i => String.eqb name ("h" ++ Py.str_of_nat i)) (seq 1 6).

(** The names of the elements [_simple_html_to_markdown] rewrites. *)
Definition rewritten (name : string) : bool :=
  match heading_level name with
  | Some _ => true
  | None => existsb (String.eqb name) ["p"; "ul"; "ol"; "li"]
  end.

(** No element that is rewritten, at any depth. *)
Fixpoint plain (e : Bs4.PageElement) : bool :=
  match e with
  | Bs4.Text _ _ => true
  | Bs4.Tag n _ cs => negb (rewritten n) && forallb plain cs
  end.

(** What a list holds: items with plain content, and plain elements. *)
Definition plain_item (c : Bs4.PageElement) : bool :=
  match c with
  | Bs4.Text _ _ => true
  | Bs4.Tag n _ cs => if String.eqb n "li" then forallb plain cs else plain c
  end.

(** Headings and paragraphs with plain content, lists of plain items, and
    any other element around such blocks. *)
Fixpoint blocks (e : Bs4.PageElement) : bool :=
  match e with
  | Bs4.Text _ _ => true
  | Bs4.Tag n _ cs =>
      match heading_level n with
      | Some _ => forallb plain cs
      | None =>
          if String.eqb n "p" then forallb plain cs
          else if (String.eqb n "ul" || String.eqb n "ol")%bool
               then forallb plain_item cs
               else forallb blocks cs
      end
  end.

Definition is_li (c : Bs4.PageElement) : bool :=
  match c with
  | Bs4.Tag n _ _ => String.eqb n "li"
  | Bs4.Text _ _ => false
  end.

Fixpoint bullets (cs : list Bs4.PageElement) : string :=
  match cs with
  | [] => ""
  | c :: rest =>
      (if is_li c then "- " ++ Bs4.get_text_of c ++ Py.newline
       else Bs4.get_text_of c)
      ++ bullets rest
  end.

Fixpoint numbered (i : nat) (cs : list Bs4.PageElement) : string :=
  match cs with
  | [] => ""
  | c :: rest =>
      if is_li c
      then Py.str_of_nat i ++ ". " ++ Bs4.get_text_of c ++ Py.newline
           ++ numbered (S i) rest
      else Bs4.get_text_of c ++ numbered i rest
  end.

(** The text of a block: a heading line with its marker, a paragraph
    followed by a blank line, a list with its bullets or numbers. *)
Fixpoint block_markdown (e : Bs4.PageElement) : string :=
  match e with
  | Bs4.Text _ _ => Bs4.get_text_of e
  | Bs4.Tag n _ cs =>
      match heading_level n with
      | Some i => heading_string i (Bs4.get_text_of e)
      | None =>
          if String.eqb n "p"
          then Bs4.get_text_of e ++ Py.newline ++ Py.newline
          else if String.eqb n "ul" then bullets cs ++ Py.newline
          else if String.eqb n "ol" then numbered 1 cs ++ Py.newline
          else String.concat "" (map block_markdown cs)
      end
  end.

(** The loops of [_simple_html_to_markdown] on one element of the
    document, in their order. *)
Definition rewrite_element (e : Bs4.PageElement) : Bs4.PageElement :=
  Bs4.convert_lists_of "ol"
    (Bs4.number_items
       (fun i t => Py.str_of_nat i ++ ". " ++ t ++ Py.newline) 1)
    (Bs4.convert_lists_of "ul"
       (map (Bs4.set_strings_of "li" (fun t => "- " ++ t ++ Py.newline)))
       (Bs4.set_strings_of "p" (fun t => t ++ Py.newline ++ Py.newline)
          (Bs4.set_strings_of "h6" (heading_string 6)
             (Bs4.set_strings_of "h5" (heading_string 5)
                (Bs4.set_strings_of "h4" (heading_string 4)
                   (Bs4.set_strings_of "h3" (heading_string 3)
                      (Bs4.set_strings_of "h2" (heading_string 2)
                         (Bs4.set_strings_of "h1" (heading_string 1)
                            e)))))))).

(** A computation that only logs. *)
Definition logs_only {A} (m : M A) : Prop :=
  Forall (fun ev => is_log ev = true) (events m).

Section InWorld.

Context {W : World}.

(** The records a file contributes to the run. *)
Definition records_of (self : HTMLToJSONConverter) (html_file : Path.t)
    : list JsonDoc.t :=
  match outcome (process_html_file self html_file) with
  | Ok docs => docs
  | Raise _ => []
  end.

(** The strategies of page URL extraction, each one either failing ([None])
    or giving the computation of its result. *)
Definition canonical_href (soup : Bs4.BeautifulSoup) : option (M string) :=
  match Bs4.find soup "link" (Some ("rel", Bs4.Equals "canonical")) with
  | Some link =>
      match Bs4.get link "href" with
      | Some (String c h) => Some (ret (String c h))
      | _ => None
      end
  | None => None
  end.

Definition og_url_content (soup : Bs4.BeautifulSoup) : option (M string) :=
  match Bs4.find soup "meta" (Some ("property", Bs4.Equals "og:url")) with
  | Some meta =>
      match Bs4.get meta "content" with
      | Some (String c h) => Some (ret (String c h))
      | _ => None
      end
  | None => None
  end.

(** Scheme and host of the first anchor whose [href] starts with [http]. *)
Definition first_anchor_origin (soup : Bs4.BeautifulSoup)
    : option (M string) :=
  match
    List.find (fun href => Py.startswith href "http")
      (map (fun a => Bs4.item a "href")
           (Bs4.find_all soup "a" (Some ("href", Bs4.Present))))
  with
  | Some href =>
      Some (parsed <- lift (urlparse href) ;;
            ret (fst parsed ++ "://" ++ snd parsed))
  | None => None
  end.

Definition page_url_strategies (soup : Bs4.BeautifulSoup)
    : list (option (M string)) :=
  [canonical_href soup; og_url_content soup; first_anchor_origin soup].

(** The first strategy that succeeds decides; the empty string if none. *)
Fixpoint first_success (strategies : list (option (M string))) : M string :=
  match strategies with
  | [] => ret EmptyString
  | Some m :: _ => m
  | None :: rest => first_success rest
  end.

(** One pattern applied as a global replace-with-empty, skipped when the
    engine refuses it. *)
Definition remove_matches (text pattern : string) : string :=
  match re_sub pattern "" text [MULTILINE; DOTALL] with
  | Ok t => t
  | Raise _ => text
  end.

Definition sequential_removal (patterns : list string) (html : string)
    : string :=
  fold_left remove_matches patterns html.

Definition invalid_pattern_warning (pattern : string) (e : exn) : event :=
  Log WARNING ("Invalid regex pattern '" ++ pattern ++ "': " ++ exn_str e).

End InWorld.

End Spec.

(** * Theorems *)

(** ** The monad *)

Lemma outcome_bind {A B} (m : M A) (k : A -> M B) :
  outcome (bind m k) =
  match outcome m with
  | Ok a => outcome (k a)
  | Raise e => Raise e
  end.
Proof. unfold outcome, bind. destruct (fst m); reflexivity. Qed.

Lemma events_bind_ok {A B} (m : M A) (k : A -> M B) a :
  outcome m = Ok a -> events (bind m k) = (events m ++ events (k a))%list.
Proof. unfold outcome, events, bind. intros ->. reflexivity. Qed.

Lemma events_bind_raise {A B} (m : M A) (k : A -> M B) e :
  outcome m = Raise e -> events (bind m k) = events m.
Proof. unfold outcome, events, bind. intros ->. reflexivity. Qed.

Lemma bind_ret {A B} (a : A) (k : A -> M B) : bind (ret a) k = k a.
Proof. unfold bind, ret. simpl. destruct (k a); reflexivity. Qed.

Lemma bind_lift_ok {A B} (a : A) (k : A -> M B) : bind (lift (Ok a)) k = k a.
Proof. apply bind_ret. Qed.

Lemma bind_lift_raise {A B} (e : exn) (k : A -> M B) :
  bind (lift (Raise e)) k = (Raise e, []).
Proof. reflexivity. Qed.

Lemma outcome_try_except_ok {A} (m : M A) c h a :
  outcome m = Ok a -> outcome (try_except m c h) = Ok a.
Proof. unfold outcome, try_except. intros H. rewrite H. exact H. Qed.

Lemma outcome_try_except_all {A} (m : M A) h :
  outcome (try_except m is_Exception h) =
  match outcome m with
  | Ok a => Ok a
  | Raise e => outcome (h e)
  end.
Proof.
  unfold outcome, try_except.
  destruct (fst m) eqn:E; simpl; [exact E | reflexivity].
Qed.

Lemma events_try_except_raise {A} (m : M A) h e :
  outcome m = Raise e ->
  events (try_except m is_Exception h) = (events m ++ events (h e))%list.
Proof. unfold outcome, events, try_except. intros ->. reflexivity. Qed.

Lemma surjective_M {A} (m : M A) : m = (outcome m, events m).
Proof. destruct m; reflexivity. Qed.

(** ** Strings *)

Lemma append_nil_r (s : string) : s ++ "" = s.
Proof. induction s; simpl; congruence. Qed.

Lemma append_assoc (a b c : string) : (a ++ b) ++ c = a ++ (b ++ c).
Proof. induction a; simpl; congruence. Qed.

Lemma length_append (a b : string) :
  String.length (a ++ b) = String.length a + String.length b.
Proof. induction a; simpl; congruence. Qed.

Lemma append_inj_l (a b c : string) : a ++ b = a ++ c -> b = c.
Proof. induction a; simpl; intros H; [exact H | inversion H; auto]. Qed.

Lemma rev_string_append (a b : string) :
  Py.rev_string (a ++ b) = Py.rev_string b ++ Py.rev_string a.
Proof.
  induction a; simpl.
  - now rewrite append_nil_r.
  - now rewrite IHa, append_assoc.
Qed.

Lemma rev_string_involutive (s : string) : Py.rev_string (Py.rev_string s) = s.
Proof.
  induction s; simpl; [reflexivity |].
  now rewrite rev_string_append, IHs.
Qed.

Lemma all_space_nil : Spec.all_space "".
Proof. constructor. Qed.

Lemma all_space_cons c s :
  Py.isspace c = true -> Spec.all_space s -> Spec.all_space (String c s).
Proof. intros; constructor; assumption. Qed.

Lemma lstrip_spec (s : string) :
  exists pre, s = pre ++ Py.lstrip s /\ Spec.all_space pre
              /\ Spec.starts_clean (Py.lstrip s).
Proof.
  induction s as [| c s IH]; simpl.
  - exists ""; repeat split; constructor.
  - destruct (Py.isspace c) eqn:E.
    + destruct IH as (pre & Hs & Hp & Hc).
      exists (String c pre); simpl; repeat split.
      * now rewrite <- Hs.
      * now apply all_space_cons.
      * exact Hc.
    + exists ""; simpl; repeat split; [constructor | exact E].
Qed.

Lemma rstrip_spec (s : string) :
  exists post, s = Py.rstrip s ++ post /\ Spec.all_space post
               /\ Spec.starts_clean (Py.rev_string (Py.rstrip s)).
Proof.
  induction s as [| c s IH]; simpl.
  - exists ""; repeat split; constructor.
  - destruct IH as (post & Hs & Hp & Hc).
    destruct (Py.rstrip s) as [| c' r] eqn:R.
    + simpl in Hs. subst post.
      destruct (Py.isspace c) eqn:E.
      * exists (String c s); repeat split; simpl; auto using all_space_cons.
      * exists s; repeat split; simpl; auto.
    + exists post; repeat split; auto.
      * simpl. simpl in Hs. now rewrite <- Hs.
      * change (Py.rev_string (String c (String c' r)))
          with (Py.rev_string (String c' r) ++ String c "").
        destruct (Py.rev_string (String c' r)) eqn:Q; simpl.
        -- apply (f_equal Py.rev_string) in Q.
           rewrite rev_string_involutive in Q. discriminate.
        -- exact Hc.
Qed.

Lemma lstrip_suffix_clean (s : string) :
  Spec.starts_clean (Py.rev_string s) ->
  Spec.starts_clean (Py.rev_string (Py.lstrip s)).
Proof.
  induction s as [| c s IH]; simpl; auto.
  destruct (Py.isspace c) eqn:E; auto.
  intros H. apply IH.
  destruct (Py.rev_string s); simpl in *; auto.
Qed.

Lemma strip_trimmed (s : string) : Spec.trimmed_of s (Py.strip s).
Proof.
  unfold Py.strip.
  destruct (rstrip_spec s) as (post & Hs & Hpost & Hr).
  destruct (lstrip_spec (Py.rstrip s)) as (pre & Hl & Hpre & Hc).
  repeat split.
  - exists pre, post. repeat split; auto.
    rewrite <- append_assoc, <- Hl. exact Hs.
  - exact Hc.
  - now apply lstrip_suffix_clean.
Qed.

(** ** Dictionaries *)

Lemma get_set_same k v d : Py.get k (Py.set k v d) = Some v.
Proof.
  induction d as [| [k' v'] d IH]; simpl.
  - now rewrite String.eqb_refl.
  - destruct (String.eqb k k') eqn:E; simpl; rewrite ?String.eqb_refl, ?E; auto.
Qed.

Lemma get_set_other k k' v d :
  k <> k' -> Py.get k (Py.set k' v d) = Py.get k d.
Proof.
  intros N. apply String.eqb_neq in N.
  induction d as [| [k2 v2] d IH]; simpl.
  - now rewrite N.
  - destruct (String.eqb k' k2) eqn:E; simpl.
    + apply String.eqb_eq in E. subst k2. now rewrite N.
    + destruct (String.eqb k k2); auto.
Qed.

Lemma get_update_absent k d m :
  ~ In k (Py.keys m) -> Py.get k (Py.update d m) = Py.get k d.
Proof.
  unfold Py.update. revert d.
  induction m as [| [k' v'] m IH]; simpl; intros d N; [reflexivity |].
  rewrite IH by tauto.
  apply get_set_other. intros ->. tauto.
Qed.

Lemma get_in_keys k v d : Py.get k d = Some v -> In k (Py.keys d).
Proof.
  induction d as [| [k' v'] d IH]; simpl; [discriminate |].
  destruct (String.eqb k k') eqn:E; intros H.
  - left. symmetry. now apply String.eqb_eq.
  - right. auto.
Qed.

Lemma get_update_present k v d m :
  Py.well_formed m -> Py.get k m = Some v ->
  Py.get k (Py.update d m) = Some v.
Proof.
  unfold Py.well_formed, Py.update. revert d.
  induction m as [| [k' v'] m IH]; simpl; intros d ND H; [discriminate |].
  inversion ND as [| ? ? Hnotin ND']; subst.
  destruct (String.eqb k k') eqn:E.
  - apply String.eqb_eq in E. subst k'. inversion H; subst v'.
    change (Py.get k (Py.update (Py.set k v d) m) = Some v).
    rewrite get_update_absent by exact Hnotin.
    apply get_set_same.
  - now apply IH.
Qed.

(** ** Document assembly *)

Lemma length_json_docs_from i docs url filename :
  List.length (json_docs_from i docs url filename) = List.length docs.
Proof. revert i; induction docs; simpl; intros; auto. Qed.

Lemma nth_error_json_docs_from docs : forall i n doc url filename,
  nth_error docs n = Some doc ->
  nth_error (json_docs_from i docs url filename) n
  = Some (json_doc url filename (i + n) doc).
Proof.
  induction docs as [| d docs IH]; intros i n doc url filename H.
  - destruct n; discriminate.
  - destruct n as [| n]; simpl in *.
    + inversion H; subst. now rewrite Nat.add_0_r.
    + rewrite (IH (S i) n doc) by exact H.
      now rewrite Nat.add_succ_r.
Qed.

Lemma outcome_markdown_to_json `{W : World} md url filename :
  outcome (markdown_to_json md url filename) =
  match outcome (split_markdown md) with
  | Ok docs => Ok (json_docs_from 0 docs url filename)
  | Raise e => Raise e
  end.
Proof.
  unfold markdown_to_json. rewrite outcome_bind.
  destruct (outcome (split_markdown md)); reflexivity.
Qed.

(** C5.  Assembly (the loop of [markdown_to_json]) gives one record per
    section, in order: the record at index [i] has [id] equal to
    [source_name_i], the section's text trimmed of leading and trailing
    white space as [content], and as [metadata] the dict
    [{source, url, section_id: i}] updated with the section's heading path,
    so that a key of the heading path wins and every other key keeps the
    value of the three base entries.  No section is dropped, whatever its
    content is after trimming; and [markdown_to_json] returns this list for
    the sections the splitting step gave. *)
Theorem assembly_one_record_per_section
    (docs : list Document.t) (source_name page_url : string) :
  let records := json_docs_from 0 docs page_url source_name in
  let base i :=
    [("source", Py.Str source_name); ("url", Py.Str page_url);
     ("section_id", Py.Int i)] in
  List.length records = List.length docs
  /\ (forall i section, nth_error docs i = Some section ->
      exists record,
        nth_error records i = Some record
        /\ JsonDoc.id record = source_name ++ "_" ++ Py.str_of_nat i
        /\ JsonDoc.content record = Py.strip (Document.page_content section)
        /\ Spec.trimmed_of (Document.page_content section)
                           (JsonDoc.content record)
        /\ JsonDoc.metadata record
           = Py.update (base i) (Document.metadata section)
        /\ (forall k, ~ In k (Py.keys (Document.metadata section)) ->
            Py.get k (JsonDoc.metadata record) = Py.get k (base i))
        /\ (Py.well_formed (Document.metadata section) ->
            forall k v, Py.get k (Document.metadata section) = Some v ->
                        Py.get k (JsonDoc.metadata record) = Some v))
  /\ (forall (W : World) markdown_content,
      outcome (split_markdown markdown_content) = Ok docs ->
      outcome (markdown_to_json markdown_content page_url source_name)
      = Ok records).
Proof.
  cbv zeta. split; [apply length_json_docs_from | split].
  - intros i section H.
    exists (json_doc page_url source_name i section).
    split; [exact (nth_error_json_docs_from docs 0 i section _ _ H) |].
    simpl. repeat split.
    + apply strip_trimmed.
    + apply strip_trimmed.
    + apply strip_trimmed.
    + intros k N. now apply get_update_absent.
    + intros WF k v G. now apply get_update_present.
  - intros W md H. rewrite outcome_markdown_to_json, H. reflexivity.
Qed.

(** ** Page URL extraction *)

Lemma first_http_link_find `{W : World} (links : list Bs4.PageElement) :
  first_http_link links =
  match List.find (fun href => Py.startswith href "http")
                  (map (fun a => Bs4.item a "href") links) with
  | Some href =>
      parsed <- lift (urlparse href) ;;
      ret (fst parsed ++ "://" ++ snd parsed)
  | None => ret ""
  end.
Proof.
  induction links as [| link rest IH]; simpl; [reflexivity |].
  destruct (Py.startswith (Bs4.item link "href") "http"); auto.
Qed.

Lemma extract_page_url_parsed `{W : World} html_content soup :
  html_parser html_content = Ok soup ->
  extract_page_url html_content
  = Spec.first_success (Spec.page_url_strategies soup).
Proof.
  intros P. unfold extract_page_url. rewrite P, bind_lift_ok.
  unfold Spec.page_url_strategies, Spec.first_success,
    Spec.canonical_href, Spec.og_url_content, Spec.first_anchor_origin.
  unfold truthy_attr, item_of, Bs4.item.
  destruct (Bs4.find soup "link" _) as [link |];
    [destruct (Bs4.get link "href") as [[| c h] |]; simpl; try reflexivity |];
    (destruct (Bs4.find soup "meta" _) as [meta |];
     [destruct (Bs4.get meta "content") as [[| c' h'] |]; simpl;
      try reflexivity |]);
    rewrite first_http_link_find;
    destruct (List.find _ _); reflexivity.
Qed.

(** C2.  Page URL extraction is the cascade of the three strategies, in
    order: the non-empty [href] of the first [<link rel="canonical">], the
    non-empty [content] of the first [<meta property="og:url">], scheme and
    host ([scheme://netloc] of [urlparse]) of the first anchor whose [href]
    starts with [http]; and the empty string when all three fail.  The
    first strategy that succeeds gives the result, and a later one is not
    run: in particular a document whose canonical link has the href
    [https://x.test/page] gives that URL whatever its [og:url] tag and its
    anchors are, and whatever [urlparse] would do on them. *)
Theorem page_url_first_strategy_wins `{W : World} (html_content : string) :
  extract_page_url html_content
  = (soup <- lift (html_parser html_content) ;;
     Spec.first_success (Spec.page_url_strategies soup))
  /\ (forall soup link,
      html_parser html_content = Ok soup ->
      Bs4.find soup "link" (Some ("rel", Bs4.Equals "canonical")) = Some link ->
      Bs4.get link "href" = Some "https://x.test/page" ->
      extract_page_url html_content = (Ok "https://x.test/page", [])).
Proof.
  split.
  - destruct (html_parser html_content) as [soup | e] eqn:P.
    + rewrite bind_lift_ok. now apply extract_page_url_parsed.
    + unfold extract_page_url. now rewrite P.
  - intros soup link P F G.
    rewrite (extract_page_url_parsed _ _ P).
    unfold Spec.page_url_strategies, Spec.first_success, Spec.canonical_href.
    now rewrite F, G.
Qed.

(** The cascade on a page with a canonical link, a conflicting [og:url]
    tag and an absolute anchor. *)
Lemma page_url_first_strategy_wins_witness :
  @html_parser Demo.world Demo.canonical_html = Ok Demo.canonical_soup
  /\ @extract_page_url Demo.world Demo.canonical_html
     = (Ok "https://x.test/page", []).
Proof.
  split; [reflexivity |].
  apply (proj2 (@page_url_first_strategy_wins Demo.world Demo.canonical_html)
           Demo.canonical_soup
           (Bs4.Tag "link" [("rel", "canonical");
                            ("href", "https://x.test/page")] []));
    reflexivity.
Defined.

(** ** The pattern pass *)

Lemma remove_patterns_cons `{W : World} pattern rest html_content :
  remove_patterns (pattern :: rest) html_content =
  match re_sub pattern "" html_content [MULTILINE; DOTALL] with
  | Ok cleaned => remove_patterns rest cleaned
  | Raise e =>
      if is_re_error e
      then (outcome (remove_patterns rest html_content),
            Spec.invalid_pattern_warning pattern e
            :: events (remove_patterns rest html_content))
      else (Raise e, [])
  end.
Proof.
  simpl.
  destruct (re_sub pattern "" html_content [MULTILINE; DOTALL]) as [t | e].
  - apply bind_lift_ok.
  - unfold try_except, lift; simpl.
    destruct (is_re_error e); reflexivity.
Qed.

Section PatternPass.

Context {W : World}.
Variable patterns : list string.
Hypothesis only_re_error :
  forall pattern text e,
    In pattern patterns ->
    re_sub pattern "" text [MULTILINE; DOTALL] = Raise e ->
    is_re_error e = true.

Lemma remove_patterns_outcome : forall ps html_content,
  incl ps patterns ->
  outcome (remove_patterns ps html_content)
  = Ok (Spec.sequential_removal ps html_content).
Proof.
  induction ps as [| p ps IH]; intros html I; [reflexivity |].
  rewrite remove_patterns_cons.
  unfold Spec.sequential_removal; simpl. unfold Spec.remove_matches at 2.
  assert (Ip : In p patterns) by (apply I; now left).
  assert (Ips : incl ps patterns) by (intros x Hx; apply I; now right).
  destruct (re_sub p "" html [MULTILINE; DOTALL]) as [t | e] eqn:R.
  - now apply IH.
  - rewrite (only_re_error p html e Ip R). simpl. now apply IH.
Qed.

Lemma remove_patterns_warns : forall before html_content p after e,
  incl (before ++ p :: after) patterns ->
  re_sub p "" (Spec.sequential_removal before html_content)
    [MULTILINE; DOTALL] = Raise e ->
  In (Spec.invalid_pattern_warning p e)
     (events (remove_patterns (before ++ p :: after) html_content)).
Proof.
  induction before as [| q before IH]; intros html p after e I R.
  - simpl app. rewrite remove_patterns_cons.
    simpl in R. rewrite R.
    rewrite (only_re_error p html e (I p (or_introl eq_refl)) R).
    now left.
  - change ((q :: before) ++ p :: after)%list
      with (q :: (before ++ p :: after))%list in *.
    rewrite remove_patterns_cons.
    assert (I' : incl (before ++ p :: after) patterns)
      by (intros x Hx; apply I; now right).
    unfold Spec.sequential_removal in R; simpl in R.
    unfold Spec.remove_matches at 2 in R.
    destruct (re_sub q "" html [MULTILINE; DOTALL]) as [t | e'] eqn:Q.
    + now apply IH.
    + rewrite (only_re_error q html e' (I q (or_introl eq_refl)) Q).
      right. now apply IH.
Qed.

End PatternPass.

Lemma sequential_removal_skips `{W : World} before p after html_content e :
  re_sub p "" (Spec.sequential_removal before html_content)
    [MULTILINE; DOTALL] = Raise e ->
  Spec.sequential_removal (before ++ p :: after) html_content
  = Spec.sequential_removal (before ++ after) html_content.
Proof.
  intros R. unfold Spec.sequential_removal in *.
  rewrite !fold_left_app. simpl.
  unfold Spec.remove_matches at 2. now rewrite R.
Qed.

Lemma remove_pattern_noise_outcome `{W : World} self html_content :
  (forall pattern text e,
     In pattern (noise_patterns self) ->
     re_sub pattern "" text [MULTILINE; DOTALL] = Raise e ->
     is_re_error e = true) ->
  outcome (remove_pattern_noise self html_content)
  = Ok (Spec.sequential_removal (noise_patterns self) html_content).
Proof.
  intros H.
  pose proof (remove_patterns_outcome (noise_patterns self) H
                (noise_patterns self) html_content (incl_refl _)) as O.
  unfold remove_pattern_noise. rewrite outcome_bind, O.
  rewrite outcome_bind.
  destruct (noise_patterns self); reflexivity.
Qed.

Lemma load_noise_patterns_lines `{W : World} file lines :
  path_exists file = true ->
  read_lines file = Ok lines ->
  outcome (_load_noise_patterns file)
  = Ok (map Py.strip (filter (fun l => Py.truthy (Py.strip l)) lines)).
Proof.
  intros X R. unfold _load_noise_patterns. rewrite X.
  apply outcome_try_except_ok.
  rewrite R, bind_lift_ok, outcome_bind. reflexivity.
Qed.

(** C4.  With a regular-expression engine whose only error on the patterns
    is [re.error], [remove_pattern_noise] returns the text obtained by
    applying the patterns one after the other in their order, each as a
    replace-with-empty called with the flags [MULTILINE] and [DOTALL] on
    the output of the ones before it.  A pattern the engine refuses is
    logged as a warning and skipped: the run goes on and the result is the
    one of the pattern list without it, so every later pattern is applied
    as it would have been.  The patterns are the non-blank lines of the
    pattern file, trimmed, in the order of the file. *)
Theorem pattern_noise_sequential `{W : World}
    (self : HTMLToJSONConverter) (html_content : string) :
  (forall pattern text e,
     In pattern (noise_patterns self) ->
     re_sub pattern "" text [MULTILINE; DOTALL] = Raise e ->
     is_re_error e = true) ->
  outcome (remove_pattern_noise self html_content)
  = Ok (Spec.sequential_removal (noise_patterns self) html_content)
  /\ (forall before p after e,
      noise_patterns self = (before ++ p :: after)%list ->
      re_sub p "" (Spec.sequential_removal before html_content)
        [MULTILINE; DOTALL] = Raise e ->
      In (Spec.invalid_pattern_warning p e)
         (events (remove_pattern_noise self html_content))
      /\ Spec.sequential_removal (noise_patterns self) html_content
         = Spec.sequential_removal (before ++ after) html_content)
  /\ (forall lines,
      path_exists (noise_pattern_file self) = true ->
      read_lines (noise_pattern_file self) = Ok lines ->
      outcome (_load_noise_patterns (noise_pattern_file self))
      = Ok (map Py.strip (filter (fun l => Py.truthy (Py.strip l)) lines))).
Proof.
  intros H. split; [| split].
  - now apply remove_pattern_noise_outcome.
  - intros before p after e E R. split.
    + pose proof (remove_patterns_outcome (noise_patterns self) H
                    (noise_patterns self) html_content (incl_refl _)) as O.
      unfold remove_pattern_noise.
      rewrite (events_bind_ok _ _ _ O).
      apply in_or_app. left.
      rewrite E. apply (remove_patterns_warns (noise_patterns self) H).
      * rewrite <- E. apply incl_refl.
      * exact R.
    + rewrite E. now apply (sequential_removal_skips before p after _ e).
  - intros lines. apply load_noise_patterns_lines.
Qed.

(** A pattern file with one malformed and one valid pattern: the valid one
    is applied, and the malformed one is reported. *)
Lemma pattern_noise_sequential_witness :
  outcome (@_load_noise_patterns Demo.world "noise_pattern.txt")
  = Ok ["("; "Hello"]
  /\ outcome (@remove_pattern_noise Demo.world
                (Demo.converter ["("; "Hello"]) "<p>Hello world</p>")
     = Ok "<p> world</p>"
  /\ In (Log WARNING
           "Invalid regex pattern '(': missing ), unterminated subpattern at position 0")
        (events (@remove_pattern_noise Demo.world
                   (Demo.converter ["("; "Hello"]) "<p>Hello world</p>")).
Proof.
  assert (H : forall pattern text e,
             In pattern (noise_patterns (Demo.converter ["("; "Hello"])) ->
             @re_sub Demo.world pattern "" text [MULTILINE; DOTALL] = Raise e ->
             is_re_error e = true).
  { intros pattern text e _. simpl. unfold Demo.sub.
    destruct (String.eqb pattern "("); intros R; inversion R; reflexivity. }
  destruct (@pattern_noise_sequential Demo.world
              (Demo.converter ["("; "Hello"]) "<p>Hello world</p>" H)
    as (O & S & L).
  split; [| split].
  - exact (L Demo.pattern_lines eq_refl eq_refl).
  - exact O.
  - exact (proj1 (S [] "(" ["Hello"] _ eq_refl eq_refl)).
Defined.

(** ** One file *)

Section OneFile.

Context {W : World}.
Variable self : HTMLToJSONConverter.

Lemma outcome_split_markdown markdown_content :
  outcome (split_markdown markdown_content) =
  Ok match split_text headers_to_split_on false markdown_content with
     | Ok docs => docs
     | Raise _ => [Document.mk markdown_content []]
     end.
Proof.
  unfold split_markdown. rewrite outcome_try_except_all, outcome_bind.
  destruct (split_text headers_to_split_on false markdown_content);
    reflexivity.
Qed.

Lemma outcome_process_html_file html_file :
  outcome (process_html_file self html_file) =
  Ok match outcome (process_html_file_body self html_file) with
     | Ok docs => docs
     | Raise _ => []
     end.
Proof.
  unfold process_html_file.
  rewrite outcome_bind. simpl.
  rewrite outcome_try_except_all.
  destruct (outcome (process_html_file_body self html_file)); reflexivity.
Qed.

Lemma records_of_body html_file :
  Spec.records_of self html_file =
  match outcome (process_html_file_body self html_file) with
  | Ok docs => docs
  | Raise _ => []
  end.
Proof.
  unfold Spec.records_of. now rewrite outcome_process_html_file.
Qed.

(** What a successful run of the body went through. *)
Lemma process_html_file_body_ok html_file records :
  outcome (process_html_file_body self html_file) = Ok records ->
  exists html_content url clean_html markdown_content docs,
    read_text html_file = Ok html_content
    /\ outcome (extract_page_url html_content) = Ok url
    /\ outcome (noise_filter self html_content) = Ok clean_html
    /\ outcome (html_to_markdown clean_html) = Ok markdown_content
    /\ outcome (split_markdown markdown_content) = Ok docs
    /\ records = json_docs_from 0 docs url (Path.stem html_file).
Proof.
  unfold process_html_file_body.
  rewrite outcome_bind.
  destruct (read_text html_file) as [html |] eqn:R; simpl; [| discriminate].
  rewrite outcome_bind.
  destruct (outcome (extract_page_url html)) as [url |] eqn:U; [| discriminate].
  rewrite outcome_bind. simpl.
  rewrite outcome_bind.
  destruct (outcome (noise_filter self html)) as [clean |] eqn:N;
    [| discriminate].
  rewrite outcome_bind.
  destruct (outcome (html_to_markdown clean)) as [md |] eqn:M; [| discriminate].
  rewrite outcome_bind, outcome_markdown_to_json.
  destruct (outcome (split_markdown md)) as [docs |] eqn:S; [| discriminate].
  rewrite outcome_bind. simpl. intros H. inversion H.
  exists html, url, clean, md, docs. repeat split; auto.
Qed.

Lemma records_of_shape html_file r :
  In r (Spec.records_of self html_file) ->
  exists html_content url docs,
    read_text html_file = Ok html_content
    /\ outcome (extract_page_url html_content) = Ok url
    /\ Spec.records_of self html_file
       = json_docs_from 0 docs url (Path.stem html_file)
    /\ (forall d, In d docs ->
        Document.metadata d = []
        \/ exists markdown_content all,
             split_text headers_to_split_on false markdown_content = Ok all
             /\ In d all).
Proof.
  rewrite records_of_body.
  destruct (outcome (process_html_file_body self html_file)) as [records |]
    eqn:B; [| intros []].
  intros _.
  destruct (process_html_file_body_ok _ _ B)
    as (html & url & clean & md & docs & R & U & _ & _ & S & E).
  exists html, url, docs. repeat split; auto.
  intros d Hd. rewrite outcome_split_markdown in S. inversion S as [S'].
  destruct (split_text headers_to_split_on false md) as [all |] eqn:T.
  - right. exists md, all. subst. auto.
  - left. subst docs. destruct Hd as [<- | []]. reflexivity.
Qed.

End OneFile.

(** ** The run *)

Section Run.

Context {W : World}.
Variable self : HTMLToJSONConverter.

Lemma process_files_spec : forall html_files all_documents,
  outcome (process_files self html_files all_documents)
  = Ok (all_documents ++ concat (map (Spec.records_of self) html_files))%list
  /\ events (process_files self html_files all_documents)
     = concat (map (fun f => events (process_html_file self f)) html_files).
Proof.
  induction html_files as [| f fs IH]; intros acc; simpl.
  - now rewrite app_nil_r.
  - pose proof (outcome_process_html_file self f) as O.
    rewrite outcome_bind, O.
    rewrite (events_bind_ok _ _ _ O).
    destruct (IH (acc ++ match outcome (process_html_file_body self f) with
                         | Ok docs => docs
                         | Raise _ => []
                         end)%list) as [IHo IHe].
    rewrite IHo, IHe, records_of_body, <- app_assoc. auto.
Qed.

Lemma all_documents_spec html_files :
  outcome (process_files self html_files [])
  = Ok (concat (map (Spec.records_of self) html_files)).
Proof. apply process_files_spec. Qed.

End Run.

Lemma process_html_file_raise `{W : World} self html_file e :
  outcome (process_html_file_body self html_file) = Raise e ->
  outcome (process_html_file self html_file) = Ok []
  /\ In (Log ERROR ("Failed to process " ++ Path.name html_file ++ ": "
                    ++ exn_str e))
        (events (process_html_file self html_file)).
Proof.
  intros B. split.
  - rewrite outcome_process_html_file, B. reflexivity.
  - unfold process_html_file.
    rewrite (events_bind_ok (logger_info _) _ tt eq_refl).
    rewrite (events_try_except_raise _ _ _ B).
    apply in_or_app; right. apply in_or_app; right.
    simpl. now left.
Qed.

(** C8.  When the body of [process_html_file] raises for a file, whatever
    the step that raised, the error is caught there: it is logged, the file
    contributes no record, and the run over the files is the run over the
    other files, whose records are the ones they have without it; the files
    that follow are processed as usual. *)
Theorem file_failure_is_contained `{W : World} (self : HTMLToJSONConverter)
    (before after : list Path.t) (html_file : Path.t) (e : exn) :
  outcome (process_html_file_body self html_file) = Raise e ->
  outcome (process_html_file self html_file) = Ok []
  /\ In (Log ERROR ("Failed to process " ++ Path.name html_file ++ ": "
                    ++ exn_str e))
        (events (process_html_file self html_file))
  /\ outcome (process_files self (before ++ html_file :: after) [])
     = Ok (concat (map (Spec.records_of self) before)
           ++ concat (map (Spec.records_of self) after))%list
  /\ outcome (process_files self (before ++ html_file :: after) [])
     = outcome (process_files self (before ++ after) [])
  /\ events (process_files self (before ++ html_file :: after) [])
     = (events (process_files self before [])
        ++ events (process_html_file self html_file)
        ++ events (process_files self after []))%list.
Proof.
  intros B.
  assert (R : Spec.records_of self html_file = [])
    by (rewrite records_of_body, B; reflexivity).
  split; [| split; [| split; [| split]]].
  - apply (process_html_file_raise _ _ _ B).
  - apply (process_html_file_raise _ _ _ B).
  - rewrite all_documents_spec, map_app, concat_app. simpl. now rewrite R.
  - rewrite !all_documents_spec, !map_app, !concat_app. simpl. now rewrite R.
  - rewrite !(proj2 (process_files_spec self _ [])).
    rewrite map_app, concat_app. reflexivity.
Qed.

(** A file the parser rejects, between two files that are processed. *)
Lemma file_failure_is_contained_witness :
  outcome (@process_html_file_body Demo.world (Demo.converter [])
             (Path.mk "input" "bad.html"))
  = Raise (Exception "ParserRejectedMarkup")
  /\ outcome (@process_files Demo.world (Demo.converter [])
                [Path.mk "input" "a.html"; Path.mk "input" "bad.html";
                 Path.mk "input" "a.htm"] [])
     = outcome (@process_files Demo.world (Demo.converter [])
                  [Path.mk "input" "a.html"; Path.mk "input" "a.htm"] []).
Proof.
  split; [reflexivity |].
  exact (proj1 (proj2 (proj2 (proj2
    (@file_failure_is_contained Demo.world (Demo.converter [])
       [Path.mk "input" "a.html"] [Path.mk "input" "a.htm"]
       (Path.mk "input" "bad.html") (Exception "ParserRejectedMarkup")
       eq_refl))))).
Defined.

(** ** Events of the per-file pipeline: log entries only *)

Lemma logs_only_ret {A} (a : A) : Spec.logs_only (ret a).
Proof. constructor. Qed.

Lemma logs_only_lift {A} (r : result A) : Spec.logs_only (lift r).
Proof. constructor. Qed.

Lemma logs_only_log lvl msg : Spec.logs_only (emit (Log lvl msg)).
Proof. repeat constructor. Qed.

Lemma logs_only_bind {A B} (m : M A) (k : A -> M B) :
  Spec.logs_only m -> (forall a, Spec.logs_only (k a)) ->
  Spec.logs_only (bind m k).
Proof.
  unfold Spec.logs_only, events, bind. intros Hm Hk.
  destruct (fst m); simpl; [| exact Hm].
  apply Forall_app. split; [exact Hm | apply Hk].
Qed.

Lemma logs_only_try_except {A} (m : M A) c h :
  Spec.logs_only m -> (forall e, Spec.logs_only (h e)) ->
  Spec.logs_only (try_except m c h).
Proof.
  unfold Spec.logs_only, events, try_except. intros Hm Hh.
  destruct (fst m); [exact Hm |].
  destruct (c e); simpl; [| exact Hm].
  apply Forall_app. split; [exact Hm | apply Hh].
Qed.

Create HintDb logs.
#[local] Hint Resolve logs_only_ret logs_only_lift logs_only_log : logs.

Ltac logs :=
  repeat first
    [ solve [auto with logs]
    | apply logs_only_bind | apply logs_only_try_except | intro ].

Section LogsOnly.

Context {W : World}.

Lemma logs_only_first_http_link links : Spec.logs_only (first_http_link links).
Proof.
  induction links as [| link rest IH]; simpl; [logs |].
  destruct (Py.startswith _ _); [logs | exact IH].
Qed.

Lemma logs_only_extract_page_url html_content :
  Spec.logs_only (extract_page_url html_content).
Proof.
  unfold extract_page_url. apply logs_only_bind; [logs |].
  intros soup. cbv zeta.
  repeat match goal with |- context [if ?b then _ else _] => destruct b end;
    logs.
  apply logs_only_first_http_link.
Qed.

Lemma logs_only_remove_patterns patterns : forall html_content,
  Spec.logs_only (remove_patterns patterns html_content).
Proof.
  induction patterns as [| p ps IH]; intros html; simpl; [logs |].
  apply logs_only_bind; [| exact IH].
  apply logs_only_try_except; [logs |].
  intros e. unfold logger_warning. logs.
Qed.

Lemma logs_only_noise_filter self html_content :
  Spec.logs_only (noise_filter self html_content).
Proof.
  unfold noise_filter, remove_common_noise, remove_pattern_noise, logger_info.
  apply logs_only_bind; [logs |]. intros soup.
  apply logs_only_bind; [logs |]. intros soup'.
  apply logs_only_bind; [apply logs_only_remove_patterns |]. intros html.
  apply logs_only_bind; [destruct (noise_patterns self); logs | logs].
Qed.

Lemma logs_only_html_to_markdown html_content :
  Spec.logs_only (html_to_markdown html_content).
Proof.
  unfold html_to_markdown, _simple_html_to_markdown, logger_info,
    logger_error.
  logs.
Qed.

Lemma logs_only_markdown_to_json markdown_content url filename :
  Spec.logs_only (markdown_to_json markdown_content url filename).
Proof.
  unfold markdown_to_json, split_markdown, logger_info, logger_warning.
  logs.
Qed.

#[local] Hint Resolve logs_only_extract_page_url logs_only_noise_filter
  logs_only_html_to_markdown logs_only_markdown_to_json : logs.

Lemma logs_only_process_html_file self html_file :
  Spec.logs_only (process_html_file self html_file).
Proof.
  unfold process_html_file, process_html_file_body, logger_info,
    logger_error.
  logs.
Qed.

Lemma logs_only_process_files self html_files :
  Spec.logs_only (process_files self html_files []).
Proof.
  unfold Spec.logs_only.
  rewrite (proj2 (process_files_spec self html_files [])).
  induction html_files as [| f fs IH]; [constructor |].
  cbn [map concat].
  apply Forall_app. split; [apply logs_only_process_html_file | exact IH].
Qed.

Lemma records_of_sections self html_file :
  exists docs url,
    Spec.records_of self html_file
    = json_docs_from 0 docs url (Path.stem html_file).
Proof.
  rewrite records_of_body.
  destruct (outcome (process_html_file_body self html_file)) as [records |]
    eqn:B.
  - destruct (process_html_file_body_ok _ _ _ B)
      as (_ & url & _ & _ & docs & _ & _ & _ & _ & _ & E).
    now exists docs, url.
  - now exists [], "".
Qed.

End LogsOnly.

(** C9.  A run that found input files and could open its output file
    writes once, after every file has been processed and before the
    closing log entry and the statistics: one [json.dump] of the list of
    all records into [converted_documents.json], opened as UTF-8, with
    [ensure_ascii=False] and [indent=2].  The list holds the records of
    the files in discovery order (the [*.html] matches, then the [*.htm]
    matches), each file's records being its sections' records in section
    order; everything else the run emits before it is a log entry. *)
Theorem output_is_one_json_array `{W : World} (self : HTMLToJSONConverter) :
  html_files_of self <> [] ->
  open_w (Path.mk (output_dir self) "converted_documents.json") = Ok tt ->
  let html_files := html_files_of self in
  let all_documents := concat (map (Spec.records_of self) html_files) in
  let output_file := Path.mk (output_dir self) "converted_documents.json" in
  events (convert_all self)
  = ((Log INFO ("Found " ++ Py.str_of_nat (List.length html_files)
                ++ " HTML files")
      :: events (process_files self html_files []))
     ++ [JsonDump output_file "utf-8" all_documents false 2]
     ++ Log INFO ("Saved " ++ Py.str_of_nat (List.length all_documents)
                  ++ " documents to " ++ output_dir self
                  ++ "/converted_documents.json")
        :: events (_print_statistics all_documents))%list
  /\ Spec.logs_only (process_files self html_files [])
  /\ Forall (fun ev => Spec.is_dump ev = false)
            (events (_print_statistics all_documents))
  /\ outcome (convert_all self) = Ok tt
  /\ html_files
     = (glob (input_dir self) ".html" ++ glob (input_dir self) ".htm")%list
  /\ (forall html_file,
      exists docs url,
        Spec.records_of self html_file
        = json_docs_from 0 docs url (Path.stem html_file)).
Proof.
  intros NE OW. cbv zeta.
  split; [| split; [apply logs_only_process_files | split;
    [repeat constructor | split; [| split;
      [reflexivity | intros f; apply records_of_sections]]]]].
  - unfold convert_all.
    destruct (html_files_of self) as [| f fs] eqn:F; [contradiction |].
    rewrite <- F.
    rewrite (events_bind_ok (logger_info _) _ tt eq_refl).
    rewrite (events_bind_ok _ _ _ (all_documents_spec self _)).
    rewrite OW, bind_lift_ok.
    rewrite (events_bind_ok (emit _) _ tt eq_refl).
    rewrite (events_bind_ok (logger_info _) _ tt eq_refl).
    reflexivity.
  - unfold convert_all.
    destruct (html_files_of self) as [| f fs] eqn:F; [contradiction |].
    rewrite <- F.
    rewrite outcome_bind. simpl outcome at 1. cbv iota.
    rewrite outcome_bind, all_documents_spec.
    rewrite OW, bind_lift_ok.
    reflexivity.
Qed.

(** The run over the three files of the demonstration directory. *)
Lemma output_is_one_json_array_witness :
  List.length (filter Spec.is_dump
                 (events (@convert_all Demo.world (Demo.converter []))))
  = 1.
Proof.
  rewrite (proj1 (@output_is_one_json_array Demo.world (Demo.converter [])
                    ltac:(discriminate) eq_refl)).
  reflexivity.
Defined.

(** ** Lines *)

Lemma split_on_nonempty c s : Py.split_on c s <> [].
Proof.
  destruct s as [| a s]; simpl; [discriminate |].
  destruct (Ascii.eqb a c); [discriminate |].
  destruct (Py.split_on c s); discriminate.
Qed.

Lemma split_on_free c s : Spec.free_of c s -> Py.split_on c s = [s].
Proof.
  unfold Spec.free_of.
  induction s as [| a s IH]; simpl; intros F; [reflexivity |].
  destruct (Ascii.eqb_spec a c) as [-> | N]; [tauto |].
  rewrite IH by tauto. reflexivity.
Qed.

Lemma split_on_app_free c x r :
  Spec.free_of c x ->
  Py.split_on c (x ++ String c r) = x :: Py.split_on c r.
Proof.
  unfold Spec.free_of.
  induction x as [| a x IH]; simpl; intros F.
  - now rewrite Ascii.eqb_refl.
  - destruct (Ascii.eqb_spec a c) as [-> | N]; [tauto |].
    rewrite IH by tauto. reflexivity.
Qed.

Lemma split_on_lines_free c s : Forall (Spec.free_of c) (Py.split_on c s).
Proof.
  unfold Spec.free_of.
  induction s as [| a s IH]; simpl.
  - repeat constructor. simpl. tauto.
  - destruct (Ascii.eqb_spec a c) as [-> | N].
    + constructor; [simpl; tauto | exact IH].
    + destruct (Py.split_on c s) as [| w ws]; constructor.
      * simpl. intros [E | []]. congruence.
      * constructor.
      * inversion IH; subst. simpl. intros [E | I]; [congruence | tauto].
      * now inversion IH.
Qed.

Lemma join_split c s : Py.join (String c "") (Py.split_on c s) = s.
Proof.
  induction s as [| a s IH]; simpl; [reflexivity |].
  destruct (Ascii.eqb_spec a c) as [-> | N].
  - destruct (Py.split_on c s) as [| w ws] eqn:E.
    + now destruct (split_on_nonempty c s).
    + simpl. simpl in IH. now rewrite IH.
  - destruct (Py.split_on c s) as [| w ws] eqn:E.
    + now destruct (split_on_nonempty c s).
    + destruct ws; simpl in *; now rewrite <- IH.
Qed.

Lemma first_line_join c x more :
  Spec.free_of c x ->
  hd "" (Py.split_on c (Py.join (String c "") (x :: more))) = x.
Proof.
  intros F. destruct more as [| y more].
  - simpl. now rewrite split_on_free.
  - change (Py.join (String c "") (x :: y :: more))
      with (x ++ String c (Py.join (String c "") (y :: more))).
    now rewrite split_on_app_free.
Qed.

(** ** Decimal numerals *)

Lemma str_of_nat_inj i j : Py.str_of_nat i = Py.str_of_nat j -> i = j.
Proof.
  unfold Py.str_of_nat. intros H.
  apply (f_equal NilEmpty.uint_of_string) in H.
  rewrite !NilEmpty.usu in H. inversion H as [H'].
  apply (f_equal Nat.of_uint) in H'.
  now rewrite !DecimalNat.Unsigned.of_to in H'.
Qed.

Lemma header_name_inj l l' :
  Chunker.header_name l = Chunker.header_name l' -> l = l'.
Proof.
  unfold Chunker.header_name. intros H.
  apply append_inj_l in H. now apply str_of_nat_inj.
Qed.

(** ** The heading path (specification model) *)

Lemma header_names_seq :
  map snd headers_to_split_on = map Chunker.header_name (seq 1 6).
Proof. reflexivity. Qed.

Lemma heading_of_level line l title :
  Chunker.heading_of line = Some (l, title) -> 1 <= l <= 6.
Proof.
  unfold Chunker.heading_of.
  destruct (1 <=? fst (Chunker.count_hashes line))%nat eqn:A; simpl;
    [| discriminate].
  destruct (fst (Chunker.count_hashes line) <=? 6)%nat eqn:B; simpl;
    [| discriminate].
  destruct (_ || _)%bool; [| discriminate].
  intros H. inversion H; subst.
  apply Nat.leb_le in A. apply Nat.leb_le in B. lia.
Qed.

Lemma at_or_below_spec l l' :
  Chunker.at_or_below l (Chunker.header_name l') = true <-> l <= l' <= 6.
Proof.
  unfold Chunker.at_or_below. rewrite existsb_exists. split.
  - intros (k & I & E). apply String.eqb_eq in E.
    apply in_map_iff in I. destruct I as (j & <- & I).
    apply header_name_inj in E. subst j. apply in_seq in I. lia.
  - intros H. exists (Chunker.header_name l'). split.
    + apply in_map, in_seq. lia.
    + apply String.eqb_refl.
Qed.

Lemma get_filter_keys (f : string -> bool) k d :
  Py.get k (filter (fun kv => f (fst kv)) d)
  = if f k then Py.get k d else None.
Proof.
  induction d as [| [k' v] d IH]; simpl; [now destruct (f k) |].
  destruct (f k') eqn:F; simpl; rewrite IH;
    destruct (String.eqb_spec k k') as [-> | N]; try rewrite F; auto.
Qed.

Lemma get_app k d1 d2 :
  Py.get k (d1 ++ d2)%list
  = match Py.get k d1 with Some v => Some v | None => Py.get k d2 end.
Proof.
  induction d1 as [| [k' v] d1 IH]; simpl; [reflexivity |].
  destruct (String.eqb k k'); auto.
Qed.

Lemma get_single k k' v :
  Py.get k [(k', v)] = if String.eqb k k' then Some v else None.
Proof. reflexivity. Qed.

Lemma get_not_in_keys k d : ~ In k (Py.keys d) -> Py.get k d = None.
Proof.
  intros N. destruct (Py.get k d) eqn:G; [| reflexivity].
  now apply get_in_keys in G.
Qed.

Lemma get_enter_same l title path :
  1 <= l <= 6 ->
  Py.get (Chunker.header_name l) (Chunker.enter l title path)
  = Some (Py.Str title).
Proof.
  intros R. unfold Chunker.enter.
  rewrite get_app.
  rewrite (get_filter_keys (fun k => negb (Chunker.at_or_below l k))).
  rewrite (proj2 (at_or_below_spec l l)) by lia.
  cbn [negb]. rewrite get_single. now rewrite String.eqb_refl.
Qed.

Lemma get_enter_deeper l l' title path :
  l < l' <= 6 ->
  Py.get (Chunker.header_name l') (Chunker.enter l title path) = None.
Proof.
  intros R. unfold Chunker.enter.
  rewrite get_app.
  rewrite (get_filter_keys (fun k => negb (Chunker.at_or_below l k))).
  rewrite (proj2 (at_or_below_spec l l')) by lia.
  cbn [negb]. rewrite get_single.
  destruct (String.eqb_spec (Chunker.header_name l') (Chunker.header_name l))
    as [E | N]; [| reflexivity].
  apply header_name_inj in E. lia.
Qed.

Lemma get_enter_shallower l l' title path :
  l' < l ->
  Py.get (Chunker.header_name l') (Chunker.enter l title path)
  = Py.get (Chunker.header_name l') path.
Proof.
  intros R. unfold Chunker.enter.
  rewrite get_app.
  rewrite (get_filter_keys (fun k => negb (Chunker.at_or_below l k))).
  destruct (Chunker.at_or_below l (Chunker.header_name l')) eqn:A.
  - apply at_or_below_spec in A. lia.
  - cbn [negb]. rewrite get_single.
    destruct (String.eqb_spec (Chunker.header_name l') (Chunker.header_name l))
      as [E | N].
    + apply header_name_inj in E. lia.
    + now destruct (Py.get (Chunker.header_name l') path).
Qed.

Lemma keys_enter l title path :
  1 <= l <= 6 ->
  incl (Py.keys path) (map snd headers_to_split_on) ->
  incl (Py.keys (Chunker.enter l title path)) (map snd headers_to_split_on).
Proof.
  intros R I k. unfold Chunker.enter, Py.keys.
  rewrite map_app, in_app_iff. intros [H | [<- | []]].
  - apply I. apply in_map_iff in H. destruct H as (kv & <- & H).
    apply filter_In in H. apply in_map. tauto.
  - cbn [fst]. rewrite header_names_seq. apply in_map, in_seq. lia.
Qed.

Lemma chunk_from_keys : forall lines path current d,
  incl (Py.keys path) (map snd headers_to_split_on) ->
  In d (Chunker.chunk_from path current lines) ->
  incl (Py.keys (Document.metadata d)) (map snd headers_to_split_on).
Proof.
  induction lines as [| line rest IH]; intros path cur d I; simpl.
  - intros [<- | []]. exact I.
  - destruct (Chunker.heading_of line) as [[l title] |] eqn:H.
    + intros [<- | D]; [exact I |].
      apply (IH _ _ _ (keys_enter l title path (heading_of_level _ _ _ H) I) D).
    + apply IH. exact I.
Qed.

Lemma chunk_keys text d :
  In d (Chunker.chunk text) ->
  incl (Py.keys (Document.metadata d)) (map snd headers_to_split_on).
Proof.
  unfold Chunker.chunk.
  destruct (Py.split_on _ text) as [| line rest]; [intros [] |].
  destruct (Chunker.heading_of line) as [[l title] |] eqn:H.
  - apply chunk_from_keys.
    apply (keys_enter l title [] (heading_of_level _ _ _ H)).
    intros k [].
  - apply chunk_from_keys. intros k [].
Qed.

Lemma get_header_beyond d l' :
  incl (Py.keys d) (map snd headers_to_split_on) ->
  6 < l' -> Py.get (Chunker.header_name l') d = None.
Proof.
  intros I R. apply get_not_in_keys. intros K. apply I in K.
  rewrite header_names_seq in K. apply in_map_iff in K.
  destruct K as (j & E & J). apply header_name_inj in E. subst j.
  apply in_seq in J. lia.
Qed.

(** The first section [chunk_from] gives: the lines read so far and the
    lines up to the next heading, under the current path. *)
Lemma chunk_from_head : forall lines path current,
  exists more tail,
    Chunker.chunk_from path current lines
    = Document.mk (Py.join Py.newline (current ++ more)) path :: tail.
Proof.
  induction lines as [| line rest IH]; intros path cur; simpl.
  - exists [], []. now rewrite app_nil_r.
  - destruct (Chunker.heading_of line) as [[l title] |].
    + exists [], (Chunker.chunk_from (Chunker.enter l title path) [line] rest).
      now rewrite app_nil_r.
    + destruct (IH path (cur ++ [line])%list) as (more & tail & E).
      exists (line :: more), tail. rewrite E, <- app_assoc. reflexivity.
Qed.

Lemma first_line_of_section line more path :
  Spec.free_of (ascii_of_nat 10) line ->
  Chunker.first_line
    (Document.mk (Py.join Py.newline (line :: more)) path) = line.
Proof. intros F. exact (first_line_join (ascii_of_nat 10) line more F). Qed.

Lemma chunk_from_adjacent : forall lines path current i s s',
  Forall (Spec.free_of (ascii_of_nat 10)) lines ->
  incl (Py.keys path) (map snd headers_to_split_on) ->
  nth_error (Chunker.chunk_from path current lines) i = Some s ->
  nth_error (Chunker.chunk_from path current lines) (S i) = Some s' ->
  incl (Py.keys (Document.metadata s)) (map snd headers_to_split_on)
  /\ exists l title,
       Chunker.heading_of (Chunker.first_line s') = Some (l, title)
       /\ Document.metadata s'
          = Chunker.enter l title (Document.metadata s).
Proof.
  induction lines as [| line rest IH]; intros path cur i s s' F I; simpl.
  - destruct i; simpl; intros _ H; [discriminate | destruct i; discriminate].
  - inversion F as [| ? ? Fl Fr]; subst.
    destruct (Chunker.heading_of line) as [[l title] |] eqn:H.
    + destruct i as [| i]; simpl.
      * intros Hs Hs'. inversion Hs; subst s. simpl.
        split; [exact I |].
        destruct (chunk_from_head rest (Chunker.enter l title path) [line])
          as (more & tail & E).
        rewrite E in Hs'. cbn [nth_error] in Hs'. inversion Hs'; subst s'.
        exists l, title. split; [| reflexivity].
        change (Chunker.heading_of
                  (Chunker.first_line
                     (Document.mk (Py.join Py.newline (line :: more))
                        (Chunker.enter l title path))) = Some (l, title)).
        rewrite first_line_of_section by exact Fl. exact H.
      * apply IH; [exact Fr |].
        apply keys_enter; [apply (heading_of_level _ _ _ H) | exact I].
    + apply IH; assumption.
Qed.

Lemma chunk_from_no_heading : forall lines path current,
  Forall (fun line => Chunker.heading_of line = None) lines ->
  Chunker.chunk_from path current lines
  = [Document.mk (Py.join Py.newline (current ++ lines)) path].
Proof.
  induction lines as [| line rest IH]; intros path cur F; simpl.
  - now rewrite app_nil_r.
  - inversion F as [| ? ? Hl Hr]; subst. rewrite Hl.
    rewrite IH by exact Hr. now rewrite <- app_assoc.
Qed.

Lemma chunk_unfold text :
  exists line rest path,
    Py.split_on (ascii_of_nat 10) text = line :: rest
    /\ Chunker.chunk text = Chunker.chunk_from path [line] rest
    /\ incl (Py.keys path) (map snd headers_to_split_on)
    /\ (Chunker.heading_of line = None -> path = [])
    /\ (forall l title,
        Chunker.heading_of line = Some (l, title) ->
        path = [(Chunker.header_name l, Py.Str title)]).
Proof.
  unfold Chunker.chunk.
  destruct (Py.split_on (ascii_of_nat 10) text) as [| line rest] eqn:E.
  - now destruct (split_on_nonempty (ascii_of_nat 10) text).
  - destruct (Chunker.heading_of line) as [[l title] |] eqn:H.
    + exists line, rest, (Chunker.enter l title []).
      split; [reflexivity | split; [reflexivity | split; [| split]]].
      * apply (keys_enter l title [] (heading_of_level _ _ _ H)). intros k [].
      * intros N. rewrite N in H. discriminate.
      * intros l' title' H'. rewrite H' in H. inversion H. reflexivity.
    + exists line, rest, [].
      split; [reflexivity | split; [reflexivity | split; [| split]]]; auto.
      * intros k [].
      * intros l' title' H'. rewrite H' in H. discriminate.
Qed.

(** C3.  As the specification describes the splitter, a text always gives
    at least one section, and a text none of whose lines is a heading of
    level 1 to 6 gives exactly one section, holding the whole text under an
    empty heading path.  In the converter, when [split_text] raises, the
    error is logged as a warning and the documents are the single document
    holding the whole text with empty metadata, so that [markdown_to_json]
    returns one record for the file instead of failing. *)
Theorem chunking_gives_a_section :
  (forall text, text <> "" -> Chunker.chunk text <> [])
  /\ (forall text,
      Chunker.no_heading text ->
      Chunker.chunk text = [Document.mk text []])
  /\ (forall (W : World) markdown_content e,
      split_text headers_to_split_on false markdown_content = Raise e ->
      outcome (split_markdown markdown_content)
      = Ok [Document.mk markdown_content []]
      /\ In (Log WARNING ("Failed to split markdown with headers: "
                          ++ exn_str e))
            (events (split_markdown markdown_content))
      /\ forall url filename,
           outcome (markdown_to_json markdown_content url filename)
           = Ok [json_doc url filename 0 (Document.mk markdown_content [])]).
Proof.
  split; [| split].
  - intros text _.
    destruct (chunk_unfold text) as (line & rest & path & _ & E & _).
    rewrite E.
    destruct (chunk_from_head rest path [line]) as (more & tail & E').
    rewrite E'. discriminate.
  - intros text N. unfold Chunker.no_heading in N.
    destruct (chunk_unfold text) as (line & rest & path & S & E & _ & P & _).
    rewrite S in N. inversion N as [| ? ? Hl Hr]; subst.
    rewrite E, (P Hl), chunk_from_no_heading by exact Hr.
    change ([line] ++ rest)%list with (line :: rest).
    rewrite <- S. unfold Py.newline. now rewrite join_split.
  - intros W md e T.
    assert (O : outcome (split_markdown md) = Ok [Document.mk md []])
      by (rewrite outcome_split_markdown, T; reflexivity).
    split; [exact O | split].
    + unfold split_markdown.
      rewrite (events_try_except_raise _ _ e).
      * apply in_or_app. right. simpl. now left.
      * rewrite outcome_bind. unfold lift, outcome at 1. simpl. now rewrite T.
    + intros url filename. rewrite outcome_markdown_to_json, O. reflexivity.
Qed.

(** C6.  As the specification describes the splitter: in the chunking of
    any text, a section that follows another one starts with a heading
    line, of some level [l]; its heading path records that heading under
    level [l], has no entry for any level deeper than [l], and has for
    every level shallower than [l] the entry the section before it has.
    The first section has the empty path, or the one entry of the heading
    it starts with.  The text of the two-level scenario gives two sections,
    with the heading paths [{Header 1: A}] and
    [{Header 1: A, Header 2: B}]. *)
Theorem heading_path_monotone (text : string) :
  (forall s,
     nth_error (Chunker.chunk text) 0 = Some s ->
     match Chunker.heading_of (Chunker.first_line s) with
     | Some (l, title) =>
         Document.metadata s = [(Chunker.header_name l, Py.Str title)]
     | None => Document.metadata s = []
     end)
  /\ (forall i s s',
     nth_error (Chunker.chunk text) i = Some s ->
     nth_error (Chunker.chunk text) (S i) = Some s' ->
     exists l title,
       1 <= l <= 6
       /\ Chunker.heading_of (Chunker.first_line s') = Some (l, title)
       /\ Py.get (Chunker.header_name l) (Document.metadata s')
          = Some (Py.Str title)
       /\ (forall l', l < l' ->
           Py.get (Chunker.header_name l') (Document.metadata s') = None)
       /\ (forall l', l' < l ->
           Py.get (Chunker.header_name l') (Document.metadata s')
           = Py.get (Chunker.header_name l') (Document.metadata s)))
  /\ map Document.metadata
       (Chunker.chunk
          ("# A" ++ Py.newline ++ Py.newline ++ "text1" ++ Py.newline
           ++ Py.newline ++ "## B" ++ Py.newline ++ Py.newline ++ "text2"))
     = [[("Header 1", Py.Str "A")];
        [("Header 1", Py.Str "A"); ("Header 2", Py.Str "B")]].
Proof.
  split; [| split; [| reflexivity]].
  { intros s Hs.
    destruct (chunk_unfold text) as (line & rest & path & S & E & _ & N & Y).
    rewrite E in Hs.
    destruct (chunk_from_head rest path [line]) as (more & tail & E').
    rewrite E' in Hs. cbn [nth_error] in Hs.
    replace s with (Document.mk (Py.join Py.newline ([line] ++ more)) path)
      by congruence.
    pose proof (split_on_lines_free (ascii_of_nat 10) text) as F.
    rewrite S in F. inversion F as [| ? ? Fl _]; subst.
    pose proof (first_line_of_section line more path Fl) as L.
    change (line :: more) with ([line] ++ more)%list in L.
    rewrite L. cbn [Document.metadata].
    destruct (Chunker.heading_of line) as [[l title] |] eqn:H; auto. }
  intros i s s' Hs Hs'.
  destruct (chunk_unfold text) as (line & rest & path & S & E & I & _).
  rewrite E in Hs, Hs'.
  pose proof (split_on_lines_free (ascii_of_nat 10) text) as F.
  rewrite S in F. inversion F as [| ? ? _ Fr]; subst.
  destruct (chunk_from_adjacent rest path [line] i s s' Fr I Hs Hs')
    as (Ks & l & title & H & M).
  pose proof (heading_of_level _ _ _ H) as R.
  exists l, title. rewrite M.
  split; [exact R | split; [exact H | split; [| split]]].
  - now apply get_enter_same.
  - intros l' L. destruct (Nat.le_gt_cases l' 6).
    + apply get_enter_deeper. lia.
    + apply get_header_beyond; [| lia]. now apply keys_enter.
  - intros l' L. now apply get_enter_shallower.
Qed.

(** ** The page URL in the records *)

Lemma in_json_docs_from docs : forall i r url filename,
  In r (json_docs_from i docs url filename) ->
  exists j d, In d docs /\ r = json_doc url filename j d.
Proof.
  induction docs as [| d docs IH]; simpl; intros i r url filename H;
    [contradiction |].
  destruct H as [<- | H].
  - exists i, d. auto.
  - destruct (IH _ _ _ _ H) as (j & d' & D & E). exists j, d'. auto.
Qed.

Lemma get_url_json_doc url filename i d :
  ~ In "url" (Py.keys (Document.metadata d)) ->
  Py.get "url" (JsonDoc.metadata (json_doc url filename i d))
  = Some (Py.Str url).
Proof.
  intros N. simpl JsonDoc.metadata. now rewrite get_update_absent.
Qed.

Lemma url_is_no_header : ~ In "url" (map snd headers_to_split_on).
Proof. simpl. intuition discriminate. Qed.

Section PageUrl.

Context {W : World}.
Hypothesis splitter_keys :
  forall markdown_content docs d,
    split_text headers_to_split_on false markdown_content = Ok docs ->
    In d docs ->
    incl (Py.keys (Document.metadata d)) (map snd headers_to_split_on).

Lemma record_url self html_file r :
  In r (Spec.records_of self html_file) ->
  exists html_content url,
    read_text html_file = Ok html_content
    /\ outcome (extract_page_url html_content) = Ok url
    /\ Py.get "url" (JsonDoc.metadata r) = Some (Py.Str url).
Proof.
  intros H.
  destruct (records_of_shape self html_file r H)
    as (html & url & docs & R & U & E & K).
  exists html, url. split; [exact R | split; [exact U |]].
  rewrite E in H.
  destruct (in_json_docs_from _ _ _ _ _ H) as (j & d & D & ->).
  apply get_url_json_doc.
  destruct (K d D) as [M | (md & all & T & A)].
  - rewrite M. intros [].
  - intros I. apply (splitter_keys md all d T A) in I.
    now apply url_is_no_header.
Qed.

End PageUrl.

(** C10.  With a splitter that records headings under the names it was
    given ([Header 1] to [Header 6]): every record of a file carries as
    [metadata.url] the URL that [extract_page_url] gives on the content
    read from the file, that is on the raw HTML, before the noise filter
    and its patterns have touched it.  So two converters that differ in
    their noise patterns (or in anything else) give records with the same
    [metadata.url] for the same file. *)
Theorem page_url_independent_of_patterns `{W : World}
    (self1 self2 : HTMLToJSONConverter) (html_file : Path.t) :
  (forall markdown_content docs d,
     split_text headers_to_split_on false markdown_content = Ok docs ->
     In d docs ->
     incl (Py.keys (Document.metadata d)) (map snd headers_to_split_on)) ->
  forall r1 r2,
    In r1 (Spec.records_of self1 html_file) ->
    In r2 (Spec.records_of self2 html_file) ->
    exists html_content url,
      read_text html_file = Ok html_content
      /\ outcome (extract_page_url html_content) = Ok url
      /\ Py.get "url" (JsonDoc.metadata r1) = Some (Py.Str url)
      /\ Py.get "url" (JsonDoc.metadata r2) = Some (Py.Str url).
Proof.
  intros K r1 r2 H1 H2.
  destruct (record_url K self1 html_file r1 H1) as (html & url & R & U & G1).
  destruct (record_url K self2 html_file r2 H2) as (html' & url' & R' & U' & G2).
  rewrite R in R'. inversion R'; subst html'.
  rewrite U in U'. inversion U'; subst url'.
  exists html, url. auto.
Qed.

(** The page with a canonical link, converted without patterns and with
    a pattern that deletes the link from the markup: the records carry the
    same URL, the one of the link. *)
Lemma page_url_independent_of_patterns_witness :
  exists r1 r2,
    @Spec.records_of Demo.world (Demo.converter [])
      (Path.mk "input" "page.html") = [r1]
    /\ @Spec.records_of Demo.world
         (Demo.converter [Demo.render [Demo.canonical_link]])
         (Path.mk "input" "page.html") = [r2]
    /\ Py.get "url" (JsonDoc.metadata r1)
       = Some (Py.Str "https://x.test/page")
    /\ Py.get "url" (JsonDoc.metadata r2)
       = Some (Py.Str "https://x.test/page").
Proof.
  assert (K : forall markdown_content docs d,
             @split_text Demo.world headers_to_split_on false markdown_content
             = Ok docs ->
             In d docs ->
             incl (Py.keys (Document.metadata d))
                  (map snd headers_to_split_on)).
  { intros md docs d T D. simpl in T. inversion T; subst docs.
    now apply (chunk_keys md). }
  destruct (@Spec.records_of Demo.world (Demo.converter [])
              (Path.mk "input" "page.html")) as [| r1 [| ? ?]] eqn:E1;
    try (vm_compute in E1; discriminate).
  destruct (@Spec.records_of Demo.world
              (Demo.converter [Demo.render [Demo.canonical_link]])
              (Path.mk "input" "page.html")) as [| r2 [| ? ?]] eqn:E2;
    try (vm_compute in E2; discriminate).
  destruct (@page_url_independent_of_patterns Demo.world
              (Demo.converter [])
              (Demo.converter [Demo.render [Demo.canonical_link]])
              (Path.mk "input" "page.html") K r1 r2)
    as (html & url & R & U & G1 & G2).
  - rewrite E1. now left.
  - rewrite E2. now left.
  - vm_compute in R. inversion R; subst html.
    vm_compute in U. inversion U; subst url.
    exists r1, r2. auto.
Defined.

(** ** Record identifiers *)

Lemma records_of_first_id `{W : World} self html_file :
  Spec.records_of self html_file <> [] ->
  exists r rest,
    Spec.records_of self html_file = r :: rest
    /\ JsonDoc.id r = Path.stem html_file ++ "_0".
Proof.
  intros NE.
  destruct (records_of_sections self html_file) as (docs & url & E).
  rewrite E in *.
  destruct docs as [| d docs]; [now destruct NE |].
  simpl. eexists; eexists; split; reflexivity.
Qed.

Lemma not_NoDup_twice {A} (x : A) l1 l2 l3 :
  ~ NoDup (l1 ++ x :: l2 ++ x :: l3).
Proof.
  intros ND. apply NoDup_remove_2 in ND. apply ND.
  apply in_or_app. right. apply in_or_app. right. now left.
Qed.

(** C1 (what the code does).  Two input files with the same stem that both
    contribute records give the run two records with the same [id]: the
    first record of each is [stem_0].  The [id]s of a run are then not
    pairwise distinct. *)
Theorem shared_stem_ids_collide `{W : World} (self : HTMLToJSONConverter)
    (f1 f2 : Path.t) (before between after : list Path.t) :
  Path.stem f1 = Path.stem f2 ->
  Spec.records_of self f1 <> [] ->
  Spec.records_of self f2 <> [] ->
  exists all_documents,
    outcome (process_files self
               (before ++ f1 :: between ++ f2 :: after) [])
    = Ok all_documents
    /\ ~ NoDup (map JsonDoc.id all_documents).
Proof.
  intros S N1 N2.
  destruct (records_of_first_id self f1 N1) as (r1 & t1 & E1 & I1).
  destruct (records_of_first_id self f2 N2) as (r2 & t2 & E2 & I2).
  eexists. split; [apply all_documents_spec |].
  rewrite map_app. cbn [map]. rewrite map_app. cbn [map].
  rewrite concat_app. cbn [concat]. rewrite concat_app. cbn [concat].
  rewrite E1, E2, !map_app. cbn [map app].
  rewrite I1, I2, S.
  rewrite (app_assoc (map JsonDoc.id t1)).
  apply not_NoDup_twice.
Qed.

(** [a.html] and [a.htm] in one input directory: both stems are [a], and
    the run's records are two records with the [id] [a_0]. *)
Lemma shared_stem_ids_collide_witness :
  @html_files_of Demo.world (Demo.converter [])
  = [Path.mk "input" "a.html"; Path.mk "input" "bad.html";
     Path.mk "input" "a.htm"]
  /\ map JsonDoc.id
       (concat (map (@Spec.records_of Demo.world (Demo.converter []))
                    (@html_files_of Demo.world (Demo.converter []))))
     = ["a_0"; "a_0"]
  /\ exists all_documents,
       outcome (@process_files Demo.world (Demo.converter [])
                  (@html_files_of Demo.world (Demo.converter [])) [])
       = Ok all_documents
       /\ ~ NoDup (map JsonDoc.id all_documents).
Proof.
  split; [reflexivity | split; [reflexivity |]].
  apply (@shared_stem_ids_collide Demo.world (Demo.converter [])
           (Path.mk "input" "a.html") (Path.mk "input" "a.htm")
           [] [Path.mk "input" "bad.html"] []);
    [reflexivity | discriminate | discriminate].
Defined.

(** ** The noise filter *)

Lemma extract_page_url_parse_error `{W : World} html_content e :
  html_parser html_content = Raise e ->
  extract_page_url html_content = (Raise e, []).
Proof. intros P. unfold extract_page_url. now rewrite P. Qed.

(** C7 as stated fails: on input the parser rejects, the noise filter
    returns no text and logs no warning; the exception leaves it. *)
Lemma noise_filter_parse_error_raises :
  @noise_filter Demo.world (Demo.converter []) Demo.rejected_html
  = (Raise (Exception "ParserRejectedMarkup"), [])
  /\ outcome (@noise_filter Demo.world (Demo.converter [])
                Demo.rejected_html)
     <> Ok Demo.rejected_html.
Proof. split; [reflexivity | discriminate]. Qed.

(** C7 (amended).  On input that parses, with an engine whose only error
    on the patterns is [re.error], the noise filter returns a text: the
    serialized document with the noise elements removed and the patterns
    applied in order, the refused ones skipped; all it emits are log
    entries.  It has no handler for a parse error: when the parser raises,
    the exception leaves the filter, which returns no text and logs
    nothing, and [process_html_file] catches it for a file with that
    content, logs the error and returns no record. *)
Theorem noise_filter_failure_modes `{W : World}
    (self : HTMLToJSONConverter) (html_content : string) :
  (forall soup,
     html_parser html_content = Ok soup ->
     (forall pattern text e,
        In pattern (noise_patterns self) ->
        re_sub pattern "" text [MULTILINE; DOTALL] = Raise e ->
        is_re_error e = true) ->
     exists cleaned,
       outcome (remove_common_noise soup) = Ok cleaned
       /\ outcome (noise_filter self html_content)
          = Ok (Spec.sequential_removal (noise_patterns self)
                  (soup_str cleaned))
       /\ Spec.logs_only (noise_filter self html_content))
  /\ (forall e,
      html_parser html_content = Raise e ->
      noise_filter self html_content = (Raise e, [])
      /\ forall html_file,
           read_text html_file = Ok html_content ->
           outcome (process_html_file self html_file) = Ok []
           /\ In (Log ERROR ("Failed to process " ++ Path.name html_file
                             ++ ": " ++ exn_str e))
                 (events (process_html_file self html_file))).
Proof.
  split.
  - intros soup P H.
    eexists. split; [reflexivity |]. split.
    + unfold noise_filter. rewrite P, bind_lift_ok, outcome_bind.
      apply (remove_pattern_noise_outcome self _ H).
    + apply logs_only_noise_filter.
  - intros e P. split.
    + unfold noise_filter. now rewrite P.
    + intros html_file R. apply process_html_file_raise.
      unfold process_html_file_body. rewrite R, bind_lift_ok.
      rewrite (extract_page_url_parse_error _ _ P). reflexivity.
Qed.

(** A page that parses, and the rejected page in [bad.html]. *)
Lemma noise_filter_failure_modes_witness :
  (exists text,
     outcome (@noise_filter Demo.world (Demo.converter ["("; "Hello "])
                Demo.hello_html) = Ok text)
  /\ outcome (@process_html_file Demo.world (Demo.converter ["("; "Hello "])
                (Path.mk "input" "bad.html")) = Ok [].
Proof.
  split.
  - destruct (proj1 (@noise_filter_failure_modes Demo.world
                       (Demo.converter ["("; "Hello "]) Demo.hello_html)
                Demo.hello_soup eq_refl) as (cleaned & _ & O & _).
    + intros pattern text e _. simpl. unfold Demo.sub.
      destruct (String.eqb pattern "("); intros R; inversion R; reflexivity.
    + eexists. exact O.
  - exact (proj1 (proj2 (proj2 (@noise_filter_failure_modes Demo.world
                       (Demo.converter ["("; "Hello "]) Demo.rejected_html)
                    (Exception "ParserRejectedMarkup") eq_refl)
                  (Path.mk "input" "bad.html") eq_refl)).
Defined.

(** ** When the identifiers are distinct *)

Lemma app_sep_inj c : forall a b d e,
  Spec.free_of c d -> Spec.free_of c e ->
  a ++ String c d = b ++ String c e -> a = b /\ d = e.
Proof.
  unfold Spec.free_of.
  induction a as [| x a IH]; intros [| y b] d e Fd Fe; simpl; intros H.
  - inversion H. auto.
  - inversion H; subst. exfalso. apply Fd.
    clear. induction b; simpl; auto.
  - inversion H; subst. exfalso. apply Fe.
    clear. induction a; simpl; auto.
  - inversion H; subst.
    destruct (IH b d e Fd Fe) as [-> ->]; auto.
Qed.

Lemma string_of_uint_free (d : Decimal.uint) :
  Spec.free_of "_" (NilEmpty.string_of_uint d).
Proof.
  unfold Spec.free_of.
  induction d; simpl; intuition discriminate.
Qed.

Lemma json_doc_id_inj url url' filename filename' i j d d' :
  JsonDoc.id (json_doc url filename i d)
  = JsonDoc.id (json_doc url' filename' j d') ->
  filename = filename' /\ i = j.
Proof.
  simpl. intros H.
  apply app_sep_inj in H; try apply string_of_uint_free.
  destruct H as [-> H]. split; [reflexivity | now apply str_of_nat_inj].
Qed.

Lemma in_json_docs_from_index docs : forall i r url filename,
  In r (json_docs_from i docs url filename) ->
  exists j d, r = json_doc url filename j d.
Proof.
  intros i r url filename H.
  destruct (in_json_docs_from docs i r url filename H) as (j & d & _ & E).
  now exists j, d.
Qed.

Lemma NoDup_ids_json_docs_from docs : forall i url filename,
  NoDup (map JsonDoc.id (json_docs_from i docs url filename)).
Proof.
  induction docs as [| d docs IH]; intros i url filename; simpl;
    constructor; [| apply IH].
  assert (G : forall k r,
             In r (json_docs_from k docs url filename) -> i < k ->
             JsonDoc.id r <> filename ++ "_" ++ Py.str_of_nat i).
  { clear. induction docs as [| d docs IH]; simpl; intros k r [].
    - subst r. intros L E.
      apply (json_doc_id_inj url url filename filename k i d d) in E. lia.
    - intros L. apply (IH (S k)); [assumption | lia]. }
  intros I. apply in_map_iff in I. destruct I as (r & E & I).
  apply (G (S i) r I); [lia | exact E].
Qed.

(** X1.  When no two input files share a stem, the [id]s of all the
    records of the run are pairwise distinct: [stem_i] determines both the
    stem and the ordinal. *)
Theorem ids_distinct_when_stems_distinct `{W : World}
    (self : HTMLToJSONConverter) (html_files : list Path.t) :
  NoDup (map Path.stem html_files) ->
  NoDup (map JsonDoc.id
           (concat (map (Spec.records_of self) html_files))).
Proof.
  induction html_files as [| f fs IH]; intros ND; [constructor |].
  cbn [map concat] in *. inversion ND as [| ? ? Nf NDfs]; subst.
  rewrite map_app. apply NoDup_app.
  - destruct (records_of_sections self f) as (docs & url & ->).
    apply NoDup_ids_json_docs_from.
  - now apply IH.
  - intros a Ia Ib.
    apply in_map_iff in Ia. destruct Ia as (r & <- & Ir).
    apply in_map_iff in Ib. destruct Ib as (r' & E & Ir').
    apply in_concat in Ir'. destruct Ir' as (l & Il & Ir').
    apply in_map_iff in Il. destruct Il as (f' & <- & If').
    destruct (records_of_sections self f) as (docs & url & Rf).
    destruct (records_of_sections self f') as (docs' & url' & Rf').
    rewrite Rf in Ir. rewrite Rf' in Ir'.
    destruct (in_json_docs_from_index _ _ _ _ _ Ir) as (j & d & ->).
    destruct (in_json_docs_from_index _ _ _ _ _ Ir') as (j' & d' & ->).
    apply json_doc_id_inj in E. destruct E as [E _].
    apply Nf. rewrite <- E. now apply in_map.
Qed.

(** Two pages with different stems. *)
Lemma ids_distinct_when_stems_distinct_witness :
  NoDup (map JsonDoc.id
           (concat (map (@Spec.records_of Demo.world (Demo.converter []))
                        [Path.mk "input" "a.html";
                         Path.mk "input" "page.html"]))).
Proof.
  apply (@ids_distinct_when_stems_distinct Demo.world).
  repeat constructor; simpl; intuition discriminate.
Defined.

(** ** The structural pass *)

Lemma same_node_prune drop e : Spec.same_node (Bs4.prune drop e) e.
Proof. destruct e; simpl; auto. Qed.

Lemma same_node_trans a b c :
  Spec.same_node a b -> Spec.same_node b c -> Spec.same_node a c.
Proof.
  destruct a, b, c; simpl; try tauto; intros [-> ->] [-> ->]; auto.
Qed.

Lemma is_tag_same_node t e e0 :
  Spec.same_node e e0 -> Bs4.is_tag t e = Bs4.is_tag t e0.
Proof. destruct e, e0; simpl; try tauto. now intros [-> _]. Qed.

Lemma is_comment_same_node e e0 :
  Spec.same_node e e0 -> Bs4.is_comment e = Bs4.is_comment e0.
Proof. destruct e, e0; simpl; try tauto. now intros [-> _]. Qed.

Lemma in_pruned_children (drop : Bs4.PageElement -> bool) cs c' :
  In c' (flat_map (fun c => if drop c then [] else [Bs4.prune drop c]) cs) ->
  exists c, In c cs /\ drop c = false /\ c' = Bs4.prune drop c.
Proof.
  intros H. apply in_flat_map in H. destruct H as (c & I & H).
  destruct (drop c) eqn:D; [destruct H |].
  destruct H as [<- | []]. now exists c.
Qed.

Lemma descendants_of_prune drop x : forall e,
  In e (Bs4.descendants_of (Bs4.prune drop x)) ->
  exists e0, In e0 (Bs4.descendants_of x) /\ drop e0 = false
             /\ e = Bs4.prune drop e0.
Proof.
  induction x as [n a cs IH | k s] using PageElement_induction;
    intros e H; [| destruct H].
  cbn [Bs4.prune Bs4.descendants_of] in H.
  apply in_flat_map in H. destruct H as (c' & I' & H).
  destruct (in_pruned_children drop cs c' I') as (c & I & D & ->).
  rewrite Forall_forall in IH.
  cbn [Bs4.descendants_of].
  destruct H as [<- | H].
  - exists c. split; [| auto]. apply in_flat_map. exists c. split; [exact I |].
    now left.
  - destruct (IH c I e H) as (e0 & I0 & D0 & ->).
    exists e0. split; [| auto]. apply in_flat_map. exists c.
    split; [exact I | now right].
Qed.

Lemma descendants_prune_all drop soup e :
  In e (Bs4.descendants (Bs4.prune_all drop soup)) ->
  exists e0, In e0 (Bs4.descendants soup) /\ drop e0 = false
             /\ e = Bs4.prune drop e0.
Proof.
  intros H.
  exact (descendants_of_prune drop (Bs4.Tag "" [] soup) e H).
Qed.

Lemma remove_tags_fold tags : forall soup e,
  In e (Bs4.descendants
          (fold_left (fun soup tag => Bs4.prune_all (Bs4.is_tag tag) soup)
             tags soup)) ->
  (forall t, In t tags -> Bs4.is_tag t e = false)
  /\ (forall t, (forall e0, In e0 (Bs4.descendants soup) ->
                            Bs4.is_tag t e0 = false) ->
                Bs4.is_tag t e = false)
  /\ exists e0, In e0 (Bs4.descendants soup) /\ Spec.same_node e e0.
Proof.
  induction tags as [| t1 tags IH]; intros soup e H; cbn [fold_left] in H.
  - split; [intros t [] | split].
    + intros t A. now apply A.
    + exists e. split; [exact H | destruct e; simpl; auto].
  - destruct (IH _ _ H) as (Later & Keep & e1 & I1 & S1).
    assert (Pass : forall e',
               In e' (Bs4.descendants (Bs4.prune_all (Bs4.is_tag t1) soup)) ->
               exists e0, In e0 (Bs4.descendants soup)
                          /\ Bs4.is_tag t1 e0 = false
                          /\ Spec.same_node e' e0).
    { intros e' I'.
      destruct (descendants_prune_all _ _ _ I') as (e0 & I0 & D0 & ->).
      exists e0. auto using same_node_prune. }
    split; [| split].
    + intros t [<- | T]; [| now apply Later].
      apply Keep. intros e' I'.
      destruct (Pass e' I') as (e0 & _ & D0 & S0).
      now rewrite (is_tag_same_node _ _ _ S0).
    + intros t A. apply Keep. intros e' I'.
      destruct (Pass e' I') as (e0 & I0 & _ & S0).
      rewrite (is_tag_same_node _ _ _ S0). now apply A.
    + destruct (Pass e1 I1) as (e0 & I0 & _ & S0).
      exists e0. split; [exact I0 | exact (same_node_trans _ _ _ S1 S0)].
Qed.

(** X2.  After [remove_common_noise], no element of the document, at any
    depth, is a [script], [style], [noscript], [iframe], [object] or
    [embed] tag or a comment; and every element that is left is a node of
    the document it was given, with the same name and attributes, or the
    same text. *)
Theorem common_noise_removed
    (soup cleaned : Bs4.BeautifulSoup) (e : Bs4.PageElement) :
  outcome (remove_common_noise soup) = Ok cleaned ->
  In e (Bs4.descendants cleaned) ->
  (forall tag, In tag noise_tags -> Bs4.is_tag tag e = false)
  /\ Bs4.is_comment e = false
  /\ exists e0, In e0 (Bs4.descendants soup) /\ Spec.same_node e e0.
Proof.
  intros O I. inversion O; subst cleaned. clear O.
  destruct (descendants_prune_all _ _ _ I) as (e1 & I1 & C1 & ->).
  destruct (remove_tags_fold noise_tags soup e1 I1) as (T & _ & e0 & I0 & S0).
  pose proof (same_node_prune Bs4.is_comment e1) as S1.
  split; [| split].
  - intros tag In_tag. rewrite (is_tag_same_node _ _ _ S1). now apply T.
  - now rewrite (is_comment_same_node _ _ S1).
  - exists e0. split; [exact I0 | exact (same_node_trans _ _ _ S1 S0)].
Qed.

(** A paragraph next to a script, with a comment and a nested [style]. *)
Lemma common_noise_removed_witness :
  outcome (remove_common_noise
             [Bs4.Tag "script" [] [Bs4.Text Bs4.NavigableString "x()"];
              Bs4.Tag "p" [("class", "lead")]
                [Bs4.Text Bs4.Comment "note";
                 Bs4.Tag "style" [] [];
                 Bs4.Text Bs4.NavigableString "Hello"]])
  = Ok [Bs4.Tag "p" [("class", "lead")]
          [Bs4.Text Bs4.NavigableString "Hello"]]
  /\ Bs4.is_comment (Bs4.Text Bs4.NavigableString "Hello") = false.
Proof.
  split; [reflexivity |].
  apply (common_noise_removed
           [Bs4.Tag "script" [] [Bs4.Text Bs4.NavigableString "x()"];
            Bs4.Tag "p" [("class", "lead")]
              [Bs4.Text Bs4.Comment "note";
               Bs4.Tag "style" [] [];
               Bs4.Text Bs4.NavigableString "Hello"]]
           [Bs4.Tag "p" [("class", "lead")]
              [Bs4.Text Bs4.NavigableString "Hello"]]
           (Bs4.Text Bs4.NavigableString "Hello") eq_refl).
  simpl. auto.
Defined.

(** ** Failures that do not stop the run *)

(** X3.  When pandoc raises, [html_to_markdown] logs the error and returns
    what the converter's own fallback gives; when it does not, its output
    is returned as it is. *)
Theorem conversion_failure_falls_back `{W : World} (html_content : string) :
  (forall e,
     pypandoc_convert_text html_content "commonmark" "html" ["--wrap=none"]
     = Raise e ->
     outcome (html_to_markdown html_content)
     = outcome (_simple_html_to_markdown html_content)
     /\ In (Log ERROR ("Failed to convert HTML to Markdown: " ++ exn_str e))
           (events (html_to_markdown html_content)))
  /\ (forall markdown,
      pypandoc_convert_text html_content "commonmark" "html" ["--wrap=none"]
      = Ok markdown ->
      outcome (html_to_markdown html_content) = Ok markdown).
Proof.
  split.
  - intros e P. unfold html_to_markdown. split.
    + rewrite outcome_try_except_all, P. simpl outcome at 1. cbv iota.
      now rewrite outcome_bind.
    + rewrite (events_try_except_raise _ _ e) by now rewrite P.
      rewrite P. simpl. now left.
  - intros md P. unfold html_to_markdown.
    apply outcome_try_except_ok. now rewrite P.
Qed.

(** * Further properties of the converter *)

(** ** Discovery of the input files *)

Lemma endswith_html_not_htm name :
  Py.endswith name ".html" = true -> Py.endswith name ".htm" = false.
Proof.
  unfold Py.endswith.
  change (Py.rev_string ".html") with "lmth.".
  change (Py.rev_string ".htm") with "mth.".
  destruct (Py.rev_string name) as [| c r]; cbn [String.prefix];
    [discriminate |].
  destruct (ascii_dec "l" c) as [<- |]; [| discriminate].
  intros _. now destruct (ascii_dec "m" "l").
Qed.

Lemma in_glob `{W : World} dir suffix f :
  In f (glob dir suffix)
  <-> Path.parent f = dir /\ In (Path.name f) (iterdir dir)
      /\ Py.endswith (Path.name f) suffix = true.
Proof.
  unfold glob. rewrite in_map_iff. split.
  - intros (n & <- & I). apply filter_In in I. simpl. tauto.
  - intros (P & I & E). exists (Path.name f). split.
    + destruct f; simpl in *. now subst.
    + apply filter_In. auto.
Qed.

Lemma NoDup_glob `{W : World} dir suffix :
  NoDup (iterdir dir) -> NoDup (glob dir suffix).
Proof.
  intros ND. unfold glob.
  apply NoDup_map_NoDup_ForallPairs.
  - intros x y _ _ E. now inversion E.
  - now apply NoDup_filter.
Qed.

(** X4.  The files of a run are the entries of the input directory whose
    name ends in [.html] or in [.htm], and no others; when the directory
    lists no name twice, no file is taken twice, so each of them is
    processed exactly once. *)
Theorem html_files_each_once `{W : World} (self : HTMLToJSONConverter) :
  NoDup (iterdir (input_dir self)) ->
  NoDup (html_files_of self)
  /\ (forall f,
      In f (html_files_of self)
      <-> Path.parent f = input_dir self
          /\ In (Path.name f) (iterdir (input_dir self))
          /\ (Py.endswith (Path.name f) ".html" = true
              \/ Py.endswith (Path.name f) ".htm" = true)).
Proof.
  intros ND. unfold html_files_of. split.
  - apply NoDup_app; try now apply NoDup_glob.
    intros f A B. apply in_glob in A. apply in_glob in B.
    destruct A as (_ & _ & A). destruct B as (_ & _ & B).
    apply endswith_html_not_htm in A. congruence.
  - intros f. rewrite in_app_iff, !in_glob. tauto.
Qed.

(** The demonstration directory: three entries, three files. *)
Lemma html_files_each_once_witness :
  NoDup (@html_files_of Demo.world (Demo.converter []))
  /\ List.length (@html_files_of Demo.world (Demo.converter [])) = 3.
Proof.
  split; [| reflexivity].
  apply (@html_files_each_once Demo.world (Demo.converter [])).
  simpl. repeat constructor; simpl; intuition discriminate.
Defined.

(** ** What leaves [convert_all] *)

Lemma convert_all_found `{W : World} self :
  html_files_of self <> [] ->
  convert_all self
  = (logger_info ("Found "
                  ++ Py.str_of_nat (List.length (html_files_of self))
                  ++ " HTML files") ;;
     all_documents <- process_files self (html_files_of self) [] ;;
     lift (open_w (Path.mk (output_dir self) "converted_documents.json")) ;;
     emit (JsonDump (Path.mk (output_dir self) "converted_documents.json")
             "utf-8" all_documents false 2) ;;
     logger_info ("Saved " ++ Py.str_of_nat (List.length all_documents)
                  ++ " documents to " ++ output_dir self
                  ++ "/converted_documents.json") ;;
     _print_statistics all_documents).
Proof.
  intros NE. unfold convert_all.
  destruct (html_files_of self); [contradiction | reflexivity].
Qed.

Lemma convert_all_events `{W : World} self :
  html_files_of self <> [] ->
  events (convert_all self)
  = (Log INFO ("Found " ++ Py.str_of_nat (List.length (html_files_of self))
               ++ " HTML files")
     :: events (process_files self (html_files_of self) [])
     ++ match open_w (Path.mk (output_dir self) "converted_documents.json")
        with
        | Ok _ =>
            let all_documents :=
              concat (map (Spec.records_of self) (html_files_of self)) in
            JsonDump (Path.mk (output_dir self) "converted_documents.json")
              "utf-8" all_documents false 2
            :: Log INFO ("Saved "
                         ++ Py.str_of_nat (List.length all_documents)
                         ++ " documents to " ++ output_dir self
                         ++ "/converted_documents.json")
            :: events (_print_statistics all_documents)
        | Raise _ => []
        end)%list.
Proof.
  intros NE. rewrite (convert_all_found self NE).
  rewrite (events_bind_ok (logger_info _) _ tt eq_refl).
  rewrite (events_bind_ok _ _ _ (all_documents_spec self _)).
  destruct (open_w _) as [[] | e].
  - rewrite bind_lift_ok. reflexivity.
  - rewrite bind_lift_raise. reflexivity.
Qed.


Lemma failing_files_no_records `{W : World} self : forall html_files,
  (forall f, In f html_files ->
             exists e, outcome (process_html_file_body self f) = Raise e) ->
  concat (map (Spec.records_of self) html_files) = [].
Proof.
  induction html_files as [| f fs IH]; intros Fail; [reflexivity |].
  cbn [map concat].
  destruct (Fail f (or_introl eq_refl)) as (e & B).
  rewrite records_of_body, B, IH; [reflexivity |].
  intros g G. apply Fail. now right.
Qed.

(** X6.  When every input file fails, the run still writes its output: the
    empty array, and statistics that are all zero (the average is guarded
    against the division by zero). *)
Theorem failed_run_writes_empty_array `{W : World}
    (self : HTMLToJSONConverter) :
  html_files_of self <> [] ->
  (forall f, In f (html_files_of self) ->
             exists e, outcome (process_html_file_body self f) = Raise e) ->
  open_w (Path.mk (output_dir self) "converted_documents.json") = Ok tt ->
  exists logged,
    events (convert_all self)
    = (logged
       ++ [JsonDump (Path.mk (output_dir self) "converted_documents.json")
             "utf-8" [] false 2;
           Log INFO ("Saved 0 documents to " ++ output_dir self
                     ++ "/converted_documents.json");
           PrintStatistics 0 0 0 0])%list
    /\ Forall (fun ev => Spec.is_log ev = true) logged.
Proof.
  intros NE Fail O.
  pose proof (failing_files_no_records self _ Fail) as E.
  exists (Log INFO ("Found "
                    ++ Py.str_of_nat (List.length (html_files_of self))
                    ++ " HTML files")
          :: events (process_files self (html_files_of self) [])).
  split.
  - rewrite (convert_all_events self NE), O. cbv zeta. rewrite E. reflexivity.
  - constructor; [reflexivity | apply logs_only_process_files].
Qed.

(** A directory whose only page is the one the parser rejects. *)
Lemma failed_run_writes_empty_array_witness :
  In (JsonDump (Path.mk "output" "converted_documents.json") "utf-8" []
        false 2)
     (events (@convert_all Failing.world
                (Failing.converter "rejected" "output"))).
Proof.
  destruct (@failed_run_writes_empty_array Failing.world
              (Failing.converter "rejected" "output")) as (logged & E & _).
  - discriminate.
  - intros f H. vm_compute in H. destruct H as [<- | []].
    eexists. reflexivity.
  - reflexivity.
  - rewrite E. apply in_or_app. right. now left.
Defined.


(** ** The fields of a record *)

Lemma set_absent k v d :
  ~ In k (Py.keys d) -> Py.set k v d = (d ++ [(k, v)])%list.
Proof.
  induction d as [| [k' v'] d IH]; simpl; intros N; [reflexivity |].
  destruct (String.eqb_spec k k') as [-> | _]; [tauto |].
  rewrite IH by tauto. reflexivity.
Qed.

Lemma update_appends : forall m d,
  Py.well_formed m ->
  (forall k, In k (Py.keys m) -> ~ In k (Py.keys d)) ->
  Py.update d m = (d ++ m)%list.
Proof.
  unfold Py.well_formed, Py.update.
  induction m as [| [k v] m IH]; intros d ND Dis; simpl.
  - now rewrite app_nil_r.
  - inversion ND as [| ? ? Nk NDm]; subst.
    rewrite set_absent by (apply Dis; now left).
    rewrite IH; [now rewrite <- app_assoc | exact NDm |].
    intros k' I. unfold Py.keys. rewrite map_app, in_app_iff.
    intros [J | [<- | []]].
    + apply (Dis k'); [now right | exact J].
    + exact (Nk I).
Qed.

(** X7.  When the heading path of a section has no key twice and none of
    the keys [source], [url], [section_id], the metadata of its record
    lists these three entries, in this order, and then the entries of the
    heading path in their own order. *)
Theorem metadata_keeps_heading_order
    (url filename : string) (i : nat) (doc : Document.t) :
  Py.well_formed (Document.metadata doc) ->
  (forall k, In k (Py.keys (Document.metadata doc)) ->
             ~ In k ["source"; "url"; "section_id"]) ->
  JsonDoc.metadata (json_doc url filename i doc)
  = ([("source", Py.Str filename); ("url", Py.Str url);
      ("section_id", Py.Int i)]
     ++ Document.metadata doc)%list.
Proof. intros WF Dis. now apply update_appends. Qed.

(** A section under two headings. *)
Lemma metadata_keeps_heading_order_witness :
  Py.keys
    (JsonDoc.metadata
       (json_doc "https://x.test/page" "page" 1
          (Document.mk "## B"
             [("Header 1", Py.Str "A"); ("Header 2", Py.Str "B")])))
  = ["source"; "url"; "section_id"; "Header 1"; "Header 2"].
Proof.
  rewrite (metadata_keeps_heading_order "https://x.test/page" "page" 1
             (Document.mk "## B"
                [("Header 1", Py.Str "A"); ("Header 2", Py.Str "B")])).
  - reflexivity.
  - repeat constructor; simpl; intuition discriminate.
  - intros k [<- | [<- | []]]; simpl; intuition discriminate.
Defined.

Lemma nth_error_json_docs_from_inv docs : forall i n r url filename,
  nth_error (json_docs_from i docs url filename) n = Some r ->
  exists doc, nth_error docs n = Some doc
              /\ r = json_doc url filename (i + n) doc.
Proof.
  intros i n r url filename H.
  destruct (nth_error docs n) as [doc |] eqn:D.
  - exists doc. split; [reflexivity |].
    rewrite (nth_error_json_docs_from docs i n doc url filename D) in H.
    now inversion H.
  - apply nth_error_None in D.
    assert (L : nth_error (json_docs_from i docs url filename) n <> None)
      by (rewrite H; discriminate).
    apply nth_error_Some in L. rewrite length_json_docs_from in L. lia.
Qed.

Lemma base_keys_are_no_headers k :
  In k ["source"; "url"; "section_id"] ->
  ~ In k (map snd headers_to_split_on).
Proof. simpl. intuition (subst; discriminate). Qed.

Section RecordFields.

Context {W : World}.
Hypothesis splitter_keys :
  forall markdown_content docs d,
    split_text headers_to_split_on false markdown_content = Ok docs ->
    In d docs ->
    incl (Py.keys (Document.metadata d)) (map snd headers_to_split_on).

Lemma record_at self html_file i r :
  nth_error (Spec.records_of self html_file) i = Some r ->
  exists url doc,
    r = json_doc url (Path.stem html_file) i doc
    /\ forall k, In k ["source"; "url"; "section_id"] ->
                 ~ In k (Py.keys (Document.metadata doc)).
Proof.
  intros H.
  destruct (records_of_shape self html_file r (nth_error_In _ _ H))
    as (html & url & docs & _ & _ & E & K).
  rewrite E in H.
  destruct (nth_error_json_docs_from_inv _ _ _ _ _ _ H) as (doc & D & ->).
  exists url, doc. split; [reflexivity |].
  intros k B I.
  destruct (K doc (nth_error_In _ _ D)) as [M | (md & all & T & A)].
  - rewrite M in I. destruct I.
  - apply (splitter_keys md all doc T A) in I.
    now apply (base_keys_are_no_headers k).
Qed.

Lemma record_source self html_file r :
  In r (Spec.records_of self html_file) ->
  Py.get "source" (JsonDoc.metadata r) = Some (Py.Str (Path.stem html_file)).
Proof.
  intros I. apply In_nth_error in I. destruct I as (i & H).
  destruct (record_at self html_file i r H) as (url & doc & -> & N).
  simpl JsonDoc.metadata. rewrite get_update_absent; [reflexivity |].
  apply N. simpl. auto.
Qed.

End RecordFields.

(** X8.  With a splitter that records headings under the names it was
    given: the record at position [i] among the records of a file has the
    [id] [stem_i], the [source] [stem] and the [section_id] [i], so within
    a file the section ids are 0, 1, 2, ... in the order of the records. *)
Theorem record_fields_of_a_file `{W : World} (self : HTMLToJSONConverter)
    (html_file : Path.t) (i : nat) (r : JsonDoc.t) :
  (forall markdown_content docs d,
     split_text headers_to_split_on false markdown_content = Ok docs ->
     In d docs ->
     incl (Py.keys (Document.metadata d)) (map snd headers_to_split_on)) ->
  nth_error (Spec.records_of self html_file) i = Some r ->
  JsonDoc.id r = Path.stem html_file ++ "_" ++ Py.str_of_nat i
  /\ Py.get "source" (JsonDoc.metadata r)
     = Some (Py.Str (Path.stem html_file))
  /\ Py.get "section_id" (JsonDoc.metadata r) = Some (Py.Int i).
Proof.
  intros K H.
  destruct (record_at K self html_file i r H) as (url & doc & -> & N).
  split; [reflexivity |].
  simpl JsonDoc.metadata.
  split; (rewrite get_update_absent; [reflexivity | apply N; simpl; auto]).
Qed.

Lemma demo_splitter_keys : forall markdown_content docs d,
  @split_text Demo.world headers_to_split_on false markdown_content = Ok docs ->
  In d docs ->
  incl (Py.keys (Document.metadata d)) (map snd headers_to_split_on).
Proof.
  intros md docs d T D. simpl in T. inversion T; subst docs.
  now apply (chunk_keys md).
Qed.

(** The record of the page with the canonical link. *)
Lemma record_fields_of_a_file_witness :
  exists r,
    nth_error (@Spec.records_of Demo.world (Demo.converter [])
                 (Path.mk "input" "page.html")) 0 = Some r
    /\ JsonDoc.id r = "page_0"
    /\ Py.get "section_id" (JsonDoc.metadata r) = Some (Py.Int 0).
Proof.
  destruct (nth_error (@Spec.records_of Demo.world (Demo.converter [])
                         (Path.mk "input" "page.html")) 0) as [r |] eqn:E;
    [| vm_compute in E; discriminate].
  exists r. split; [reflexivity |].
  destruct (@record_fields_of_a_file Demo.world (Demo.converter [])
              (Path.mk "input" "page.html") 0 r demo_splitter_keys E)
    as (I & _ & S).
  split; [exact I | exact S].
Defined.

(** ** The statistics *)

Lemma length_nodup_incl {A} (dec : forall x y : A, {x = y} + {x <> y}) l l' :
  incl l l' -> List.length (nodup dec l) <= List.length (nodup dec l').
Proof.
  intros I. apply NoDup_incl_length; [apply NoDup_nodup |].
  intros x H. apply nodup_In. apply I. now apply nodup_In in H.
Qed.

Lemma length_nodup_same {A} (dec : forall x y : A, {x = y} + {x <> y}) l l' :
  (forall x, In x l <-> In x l') ->
  List.length (nodup dec l) = List.length (nodup dec l').
Proof.
  intros S. apply Nat.le_antisymm; apply length_nodup_incl;
    intros x H; now apply S.
Qed.

Lemma length_nodup_map {A B}
    (decA : forall x y : A, {x = y} + {x <> y})
    (decB : forall x y : B, {x = y} + {x <> y}) (g : A -> B) l :
  (forall x y, g x = g y -> x = y) ->
  List.length (nodup decB (map g l)) = List.length (nodup decA l).
Proof.
  intros Inj.
  rewrite <- (length_map g (nodup decA l)).
  apply Nat.le_antisymm; apply NoDup_incl_length.
  - apply NoDup_nodup.
  - intros y H. apply nodup_In in H. apply in_map_iff in H.
    destruct H as (x & <- & H). apply in_map. now apply nodup_In.
  - apply NoDup_map_NoDup_ForallPairs; [| apply NoDup_nodup].
    intros x y _ _. apply Inj.
  - intros y H. apply in_map_iff in H. destruct H as (x & <- & H).
    apply nodup_In. apply in_map. now apply nodup_In in H.
Qed.

(** X9.  The statistics of a list of records: the number of records, the
    sum of the lengths of their contents, the number of distinct [source]
    values, which is at most the number of records and at least one when
    there is a record, and the average length rounded down.  For no
    record at all every number is zero: the average is not computed by a
    division then. *)
Theorem statistics_values (documents : list JsonDoc.t) :
  exists total_chars processed average,
    _print_statistics documents
    = (Ok tt, [PrintStatistics (List.length documents) total_chars
                 processed average])
    /\ total_chars
       = list_sum (map (fun doc => String.length (JsonDoc.content doc))
                       documents)
    /\ processed <= List.length documents
    /\ (documents = [] -> total_chars = 0 /\ processed = 0 /\ average = 0)
    /\ (documents <> [] ->
        1 <= processed
        /\ average * List.length documents <= total_chars
           < (average + 1) * List.length documents).
Proof.
  unfold _print_statistics, emit.
  do 3 eexists. split; [reflexivity |]. split; [reflexivity |].
  split; [| split].
  - rewrite <- (length_map (fun doc => Py.get "source" (JsonDoc.metadata doc))
                  documents).
    apply NoDup_incl_length; [apply NoDup_nodup |].
    intros x H. now apply nodup_In in H.
  - intros ->. auto.
  - intros NE. destruct documents as [| d ds]; [contradiction |].
    split.
    + assert (I : In (Py.get "source" (JsonDoc.metadata d))
                    (nodup value_eq_dec
                       (map (fun doc => Py.get "source" (JsonDoc.metadata doc))
                            (d :: ds))))
        by (apply nodup_In; now left).
      destruct (nodup _ _); [destruct I | simpl; lia].
    + set (n := List.length (d :: ds)).
      set (c := list_sum _).
      assert (P : 0 < n) by (unfold n; simpl; lia).
      replace (0 <? n)%nat with true by (symmetry; now apply Nat.ltb_lt).
      pose proof (Nat.div_mod_eq c n) as DM.
      pose proof (Nat.mod_upper_bound c n ltac:(lia)) as MB.
      nia.
Qed.

(** X10.  With a splitter that records headings under the names it was
    given: the number of processed files the statistics show is the number
    of distinct stems among the files that contributed a record.  A file
    that gave no record is not counted, and files that share a stem are
    counted once. *)
Theorem processed_files_counts_stems `{W : World}
    (self : HTMLToJSONConverter) (html_files : list Path.t) :
  (forall markdown_content docs d,
     split_text headers_to_split_on false markdown_content = Ok docs ->
     In d docs ->
     incl (Py.keys (Document.metadata d)) (map snd headers_to_split_on)) ->
  exists total_docs total_chars average,
    _print_statistics (concat (map (Spec.records_of self) html_files))
    = (Ok tt,
       [PrintStatistics total_docs total_chars
          (List.length
             (nodup string_dec
                (map Path.stem
                   (filter (fun f => match Spec.records_of self f with
                                     | [] => false
                                     | _ :: _ => true
                                     end)
                           html_files))))
          average]).
Proof.
  intros K. unfold _print_statistics, emit.
  do 3 eexists. f_equal. f_equal. f_equal.
  rewrite <- (length_nodup_map string_dec value_eq_dec
                (fun s => Some (Py.Str s)))
    by (intros x y E; now inversion E).
  apply length_nodup_same. intros x. rewrite !in_map_iff. split.
  - intros (r & <- & I).
    apply in_concat in I. destruct I as (l & L & I).
    apply in_map_iff in L. destruct L as (f & <- & F).
    exists (Path.stem f). split.
    + symmetry. now apply (record_source K self f r).
    + apply in_map. apply filter_In. split; [exact F |].
      destruct (Spec.records_of self f); [destruct I | reflexivity].
  - intros (s & <- & I).
    apply in_map_iff in I. destruct I as (f & <- & F).
    apply filter_In in F. destruct F as (F & C).
    destruct (Spec.records_of self f) as [| r rs] eqn:R; [discriminate |].
    exists r. split.
    + apply (record_source K self f r). rewrite R. now left.
    + apply in_concat. exists (r :: rs). split; [| now left].
      rewrite <- R. now apply in_map.
Qed.

(** Three input files, one rejected and two with the stem [a]: one
    processed file. *)
Lemma processed_files_counts_stems_witness :
  exists total_docs total_chars average,
    @_print_statistics
      (concat (map (@Spec.records_of Demo.world (Demo.converter []))
                   (@html_files_of Demo.world (Demo.converter []))))
    = (Ok tt, [PrintStatistics total_docs total_chars 1 average]).
Proof.
  exact (@processed_files_counts_stems Demo.world (Demo.converter [])
           (@html_files_of Demo.world (Demo.converter []))
           demo_splitter_keys).
Defined.

(** ** A link [urlparse] refuses *)

(** X11.  When neither a canonical link nor an [og:url] tag gives the URL
    and [urlparse] raises on the first anchor whose [href] starts with
    [http], [extract_page_url] raises: the anchors after it are not tried
    and the empty string is not returned.  A file with that content then
    gives no record. *)
Theorem unparsable_first_link_fails_the_file `{W : World}
    (self : HTMLToJSONConverter) (html_content href : string)
    (soup : Bs4.BeautifulSoup) (e : exn) :
  html_parser html_content = Ok soup ->
  Spec.canonical_href soup = None ->
  Spec.og_url_content soup = None ->
  List.find (fun href => Py.startswith href "http")
    (map (fun a => Bs4.item a "href")
         (Bs4.find_all soup "a" (Some ("href", Bs4.Present))))
  = Some href ->
  urlparse href = Raise e ->
  extract_page_url html_content = (Raise e, [])
  /\ (forall html_file,
      read_text html_file = Ok html_content ->
      outcome (process_html_file self html_file) = Ok []
      /\ In (Log ERROR ("Failed to process " ++ Path.name html_file ++ ": "
                        ++ exn_str e))
            (events (process_html_file self html_file))).
Proof.
  intros P C O F U.
  assert (X : extract_page_url html_content = (Raise e, [])).
  { rewrite (extract_page_url_parsed _ _ P).
    unfold Spec.page_url_strategies, Spec.first_success.
    rewrite C, O. unfold Spec.first_anchor_origin. rewrite F, U.
    reflexivity. }
  split; [exact X |].
  intros html_file R. apply process_html_file_raise.
  unfold process_html_file_body. rewrite R, bind_lift_ok, X. reflexivity.
Qed.

(** A page whose first link is [http://[::1] and whose second link is a
    good URL. *)
Lemma unparsable_first_link_fails_the_file_witness :
  @extract_page_url Failing.world Failing.links_html
  = (Raise (Exception "Invalid IPv6 URL"), [])
  /\ outcome (@process_html_file Failing.world (Failing.converter "input" "output")
                (Path.mk "input" "links.html")) = Ok [].
Proof.
  destruct (@unparsable_first_link_fails_the_file Failing.world
              (Failing.converter "input" "output") Failing.links_html
              "http://[::1" Failing.links_soup (Exception "Invalid IPv6 URL")
              eq_refl eq_refl eq_refl eq_refl eq_refl) as (X & F).
  split; [exact X |].
  exact (proj1 (F (Path.mk "input" "links.html") eq_refl)).
Defined.

(** ** Pattern lists *)

Lemma bind_assoc {A B C} (m : M A) (f : A -> M B) (g : B -> M C) :
  bind (bind m f) g = bind m (fun a => bind (f a) g).
Proof.
  unfold bind. destruct m as [[a | e] l]; simpl; [| reflexivity].
  destruct (f a) as [[b | e] l']; simpl; [| reflexivity].
  now rewrite app_assoc.
Qed.

Lemma bind_ext {A B} (m : M A) (f g : A -> M B) :
  (forall a, f a = g a) -> bind m f = bind m g.
Proof.
  intros E. unfold bind. destruct (fst m); [now rewrite E | reflexivity].
Qed.

Lemma remove_patterns_app `{W : World} ps qs : forall html_content,
  remove_patterns (ps ++ qs) html_content
  = (cleaned <- remove_patterns ps html_content ;;
     remove_patterns qs cleaned).
Proof.
  induction ps as [| p ps IH]; intros html.
  - simpl app. cbn [remove_patterns]. now rewrite bind_ret.
  - change ((p :: ps) ++ qs)%list with (p :: (ps ++ qs))%list.
    cbn [remove_patterns]. rewrite bind_assoc.
    apply bind_ext. intros a. apply IH.
Qed.

Lemma outcome_remove_pattern_noise `{W : World} self html_content :
  outcome (remove_pattern_noise self html_content)
  = outcome (remove_patterns (noise_patterns self) html_content).
Proof.
  unfold remove_pattern_noise. rewrite outcome_bind.
  destruct (outcome (remove_patterns (noise_patterns self) html_content));
    [| reflexivity].
  rewrite outcome_bind. destruct (noise_patterns self); reflexivity.
Qed.

(** X12.  The pattern pass composes: with the patterns [ps ++ qs] it gives
    what the pass with [qs] gives on the output of the pass with [ps], and
    raises when one of the two does.  With no pattern it returns its input
    and logs nothing. *)
Theorem pattern_pass_composes `{W : World} (self : HTMLToJSONConverter)
    (ps qs : list string) (html_content : string) :
  outcome (remove_pattern_noise (with_patterns self (ps ++ qs)) html_content)
  = match outcome (remove_pattern_noise (with_patterns self ps) html_content)
    with
    | Ok cleaned =>
        outcome (remove_pattern_noise (with_patterns self qs) cleaned)
    | Raise e => Raise e
    end
  /\ remove_pattern_noise (with_patterns self []) html_content
     = (Ok html_content, []).
Proof.
  split; [| reflexivity].
  rewrite !outcome_remove_pattern_noise. cbn [with_patterns noise_patterns].
  rewrite remove_patterns_app, outcome_bind.
  destruct (outcome (remove_patterns ps html_content)); [| reflexivity].
  now rewrite outcome_remove_pattern_noise.
Qed.

(** X13.  Loading the patterns never raises, and every pattern it gives is
    a trimmed line of the file: it is not empty and has no white space at
    its start or at its end. *)
Theorem loaded_patterns_are_trimmed `{W : World} (file : string) :
  exists patterns,
    outcome (_load_noise_patterns file) = Ok patterns
    /\ forall p, In p patterns ->
         p <> ""
         /\ Spec.starts_clean p /\ Spec.starts_clean (Py.rev_string p)
         /\ exists lines line,
              read_lines file = Ok lines /\ In line lines
              /\ p = Py.strip line.
Proof.
  unfold _load_noise_patterns.
  destruct (path_exists file); [| exists []; split; [reflexivity | intros ? []]].
  destruct (read_lines file) as [lines | e] eqn:R.
  - exists (map Py.strip (filter (fun l => Py.truthy (Py.strip l)) lines)).
    split.
    + apply outcome_try_except_ok. now rewrite bind_lift_ok, outcome_bind.
    + intros p I. apply in_map_iff in I. destruct I as (line & <- & I).
      apply filter_In in I. destruct I as (I & T).
      destruct (strip_trimmed line) as (_ & C1 & C2).
      split; [| split; [exact C1 | split; [exact C2 |]]].
      * intros E. rewrite E in T. discriminate.
      * exists lines, line. auto.
  - exists []. split; [reflexivity | intros ? []].
Qed.

(** ** Documents without noise *)

Lemma pruned_children_id (drop : Bs4.PageElement -> bool) cs :
  Forall (fun c => drop c = false /\ Bs4.prune drop c = c) cs ->
  flat_map (fun c => if drop c then [] else [Bs4.prune drop c]) cs = cs.
Proof.
  induction 1 as [| c cs [D P] _ IH]; cbn [flat_map]; [reflexivity |].
  rewrite D, P, IH. reflexivity.
Qed.

Lemma prune_id drop x :
  (forall e, In e (Bs4.descendants_of x) -> drop e = false) ->
  Bs4.prune drop x = x.
Proof.
  induction x as [n a cs IH | k s] using PageElement_induction;
    intros H; [| reflexivity].
  cbn [Bs4.prune]. f_equal. apply pruned_children_id.
  rewrite Forall_forall in IH. apply Forall_forall. intros c I.
  cbn [Bs4.descendants_of] in H. split.
  - apply H. apply in_flat_map. exists c. split; [exact I | now left].
  - apply IH; [exact I |]. intros e E. apply H.
    apply in_flat_map. exists c. split; [exact I | now right].
Qed.

Lemma prune_all_id drop soup :
  (forall e, In e (Bs4.descendants soup) -> drop e = false) ->
  Bs4.prune_all drop soup = soup.
Proof.
  intros H.
  assert (E : Bs4.prune drop (Bs4.Tag "" [] soup) = Bs4.Tag "" [] soup)
    by (apply prune_id; exact H).
  cbn [Bs4.prune] in E. injection E as E. exact E.
Qed.

Lemma remove_common_noise_unchanged soup :
  (forall e, In e (Bs4.descendants soup) ->
             Bs4.is_comment e = false
             /\ forall tag, In tag noise_tags -> Bs4.is_tag tag e = false) ->
  remove_common_noise soup
  = (Ok soup, [Log INFO "Removed common noise elements"]).
Proof.
  intros H. unfold remove_common_noise.
  assert (T : fold_left (fun soup tag => Bs4.prune_all (Bs4.is_tag tag) soup)
                noise_tags soup = soup).
  { assert (G : forall tags, incl tags noise_tags ->
                  fold_left
                    (fun soup tag => Bs4.prune_all (Bs4.is_tag tag) soup)
                    tags soup = soup).
    { induction tags as [| t tags IH]; intros I; [reflexivity |].
      cbn [fold_left]. rewrite prune_all_id.
      - apply IH. intros x X. apply I. now right.
      - intros e E. apply (H e E). apply I. now left. }
    apply G, incl_refl. }
  rewrite T, prune_all_id; [reflexivity |].
  intros e E. now apply H.
Qed.

(** X14.  A document that holds no noise element and no comment is
    returned as it is by [remove_common_noise]; so the structural pass is
    idempotent: on its own output it changes nothing. *)
Theorem common_noise_removal_idempotent (soup : Bs4.BeautifulSoup) :
  ((forall e, In e (Bs4.descendants soup) ->
              Bs4.is_comment e = false
              /\ forall tag, In tag noise_tags -> Bs4.is_tag tag e = false) ->
   outcome (remove_common_noise soup) = Ok soup)
  /\ (forall cleaned,
      outcome (remove_common_noise soup) = Ok cleaned ->
      outcome (remove_common_noise cleaned) = Ok cleaned).
Proof.
  split.
  - intros H. now rewrite remove_common_noise_unchanged.
  - intros cleaned O. rewrite remove_common_noise_unchanged; [reflexivity |].
    inversion O; subst cleaned. clear O.
    intros e I.
    destruct (descendants_prune_all _ _ _ I) as (e1 & I1 & C1 & ->).
    destruct (remove_tags_fold noise_tags soup e1 I1) as (T & _).
    pose proof (same_node_prune Bs4.is_comment e1) as S1.
    split.
    + now rewrite (is_comment_same_node _ _ S1).
    + intros tag In_tag. rewrite (is_tag_same_node _ _ _ S1). now apply T.
Qed.

(** ** The fallback conversion *)

Lemma simple_html_to_markdown_elements `{W : World} html_content soup :
  html_parser html_content = Ok soup ->
  _simple_html_to_markdown html_content
  = (Ok (Bs4.get_text (map Spec.rewrite_element soup)), []).
Proof.
  intros P. unfold _simple_html_to_markdown. rewrite P, bind_lift_ok.
  cbn [fold_left seq].
  unfold Bs4.set_strings, Bs4.convert_lists. rewrite !map_map.
  reflexivity.
Qed.

Lemma heading_level_some n i :
  Spec.heading_level n = Some i ->
  In i (seq 1 6) /\ n = "h" ++ Py.str_of_nat i.
Proof.
  intros H. apply find_some in H. destruct H as [I E].
  split; [exact I | now apply String.eqb_eq].
Qed.

Lemma heading_level_none n :
  Spec.heading_level n = None ->
  forall i, In i (seq 1 6) -> String.eqb n ("h" ++ Py.str_of_nat i) = false.
Proof.
  intros H i I. exact (find_none _ _ H i I).
Qed.

Lemma heading_names_rewritten i :
  In i (seq 1 6) -> Spec.rewritten ("h" ++ Py.str_of_nat i) = true.
Proof.
  intros I. cbn [seq In] in I.
  repeat (destruct I as [<- | I]; [reflexivity |]). destruct I.
Qed.

Lemma not_rewritten n :
  Spec.rewritten n = false ->
  forall name, Spec.rewritten name = true -> String.eqb n name = false.
Proof.
  intros R name R'. destruct (String.eqb_spec n name) as [-> | _];
    [congruence | reflexivity].
Qed.

Lemma map_id_on {A} (f : A -> A) (l : list A) :
  Forall (fun x => f x = x) l -> map f l = l.
Proof.
  induction 1 as [| x l E _ IH]; cbn [map]; [reflexivity |].
  now rewrite E, IH.
Qed.

Lemma forallb_Forall {A} (p : A -> bool) (l : list A) :
  forallb p l = true <-> Forall (fun x => p x = true) l.
Proof.
  rewrite forallb_forall, Forall_forall. reflexivity.
Qed.

(** The loops leave an element alone that holds nothing they look for. *)
Lemma set_strings_plain name f e :
  Spec.rewritten name = true ->
  Spec.plain e = true -> Bs4.set_strings_of name f e = e.
Proof.
  intros R.
  induction e as [n a cs IH | k s] using PageElement_induction;
    intros P; [| reflexivity].
  cbn [Spec.plain] in P. apply andb_true_iff in P. destruct P as [N P].
  apply negb_true_iff in N.
  cbn [Bs4.set_strings_of]. rewrite (not_rewritten _ N _ R).
  f_equal. apply map_id_on.
  rewrite forallb_forall in P. rewrite Forall_forall in IH |- *.
  intros c I. apply IH; [exact I | now apply P].
Qed.

Lemma set_strings_plain_all name f cs :
  Spec.rewritten name = true ->
  forallb Spec.plain cs = true -> map (Bs4.set_strings_of name f) cs = cs.
Proof.
  intros R P. apply map_id_on. rewrite forallb_forall in P.
  apply Forall_forall. intros c I. apply set_strings_plain; auto.
Qed.

Lemma convert_lists_plain name items e :
  Spec.rewritten name = true ->
  Spec.plain e = true -> Bs4.convert_lists_of name items e = e.
Proof.
  intros R.
  induction e as [n a cs IH | k s] using PageElement_induction;
    intros P; [| reflexivity].
  cbn [Spec.plain] in P. apply andb_true_iff in P. destruct P as [N P].
  apply negb_true_iff in N.
  cbn [Bs4.convert_lists_of]. rewrite (not_rewritten _ N _ R).
  f_equal. apply map_id_on.
  rewrite forallb_forall in P. rewrite Forall_forall in IH |- *.
  intros c I. apply IH; [exact I | now apply P].
Qed.

Lemma convert_lists_plain_all name items cs :
  Spec.rewritten name = true ->
  forallb Spec.plain cs = true ->
  map (Bs4.convert_lists_of name items) cs = cs.
Proof.
  intros R P. apply map_id_on. rewrite forallb_forall in P.
  apply Forall_forall. intros c I. apply convert_lists_plain; auto.
Qed.

Lemma plain_no_items e :
  Spec.plain e = true ->
  filter (Bs4.is_tag "li") (Bs4.descendants_of e) = [].
Proof.
  induction e as [n a cs IH | k s] using PageElement_induction;
    intros P; [| reflexivity].
  cbn [Spec.plain] in P. apply andb_true_iff in P. destruct P as [_ P].
  cbn [Bs4.descendants_of].
  rewrite forallb_forall in P. rewrite Forall_forall in IH.
  induction cs as [| c cs IHcs]; [reflexivity |].
  cbn [flat_map]. rewrite filter_app. cbn [filter].
  assert (Pc : Spec.plain c = true) by (apply P; now left).
  rewrite (IH c (or_introl eq_refl) Pc), IHcs.
  - destruct c as [n' a' cs' | k s]; [| reflexivity].
    cbn [Spec.plain] in Pc. apply andb_true_iff in Pc. destruct Pc as [N _].
    apply negb_true_iff in N.
    unfold Bs4.is_tag, Bs4.matches.
    rewrite (not_rewritten _ N "li" eq_refl). reflexivity.
  - intros x I. apply IH. now right.
  - intros x I. apply P. now right.
Qed.

Lemma items_no_items cs :
  forallb Spec.plain cs = true ->
  filter (Bs4.is_tag "li") (flat_map (fun c => c :: Bs4.descendants_of c) cs)
  = [].
Proof.
  intros P.
  assert (Q : Spec.plain (Bs4.Tag "div" [] cs) = true) by exact P.
  exact (plain_no_items _ Q).
Qed.

Lemma number_items_plain f e :
  Spec.plain e = true -> forall i, Bs4.number_items_of f i e = (e, i).
Proof.
  induction e as [n a cs IH | k s] using PageElement_induction;
    intros P i; [| reflexivity].
  cbn [Spec.plain] in P. apply andb_true_iff in P. destruct P as [N P].
  apply negb_true_iff in N.
  cbn [Bs4.number_items_of]. rewrite (not_rewritten _ N "li" eq_refl).
  assert (F : forall acc,
             fold_left
               (fun acc c =>
                  let r := Bs4.number_items_of f (snd acc) c in
                  ((fst acc ++ [fst r])%list, snd r))
               cs (acc, i) = ((acc ++ cs)%list, i)).
  { rewrite forallb_forall in P. rewrite Forall_forall in IH.
    induction cs as [| c cs IHcs]; intros acc.
    - cbn [fold_left]. now rewrite app_nil_r.
    - cbn [fold_left fst snd].
      rewrite (IH c (or_introl eq_refl) (P c (or_introl eq_refl)) i).
      cbn [fst snd]. rewrite IHcs.
      + now rewrite <- app_assoc.
      + intros x I. apply IH. now right.
      + intros x I. apply P. now right. }
  rewrite F. reflexivity.
Qed.

Lemma concat_cons (x : string) (xs : list string) :
  String.concat "" (x :: xs) = x ++ String.concat "" xs.
Proof.
  destruct xs; cbn [String.concat]; [now rewrite append_nil_r | reflexivity].
Qed.

Lemma plain_item_inv c :
  Spec.plain_item c = true ->
  (Spec.is_li c = false /\ Spec.plain c = true)
  \/ (exists a cs, c = Bs4.Tag "li" a cs /\ forallb Spec.plain cs = true).
Proof.
  destruct c as [n a cs | k s]; [| now left].
  cbn [Spec.plain_item Spec.is_li].
  destruct (String.eqb_spec n "li") as [-> | _]; intros P.
  - right. now exists a, cs.
  - now left.
Qed.

Lemma set_strings_item name f c :
  Spec.rewritten name = true -> String.eqb "li" name = false ->
  Spec.plain_item c = true -> Bs4.set_strings_of name f c = c.
Proof.
  intros R L P.
  destruct (plain_item_inv c P) as [[_ Q] | (a & cs & -> & Q)].
  - now apply set_strings_plain.
  - cbn [Bs4.set_strings_of]. rewrite L.
    now rewrite set_strings_plain_all.
Qed.

Lemma set_strings_items name f cs :
  Spec.rewritten name = true -> String.eqb "li" name = false ->
  forallb Spec.plain_item cs = true ->
  map (Bs4.set_strings_of name f) cs = cs.
Proof.
  intros R L P. apply map_id_on. rewrite forallb_forall in P.
  apply Forall_forall. intros c I. apply set_strings_item; auto.
Qed.

Lemma convert_lists_items name items cs :
  Spec.rewritten name = true -> String.eqb "li" name = false ->
  forallb Spec.plain_item cs = true ->
  map (Bs4.convert_lists_of name items) cs = cs.
Proof.
  intros R L P. apply map_id_on. rewrite forallb_forall in P.
  apply Forall_forall. intros c I.
  destruct (plain_item_inv c (P c I)) as [[_ Q] | (a & cs' & -> & Q)].
  - now apply convert_lists_plain.
  - cbn [Bs4.convert_lists_of]. rewrite L.
    now rewrite convert_lists_plain_all.
Qed.

(** The items of an unordered list, once their strings are set. *)
Lemma bullets_text cs :
  forallb Spec.plain_item cs = true ->
  String.concat ""
    (map Bs4.get_text_of
       (map (Bs4.set_strings_of "li" (fun t => "- " ++ t ++ Py.newline)) cs))
  = Spec.bullets cs.
Proof.
  induction cs as [| c cs IH]; intros P; [reflexivity |].
  cbn [forallb] in P. apply andb_true_iff in P. destruct P as [Pc P].
  cbn [map Spec.bullets]. rewrite concat_cons, (IH P). f_equal.
  destruct (plain_item_inv c Pc) as [[L Q] | (a & cs' & -> & Q)].
  - rewrite L. now rewrite set_strings_plain.
  - reflexivity.
Qed.

(** The items of an ordered list, once they are numbered. *)
Lemma numbered_fold cs :
  forallb Spec.plain_item cs = true ->
  forall acc i,
  exists out j,
    fold_left
      (fun acc c =>
         let r := Bs4.number_items_of
                    (fun i t => Py.str_of_nat i ++ ". " ++ t ++ Py.newline)
                    (snd acc) c in
         ((fst acc ++ [fst r])%list, snd r))
      cs (acc, i) = ((acc ++ out)%list, j)
    /\ String.concat "" (map Bs4.get_text_of out) = Spec.numbered i cs.
Proof.
  induction cs as [| c cs IH]; intros P acc i.
  - exists [], i. cbn [fold_left]. now rewrite app_nil_r.
  - cbn [forallb] in P. apply andb_true_iff in P. destruct P as [Pc P].
    cbn [fold_left fst snd Spec.numbered].
    destruct (plain_item_inv c Pc) as [[L Q] | (a & cs' & -> & Q)].
    + rewrite L, (number_items_plain _ c Q i). cbn [fst snd].
      destruct (IH P (acc ++ [c])%list i) as (out & j & F & T).
      exists (c :: out), j. split.
      * etransitivity; [exact F | now rewrite <- app_assoc].
      * cbn [map]. now rewrite concat_cons, T.
    + cbn [Bs4.number_items_of Spec.is_li].
      change (String.eqb "li" "li") with true. cbn iota. cbn [fst snd].
      cbn [Bs4.descendants_of]. rewrite (items_no_items cs' Q).
      cbn [List.length]. rewrite Nat.add_0_r.
      match goal with
      | |- context [(acc ++ [?x])%list] =>
          destruct (IH P (acc ++ [x])%list (S i)) as (out & j & F & T);
          exists (x :: out), j
      end.
      split.
      * etransitivity; [exact F | now rewrite <- app_assoc].
      * cbn [map]. rewrite concat_cons, T.
        cbn [Bs4.get_text_of map String.concat].
        now rewrite !append_assoc.
Qed.

Lemma numbered_text cs :
  forallb Spec.plain_item cs = true ->
  String.concat ""
    (map Bs4.get_text_of
       (Bs4.number_items
          (fun i t => Py.str_of_nat i ++ ". " ++ t ++ Py.newline) 1 cs))
  = Spec.numbered 1 cs.
Proof.
  intros P.
  destruct (numbered_fold cs P [] 1) as (out & j & F & T).
  rewrite <- T. do 2 f_equal. exact (f_equal fst F).
Qed.

Ltac run_passes cs :=
  repeat (cbn [Bs4.set_strings_of Bs4.convert_lists_of String.eqb Ascii.eqb
               Bool.eqb andb map];
          rewrite ?(set_strings_plain_all _ _ cs)
            by (reflexivity || assumption);
          rewrite ?(set_strings_items _ _ cs) by (reflexivity || assumption);
          rewrite ?(convert_lists_items _ _ cs)
            by (reflexivity || assumption)).

Lemma rewrite_element_text e :
  Spec.blocks e = true ->
  Bs4.get_text_of (Spec.rewrite_element e) = Spec.block_markdown e.
Proof.
  induction e as [n a cs IH | k s] using PageElement_induction;
    intros B; [| reflexivity].
  cbn [Spec.blocks] in B. cbn [Spec.block_markdown].
  destruct (Spec.heading_level n) as [i |] eqn:HL.
  - destruct (heading_level_some n i HL) as [I E]. clear HL.
    unfold Spec.rewrite_element. cbn [seq In] in I.
    repeat (destruct I as [<- | I];
            [vm_compute in E; subst n; run_passes cs; reflexivity |]).
    destruct I.
  - pose proof (heading_level_none n HL) as HN.
    assert (E1 : String.eqb n "h1" = false) by (apply (HN 1); cbn; tauto).
    assert (E2 : String.eqb n "h2" = false) by (apply (HN 2); cbn; tauto).
    assert (E3 : String.eqb n "h3" = false) by (apply (HN 3); cbn; tauto).
    assert (E4 : String.eqb n "h4" = false) by (apply (HN 4); cbn; tauto).
    assert (E5 : String.eqb n "h5" = false) by (apply (HN 5); cbn; tauto).
    assert (E6 : String.eqb n "h6" = false) by (apply (HN 6); cbn; tauto).
    clear HN HL. unfold Spec.rewrite_element.
    destruct (String.eqb_spec n "p") as [-> | Np].
    { run_passes cs. reflexivity. }
    destruct (String.eqb_spec n "ul") as [-> | Nu].
    { cbn [orb] in B. run_passes cs.
      cbn [Bs4.get_text_of map String.concat].
      now rewrite bullets_text. }
    destruct (String.eqb_spec n "ol") as [-> | No].
    { cbn [orb] in B. run_passes cs.
      cbn [Bs4.get_text_of map String.concat].
      now rewrite numbered_text. }
    cbn [orb] in B.
    apply String.eqb_neq in Np, Nu, No.
    repeat (cbn [Bs4.set_strings_of Bs4.convert_lists_of];
            rewrite ?E1, ?E2, ?E3, ?E4, ?E5, ?E6, ?Np, ?Nu, ?No).
    rewrite !map_map. cbn [Bs4.get_text_of]. rewrite map_map.
    f_equal. apply map_ext_in. intros c I.
    rewrite forallb_forall in B. rewrite Forall_forall in IH.
    exact (IH c I (B c I)).
Qed.

(** X15.  The fallback conversion, on a document made of headings and
    paragraphs with plain content, lists of plain items, and other elements
    around such blocks: it returns the blocks' texts in document order, a
    heading as its marker line followed by a blank line, a paragraph
    followed by a blank line, the items of an unordered list as [- item]
    lines, those of an ordered list numbered from 1, each list followed by
    an empty line; nothing is logged. *)
Theorem fallback_renders_blocks `{W : World} (html_content : string)
    (soup : Bs4.BeautifulSoup) :
  html_parser html_content = Ok soup ->
  forallb Spec.blocks soup = true ->
  _simple_html_to_markdown html_content
  = (Ok (String.concat "" (map Spec.block_markdown soup)), []).
Proof.
  intros P B. rewrite (simple_html_to_markdown_elements _ _ P).
  unfold Bs4.get_text. rewrite map_map. do 3 f_equal.
  apply map_ext_in. intros e I. apply rewrite_element_text.
  rewrite forallb_forall in B. now apply B.
Qed.

Lemma fallback_renders_blocks_witness :
  @html_parser Failing.world Failing.article_html = Ok Failing.article_soup
  /\ forallb Spec.blocks Failing.article_soup = true
  /\ @_simple_html_to_markdown Failing.world Failing.article_html
     = (Ok Failing.article_markdown, []).
Proof.
  split; [reflexivity |]. split; [reflexivity |].
  exact (@fallback_renders_blocks Failing.world Failing.article_html
           Failing.article_soup eq_refl eq_refl).
Defined.

(** ** The installers *)

Section Installers.

Variable machine : Type.
Variable sys_executable : string.
Variable spawn : list string -> machine -> option Setup.failure * machine.

Lemma install_package_run package s :
  (forall e, fst (spawn (Setup.pip_install sys_executable package) s) = Some e ->
             Setup.is_CalledProcessError e = true) ->
  exists report,
    Setup.package_report package report
    /\ Setup.install_package sys_executable spawn package s
       = Setup.Run (inr tt)
           [Setup.Spawn (Setup.pip_install sys_executable package); report]
           (snd (spawn (Setup.pip_install sys_executable package) s)).
Proof.
  intros H. unfold Setup.install_package, Setup.try_except, Setup.andthen,
    Setup.check_call, Setup.log.
  cbn [Setup.value Setup.trace Setup.final].
  destruct (fst (spawn (Setup.pip_install sys_executable package) s))
    as [e |] eqn:E.
  - cbn [Setup.value Setup.trace Setup.final]. rewrite (H e eq_refl).
    cbn [Setup.value Setup.trace Setup.final app].
    eexists. split; [| reflexivity].
    right. exists e. split; [exact (H e eq_refl) | reflexivity].
  - cbn [Setup.value Setup.trace Setup.final app].
    eexists. split; [| reflexivity]. now left.
Qed.

Lemma for_each_packages (l : list string) :
  (forall package s e,
     In package l ->
     fst (spawn (Setup.pip_install sys_executable package) s) = Some e ->
     Setup.is_CalledProcessError e = true) ->
  forall s, exists reports,
    Forall2 Setup.package_report l reports
    /\ Setup.value
         (Setup.for_each l (Setup.install_package sys_executable spawn) s)
       = inr tt
    /\ Setup.trace
         (Setup.for_each l (Setup.install_package sys_executable spawn) s)
       = flat_map
           (fun pr => [Setup.Spawn (Setup.pip_install sys_executable (fst pr));
                       snd pr])
           (combine l reports).
Proof.
  induction l as [| package l IH]; intros H s.
  - exists []. repeat split. constructor.
  - destruct (install_package_run package s) as (report & R & E).
    { intros e. apply H. now left. }
    cbn [Setup.for_each]. unfold Setup.andthen. rewrite E.
    cbn [Setup.value Setup.trace Setup.final].
    destruct (IH (fun p s e I => H p s e (or_intror I))
                (snd (spawn (Setup.pip_install sys_executable package) s)))
      as (reports & F & V & T).
    exists (report :: reports). split; [now constructor |].
    split; [exact V |]. rewrite T. reflexivity.
Qed.

Lemma commands_of_reports l reports :
  Forall2 Setup.package_report l reports ->
  Setup.commands
    (flat_map
       (fun pr => [Setup.Spawn (Setup.pip_install sys_executable (fst pr));
                   snd pr])
       (combine l reports))
  = map (Setup.pip_install sys_executable) l.
Proof.
  induction 1 as [| package report l reports R _ IH]; [reflexivity |].
  cbn [combine flat_map map fst snd app]. unfold Setup.commands in IH |- *.
  cbn [flat_map app]. rewrite IH.
  destruct R as [-> | (e & _ & ->)]; reflexivity.
Qed.

(** X16.  [install_requirements], when a [pip] call raises nothing but
    [CalledProcessError]: it returns normally, and it has run
    [pip install] for each of the five packages in their order, a failed
    one not stopping the others, each call followed by the line logged for
    that package, its success or its failure. *)
Theorem install_requirements_tries_every_package :
  (forall package s e,
     In package Setup.packages ->
     fst (spawn (Setup.pip_install sys_executable package) s) = Some e ->
     Setup.is_CalledProcessError e = true) ->
  forall s, exists reports,
    Forall2 Setup.package_report Setup.packages reports
    /\ Setup.value (Setup.install_requirements sys_executable spawn s)
       = inr tt
    /\ Setup.trace (Setup.install_requirements sys_executable spawn s)
       = flat_map
           (fun pr => [Setup.Spawn (Setup.pip_install sys_executable (fst pr));
                       snd pr])
           (combine Setup.packages reports)
    /\ Setup.commands
         (Setup.trace (Setup.install_requirements sys_executable spawn s))
       = map (Setup.pip_install sys_executable) Setup.packages.
Proof.
  intros H s.
  destruct (for_each_packages Setup.packages H s) as (reports & F & V & T).
  exists reports. split; [exact F |]. split; [exact V |].
  split; [exact T |].
  unfold Setup.install_requirements. rewrite T.
  now apply commands_of_reports.
Qed.

Lemma andthen_ok {A B} (m : @Setup.M machine A) (k : @Setup.M machine B) s a t s' :
  m s = Setup.Run (inr a) t s' ->
  Setup.andthen m k s
  = Setup.Run (Setup.value (k s')) (t ++ Setup.trace (k s'))%list
      (Setup.final (k s')).
Proof. unfold Setup.andthen. intros ->. reflexivity. Qed.

Lemma andthen_raise {A B} (m : @Setup.M machine A) (k : @Setup.M machine B) s e t s' :
  m s = Setup.Run (inl e) t s' ->
  Setup.andthen m k s = Setup.Run (inl e) t s'.
Proof. unfold Setup.andthen. intros ->. reflexivity. Qed.

Lemma try_except_ok {A} (m : @Setup.M machine A) c h s a t s' :
  m s = Setup.Run (inr a) t s' ->
  Setup.try_except m c h s = Setup.Run (inr a) t s'.
Proof. unfold Setup.try_except. intros ->. reflexivity. Qed.

Lemma try_except_caught {A} (m : @Setup.M machine A) c h s e t s' :
  m s = Setup.Run (inl e) t s' -> c e = true ->
  Setup.try_except m c h s
  = Setup.Run (Setup.value (h e s')) (t ++ Setup.trace (h e s'))%list
      (Setup.final (h e s')).
Proof.
  unfold Setup.try_except. intros -> C.
  cbn [Setup.value Setup.trace Setup.final]. now rewrite C.
Qed.

Lemma try_except_passed {A} (m : @Setup.M machine A) c h s e t s' :
  m s = Setup.Run (inl e) t s' -> c e = false ->
  Setup.try_except m c h s = Setup.Run (inl e) t s'.
Proof.
  unfold Setup.try_except. intros -> C.
  cbn [Setup.value Setup.trace Setup.final]. now rewrite C.
Qed.

Lemma check_call_ok argv s :
  fst (spawn argv s) = None ->
  Setup.check_call spawn argv s
  = Setup.Run (inr tt) [Setup.Spawn argv] (snd (spawn argv s)).
Proof. unfold Setup.check_call. now intros ->. Qed.

Lemma check_call_raise argv s e :
  fst (spawn argv s) = Some e ->
  Setup.check_call spawn argv s
  = Setup.Run (inl e) [Setup.Spawn argv] (snd (spawn argv s)).
Proof. unfold Setup.check_call. now intros ->. Qed.

Lemma commands_app t t' :
  Setup.commands (t ++ t') = (Setup.commands t ++ Setup.commands t')%list.
Proof. apply flat_map_app. Qed.

Lemma pip_fallback_run e s :
  Setup.value (Setup.pip_fallback sys_executable spawn e s)
  = match fst (spawn (Setup.pip_install sys_executable "pypandoc") s) with
    | Some e' => inl e'
    | None => inr tt
    end
  /\ Setup.commands (Setup.trace (Setup.pip_fallback sys_executable spawn e s))
     = [Setup.pip_install sys_executable "pypandoc"]
  /\ Setup.final (Setup.pip_fallback sys_executable spawn e s)
     = snd (spawn (Setup.pip_install sys_executable "pypandoc") s).
Proof.
  unfold Setup.pip_fallback.
  rewrite (andthen_ok (Setup.log ERROR _) _ s tt _ s eq_refl).
  rewrite (andthen_ok (Setup.log INFO _) _ s tt _ s eq_refl).
  unfold Setup.check_call. cbn [Setup.value Setup.trace Setup.final app].
  repeat split.
Qed.

(** The inner [try]: what it runs and how it ends, by the outcome of the
    two [apt-get] commands. *)
Lemma install_with_apt_get_passed s e :
  fst (spawn Setup.apt_get_update s) = Some e ->
  Setup.is_CalledProcessError e = false ->
  Setup.install_with_apt_get sys_executable spawn s
  = Setup.Run (inl e) [Setup.Spawn Setup.apt_get_update]
      (snd (spawn Setup.apt_get_update s)).
Proof.
  intros U C. unfold Setup.install_with_apt_get.
  apply try_except_passed; [| exact C].
  apply andthen_raise. now apply check_call_raise.
Qed.

Lemma install_with_apt_get_commands s :
  let s1 := snd (spawn Setup.apt_get_update s) in
  let s2 := snd (spawn Setup.apt_get_install s1) in
  Setup.commands
    (Setup.trace (Setup.install_with_apt_get sys_executable spawn s))
  = match fst (spawn Setup.apt_get_update s) with
    | Some e =>
        if Setup.is_CalledProcessError e
        then [Setup.apt_get_update;
              Setup.pip_install sys_executable "pypandoc"]
        else [Setup.apt_get_update]
    | None =>
        match fst (spawn Setup.apt_get_install s1) with
        | Some e =>
            if Setup.is_CalledProcessError e
            then [Setup.apt_get_update; Setup.apt_get_install;
                  Setup.pip_install sys_executable "pypandoc"]
            else [Setup.apt_get_update; Setup.apt_get_install]
        | None => [Setup.apt_get_update; Setup.apt_get_install]
        end
    end.
Proof.
  intros s1 s2. unfold Setup.install_with_apt_get.
  destruct (fst (spawn Setup.apt_get_update s)) as [e |] eqn:U.
  - pose proof (andthen_raise _
                  (Setup.andthen (Setup.check_call spawn Setup.apt_get_install)
                     (Setup.log INFO "Successfully installed Pandoc"))
                  _ _ _ _ (check_call_raise _ _ _ U)) as B.
    destruct (Setup.is_CalledProcessError e) eqn:C.
    + rewrite (try_except_caught _ _ _ _ _ _ _ B C).
      cbn [Setup.trace]. rewrite commands_app.
      now rewrite (proj1 (proj2 (pip_fallback_run e _))).
    + now rewrite (try_except_passed _ _ _ _ _ _ _ B C).
  - pose proof (check_call_ok _ _ U) as B1. fold s1 in B1.
    destruct (fst (spawn Setup.apt_get_install s1)) as [e |] eqn:I.
    + pose proof (andthen_raise _ (Setup.log INFO "Successfully installed Pandoc")
                    _ _ _ _ (check_call_raise _ _ _ I)) as B2.
      pose proof (andthen_ok _
                    (Setup.andthen
                       (Setup.check_call spawn Setup.apt_get_install)
                       (Setup.log INFO "Successfully installed Pandoc"))
                    _ _ _ _ B1) as B.
      rewrite B2 in B. cbn [Setup.value Setup.trace Setup.final app] in B.
      destruct (Setup.is_CalledProcessError e) eqn:C.
      * rewrite (try_except_caught _ _ _ _ _ _ _ B C).
        cbn [Setup.trace]. rewrite commands_app.
        now rewrite (proj1 (proj2 (pip_fallback_run e _))).
      * now rewrite (try_except_passed _ _ _ _ _ _ _ B C).
    + pose proof (andthen_ok _ (Setup.log INFO "Successfully installed Pandoc")
                    _ _ _ _ (check_call_ok _ _ I)) as B2.
      pose proof (andthen_ok _
                    (Setup.andthen
                       (Setup.check_call spawn Setup.apt_get_install)
                       (Setup.log INFO "Successfully installed Pandoc"))
                    _ _ _ _ B1) as B.
      rewrite B2 in B. cbn [Setup.value Setup.trace Setup.final app
                              Setup.log] in B.
      now rewrite (try_except_ok _ _ _ _ _ _ _ B).
Qed.

(** The outer [try]: with pandoc missing, [install_pandoc] is the inner
    [try] run after the check. *)
Lemma install_pandoc_missing s :
  Setup.pandoc_missing spawn s ->
  let r := Setup.install_with_apt_get sys_executable spawn
             (snd (spawn Setup.pandoc_version s)) in
  Setup.install_pandoc sys_executable spawn s
  = Setup.Run (Setup.value r)
      (Setup.Spawn Setup.pandoc_version
       :: Setup.Logged INFO "Installing Pandoc..." :: Setup.trace r)
      (Setup.final r).
Proof.
  intros (e & P & C) r. unfold Setup.install_pandoc.
  pose proof (andthen_raise _ (Setup.log INFO "Pandoc is already installed")
                _ _ _ _ (check_call_raise _ _ _ P)) as B.
  rewrite (try_except_caught _ _ _ _ _ _ _ B C).
  rewrite (andthen_ok (Setup.log INFO _) _ _ tt _ _ eq_refl).
  reflexivity.
Qed.

Lemma install_pandoc_not_missing s :
  ~ Setup.pandoc_missing spawn s ->
  Setup.commands (Setup.trace (Setup.install_pandoc sys_executable spawn s))
  = [Setup.pandoc_version].
Proof.
  intros NM. unfold Setup.install_pandoc.
  destruct (fst (spawn Setup.pandoc_version s)) as [e |] eqn:P.
  - pose proof (andthen_raise _ (Setup.log INFO "Pandoc is already installed")
                  _ _ _ _ (check_call_raise _ _ _ P)) as B.
    destruct (Setup.is_CalledProcessError_or_FileNotFoundError e) eqn:C.
    + destruct NM. now exists e.
    + now rewrite (try_except_passed _ _ _ _ _ _ _ B C).
  - pose proof (andthen_ok _ (Setup.log INFO "Pandoc is already installed")
                  _ _ _ _ (check_call_ok _ _ P)) as B.
    cbn [Setup.value Setup.trace Setup.final app Setup.log] in B.
    now rewrite (try_except_ok _ _ _ _ _ _ _ B).
Qed.

(** X17.  [install_pandoc] on a machine without pandoc where
    [apt-get update] raises something other than [CalledProcessError], as
    when [apt-get] is not there: the exception leaves [install_pandoc], and
    neither [apt-get install] nor the [pip] fallback is run. *)
Theorem missing_apt_get_is_not_recovered (s : machine) (e : Setup.failure) :
  Setup.pandoc_missing spawn s ->
  fst (spawn Setup.apt_get_update (snd (spawn Setup.pandoc_version s)))
  = Some e ->
  Setup.is_CalledProcessError e = false ->
  Setup.value (Setup.install_pandoc sys_executable spawn s) = inl e
  /\ Setup.commands
       (Setup.trace (Setup.install_pandoc sys_executable spawn s))
     = [Setup.pandoc_version; Setup.apt_get_update]
  /\ Setup.final (Setup.install_pandoc sys_executable spawn s)
     = snd (spawn Setup.apt_get_update (snd (spawn Setup.pandoc_version s))).
Proof.
  intros M U N. rewrite (install_pandoc_missing s M).
  rewrite (install_with_apt_get_passed _ e U N).
  split; [reflexivity |]. split; reflexivity.
Qed.

(** X18.  [install_pandoc] runs [pip install pypandoc] exactly when the
    check for pandoc failed with [CalledProcessError] or
    [FileNotFoundError] and then one of the two [apt-get] commands ended
    with [CalledProcessError]. *)
Theorem pip_fallback_only_after_failed_apt_get (s : machine) :
  In (Setup.pip_install sys_executable "pypandoc")
     (Setup.commands
        (Setup.trace (Setup.install_pandoc sys_executable spawn s)))
  <-> Setup.pandoc_missing spawn s
      /\ Setup.apt_get_failed spawn (snd (spawn Setup.pandoc_version s)).
Proof.
  assert (D1 : Setup.pip_install sys_executable "pypandoc"
               <> Setup.pandoc_version) by discriminate.
  assert (D2 : Setup.pip_install sys_executable "pypandoc"
               <> Setup.apt_get_update) by discriminate.
  assert (D3 : Setup.pip_install sys_executable "pypandoc"
               <> Setup.apt_get_install) by discriminate.
  split.
  - intros I.
    assert (M : Setup.pandoc_missing spawn s).
    { destruct (fst (spawn Setup.pandoc_version s)) as [e |] eqn:P.
      - destruct (Setup.is_CalledProcessError_or_FileNotFoundError e) eqn:C.
        + now exists e.
        + rewrite install_pandoc_not_missing in I.
          * destruct I as [E | []]. now destruct D1.
          * intros (e' & P' & C'). congruence.
      - rewrite install_pandoc_not_missing in I.
        + destruct I as [E | []]. now destruct D1.
        + intros (e' & P' & _). congruence. }
    split; [exact M |].
    rewrite (install_pandoc_missing s M) in I.
    cbn [Setup.trace] in I.
    change (Setup.commands (?a :: ?b :: ?t))
      with (Setup.pandoc_version :: Setup.commands t) in I.
    destruct I as [E | I]; [now destruct D1 |].
    rewrite install_with_apt_get_commands in I. unfold Setup.apt_get_failed.
    destruct (fst (spawn Setup.apt_get_update _)) as [e1 |].
    + destruct (Setup.is_CalledProcessError e1) eqn:C1.
      * exists e1. split; [exact C1 | now left].
      * destruct I as [E | []]. now destruct D2.
    + destruct (fst (spawn Setup.apt_get_install _)) as [e2 |].
      * destruct (Setup.is_CalledProcessError e2) eqn:C2.
        -- exists e2. split; [exact C2 | now right].
        -- destruct I as [E | [E | []]]; [now destruct D2 | now destruct D3].
      * destruct I as [E | [E | []]]; [now destruct D2 | now destruct D3].
  - intros (M & e & C & F).
    rewrite (install_pandoc_missing s M). cbn [Setup.trace].
    change (Setup.commands (?a :: ?b :: ?t))
      with (Setup.pandoc_version :: Setup.commands t).
    right. rewrite install_with_apt_get_commands.
    destruct F as [U | [U I]].
    + rewrite U, C. right. now left.
    + rewrite U, I, C. right. right. now left.
Qed.

End Installers.

Lemma install_requirements_tries_every_package_witness :
  Setup.value
    (Setup.install_requirements Colab.python Colab.spawn Colab.fresh)
  = inr tt
  /\ Setup.commands
       (Setup.trace
          (Setup.install_requirements Colab.python Colab.spawn Colab.fresh))
     = map (Setup.pip_install Colab.python) Setup.packages
  /\ In (Setup.Logged ERROR
           ("Failed to install lxml: "
            ++ Setup.str (Colab.exit_status_1 "pip")))
        (Setup.trace
           (Setup.install_requirements Colab.python Colab.spawn Colab.fresh)).
Proof.
  assert (H : forall package s e,
             In package Setup.packages ->
             fst (Colab.spawn (Setup.pip_install Colab.python package) s)
             = Some e ->
             Setup.is_CalledProcessError e = true).
  { intros package s e I.
    repeat (destruct I as [<- | I];
            [cbn; intros E; now inversion E |]).
    destruct I. }
  destruct (install_requirements_tries_every_package
              Colab.machine Colab.python Colab.spawn H Colab.fresh)
    as (reports & _ & V & _ & C).
  split; [exact V |]. split; [exact C |].
  vm_compute. tauto.
Defined.

Lemma missing_apt_get_is_not_recovered_witness :
  Setup.pandoc_missing Colab.spawn Colab.without_apt
  /\ Setup.value
       (Setup.install_pandoc Colab.python Colab.spawn Colab.without_apt)
     = inl (Colab.no_such_file "apt-get")
  /\ Setup.commands
       (Setup.trace
          (Setup.install_pandoc Colab.python Colab.spawn Colab.without_apt))
     = [Setup.pandoc_version; Setup.apt_get_update].
Proof.
  assert (P : Setup.pandoc_missing Colab.spawn Colab.without_apt)
    by (exists (Colab.no_such_file "pandoc"); split; reflexivity).
  split; [exact P |].
  destruct (missing_apt_get_is_not_recovered
              Colab.machine Colab.python Colab.spawn Colab.without_apt
              (Colab.no_such_file "apt-get") P eq_refl eq_refl)
    as (V & C & _).
  split; [exact V | exact C].
Defined.

(** ** Construction and the whole run *)

Lemma load_noise_patterns_returns `{W : World} file :
  exists patterns, outcome (_load_noise_patterns file) = Ok patterns.
Proof.
  unfold _load_noise_patterns. destruct (path_exists file).
  - rewrite outcome_try_except_all, outcome_bind.
    destruct (read_lines file); cbn; eauto.
  - cbn. eauto.
Qed.

Lemma logs_only_load_noise_patterns `{W : World} file :
  Spec.logs_only (_load_noise_patterns file).
Proof.
  unfold _load_noise_patterns, logger_info, logger_warning.
  destruct (path_exists file); logs.
Qed.

Lemma filter_dump_logs (l : list event) :
  Forall (fun ev => Spec.is_log ev = true) l -> filter Spec.is_dump l = [].
Proof.
  induction 1 as [| ev l L _ IH]; [reflexivity |].
  cbn [filter]. rewrite IH. now destruct ev.
Qed.

Lemma init_run `{W : World} input output file patterns :
  outcome (_load_noise_patterns file) = Ok patterns ->
  outcome (init input output file)
  = match mkdir output with
    | Ok _ => Ok {| input_dir := input;
                    output_dir := output;
                    noise_pattern_file := file;
                    noise_patterns := patterns |}
    | Raise e => Raise e
    end
  /\ events (init input output file) = events (_load_noise_patterns file).
Proof.
  intros L. unfold init. rewrite outcome_bind, L.
  rewrite (events_bind_ok _ _ _ L).
  destruct (mkdir output) as [[] | e].
  - rewrite bind_lift_ok. cbn. now rewrite app_nil_r.
  - rewrite bind_lift_raise. cbn. now rewrite app_nil_r.
Qed.

(** X19.  Constructing the converter fails only when the output directory
    cannot be made, with the error of [mkdir]: the pattern file, missing,
    unreadable or read, never makes it fail.  The patterns are loaded
    before the directory is made, so what is logged is what loading the
    patterns logs also when [mkdir] raises; the converter made holds the
    three paths given and the patterns loaded. *)
Theorem construction_fails_only_on_mkdir `{W : World}
    (input output file : string) :
  exists patterns,
    outcome (_load_noise_patterns file) = Ok patterns
    /\ outcome (init input output file)
       = match mkdir output with
         | Ok _ => Ok {| input_dir := input;
                         output_dir := output;
                         noise_pattern_file := file;
                         noise_patterns := patterns |}
         | Raise e => Raise e
         end
    /\ events (init input output file) = events (_load_noise_patterns file)
    /\ Spec.logs_only (init input output file).
Proof.
  destruct (load_noise_patterns_returns file) as (patterns & L).
  destruct (init_run input output file patterns L) as (O & E).
  exists patterns. split; [exact L |]. split; [exact O |].
  split; [exact E |].
  unfold Spec.logs_only. rewrite E. apply logs_only_load_noise_patterns.
Qed.

Lemma dumps_of_convert_all `{W : World} self :
  filter Spec.is_dump (events (convert_all self))
  = match html_files_of self,
          open_w (Path.mk (output_dir self) "converted_documents.json") with
    | _ :: _, Ok _ =>
        [JsonDump (Path.mk (output_dir self) "converted_documents.json")
           "utf-8"
           (concat (map (Spec.records_of self) (html_files_of self)))
           false 2]
    | _, _ => []
    end.
Proof.
  destruct (html_files_of self) as [| f fs] eqn:F.
  - unfold convert_all. rewrite F. reflexivity.
  - assert (NE : html_files_of self <> []) by (rewrite F; discriminate).
    rewrite (convert_all_events self NE). rewrite F.
    cbn [filter Spec.is_dump]. rewrite filter_app.
    rewrite (filter_dump_logs _ (logs_only_process_files self (f :: fs))).
    destruct (open_w _); reflexivity.
Qed.

(** X20.  What [main] writes: one [json.dump], into
    [output/converted_documents.json] opened as utf-8, with
    [ensure_ascii=False] and [indent=2], of the records of the files of
    [input] in their order, when the directory [output] could be made, an
    input file was found and the output file could be opened; and nothing
    otherwise.  The converter it runs has the patterns of
    [noise_pattern.txt]. *)
Theorem main_writes_one_file `{W : World} :
  exists patterns,
    let converter :=
      {| input_dir := "input";
         output_dir := "output";
         noise_pattern_file := "noise_pattern.txt";
         noise_patterns := patterns |} in
    outcome (_load_noise_patterns "noise_pattern.txt") = Ok patterns
    /\ filter Spec.is_dump (events main)
       = match mkdir "output", html_files_of converter,
               open_w (Path.mk "output" "converted_documents.json") with
         | Ok _, _ :: _, Ok _ =>
             [JsonDump (Path.mk "output" "converted_documents.json") "utf-8"
                (concat (map (Spec.records_of converter)
                           (html_files_of converter)))
                false 2]
         | _, _, _ => []
         end.
Proof.
  destruct (load_noise_patterns_returns "noise_pattern.txt")
    as (patterns & L).
  exists patterns. cbn zeta. split; [exact L |].
  destruct (init_run "input" "output" "noise_pattern.txt" patterns L)
    as (O & E).
  pose proof (logs_only_load_noise_patterns "noise_pattern.txt") as LO.
  unfold main. destruct (mkdir "output") as [[] | e].
  - rewrite (events_bind_ok _ _ _ O), filter_app, E.
    rewrite (filter_dump_logs _ LO). cbn [app].
    apply dumps_of_convert_all.
  - rewrite (events_bind_raise _ _ _ O), E.
    apply (filter_dump_logs _ LO).
Qed.

Lemma events_try_except_ok {A} (m : M A) c h a :
  outcome m = Ok a -> events (try_except m c h) = events m.
Proof. unfold outcome, events, try_except. intros ->. reflexivity. Qed.

(** X21.  [process_html_file] never raises, and its log entries are
    framed: the first one names the file being processed, and the last one
    is either the success entry with the number of records returned, or
    the error entry with the exception that left the body, in which case
    no record is returned; everything between is a log entry. *)
Theorem process_html_file_log_frame `{W : World}
    (self : HTMLToJSONConverter) (html_file : Path.t) :
  exists docs middle closing,
    process_html_file self html_file
    = (Ok docs,
       (Log INFO ("Processing " ++ Path.name html_file)
        :: middle ++ [closing])%list)
    /\ Forall (fun ev => Spec.is_log ev = true) middle
    /\ ((outcome (process_html_file_body self html_file) = Ok docs
         /\ closing
            = Log INFO ("Successfully processed " ++ Path.name html_file
                        ++ " -> " ++ Py.str_of_nat (List.length docs)
                        ++ " documents"))
        \/ (docs = []
            /\ exists e,
                 outcome (process_html_file_body self html_file) = Raise e
                 /\ closing
                    = Log ERROR ("Failed to process " ++ Path.name html_file
                                 ++ ": " ++ exn_str e))).
Proof.
  rewrite (surjective_M (process_html_file self html_file)).
  rewrite outcome_process_html_file.
  pose proof (logs_only_process_html_file self html_file) as LO.
  unfold Spec.logs_only in LO. revert LO.
  unfold process_html_file.
  rewrite (events_bind_ok (logger_info _) _ tt eq_refl).
  change (events (logger_info ?msg)) with [Log INFO msg]. cbn [app].
  destruct (outcome (process_html_file_body self html_file)) as [docs | e]
    eqn:B.
  - rewrite (events_try_except_ok _ _ _ _ B). intros _.
    destruct (process_html_file_body_ok self _ _ B)
      as (html & url & clean & md & sections & R & U & N & Mk & S & E).
    assert (J : outcome (markdown_to_json md url (Path.stem html_file))
                = Ok docs)
      by (rewrite outcome_markdown_to_json, S; now subst docs).
    unfold process_html_file_body.
    rewrite R, bind_lift_ok.
    rewrite (events_bind_ok _ _ url U).
    rewrite (events_bind_ok (logger_info _) _ tt eq_refl).
    rewrite (events_bind_ok _ _ clean N).
    rewrite (events_bind_ok _ _ md Mk).
    rewrite (events_bind_ok _ _ docs J).
    change (events (logger_info ?msg ;; ret docs)) with [Log INFO msg].
    change (events (logger_info ?msg)) with [Log INFO msg].
    exists docs,
      (events (extract_page_url html)
       ++ [Log INFO ("Extracted URL: " ++ url)]
       ++ events (noise_filter self html)
       ++ events (html_to_markdown clean)
       ++ events (markdown_to_json md url (Path.stem html_file)))%list.
    eexists. split; [| split].
    + do 2 f_equal. rewrite <- !app_assoc. reflexivity.
    + apply Forall_app. split; [apply logs_only_extract_page_url |].
      apply Forall_app. split; [now constructor |].
      apply Forall_app. split; [apply logs_only_noise_filter |].
      apply Forall_app. split; [apply logs_only_html_to_markdown |].
      apply logs_only_markdown_to_json.
    + left. split; reflexivity.
  - rewrite (events_try_except_raise _ _ _ B).
    change (events (logger_error ?msg ;; ret [])) with [Log ERROR msg].
    intros LO.
    exists [], (events (process_html_file_body self html_file)).
    eexists. split; [reflexivity |]. split.
    + inversion LO as [| ? ? _ LO']. subst.
      apply Forall_app in LO'. tauto.
    + right. split; [reflexivity |]. now exists e.
Qed.

(** ** The stem of an input file *)

Lemma prefix_split (p s : string) :
  String.prefix p s = true -> exists t, s = p ++ t.
Proof.
  revert s. induction p as [| a p IH]; intros s.
  - intros _. now exists s.
  - destruct s as [| b s]; cbn [String.prefix]; [discriminate |].
    destruct (ascii_dec a b) as [<- |]; [| discriminate].
    intros H. destruct (IH s H) as (t & ->). now exists t.
Qed.

Lemma endswith_split (name suffix : string) :
  Py.endswith name suffix = true -> exists base, name = base ++ suffix.
Proof.
  unfold Py.endswith. intros H.
  destruct (prefix_split _ _ H) as (t & E).
  exists (Py.rev_string t).
  rewrite <- (rev_string_involutive name), E, rev_string_append.
  now rewrite rev_string_involutive.
Qed.

Lemma rfind_append c (b t : string) i :
  Py.rfind c t = Some i ->
  Py.rfind c (b ++ t) = Some (String.length b + i).
Proof.
  intros H. induction b as [| a b IH]; [exact H |].
  cbn [append Py.rfind String.length]. now rewrite IH.
Qed.

Lemma substring_append (b t : string) :
  String.substring 0 (String.length b) (b ++ t) = b.
Proof.
  induction b as [| a b IH]; cbn [append String.length String.substring].
  - now destruct t.
  - now rewrite IH.
Qed.

Lemma stem_with_suffix (base suffix : string) :
  Py.rfind "." suffix = Some 0 ->
  (2 <= String.length suffix)%nat ->
  Py.stem (base ++ suffix)
  = if String.eqb base "" then suffix else base.
Proof.
  intros R L. unfold Py.stem.
  rewrite (rfind_append _ base _ _ R), length_append, Nat.add_0_r.
  destruct base as [| a base]; cbn [String.eqb String.length].
  - cbn [append Nat.ltb Nat.leb andb]. reflexivity.
  - replace ((0 <? S (String.length base))%nat) with true
      by (symmetry; apply Nat.ltb_lt; lia).
    replace ((S (String.length base)
              <? S (String.length base) + String.length suffix - 1)%nat)
      with true by (symmetry; apply Nat.ltb_lt; lia).
    cbn [andb].
    exact (substring_append (String a base) suffix).
Qed.

(** X22.  The stem of a file [convert_all] finds, the one its records' ids
    and [source] are built from: the name without its [.html] or [.htm],
    whatever dots the rest of the name has; a file named [.html] or [.htm]
    alone keeps its whole name. *)
Theorem found_file_stem `{W : World} (self : HTMLToJSONConverter)
    (html_file : Path.t) :
  In html_file (html_files_of self) ->
  exists base,
    (Path.name html_file = base ++ ".html"
     \/ Path.name html_file = base ++ ".htm")
    /\ Path.stem html_file
       = if String.eqb base "" then Path.name html_file else base.
Proof.
  unfold html_files_of. intros I. apply in_app_or in I.
  destruct I as [I | I]; apply in_glob in I; destruct I as (_ & _ & E);
    destruct (endswith_split _ _ E) as (base & N); exists base;
    unfold Path.stem; rewrite N.
  - split; [now left |].
    rewrite (stem_with_suffix base ".html" eq_refl); [| cbn; lia].
    now destruct base.
  - split; [now right |].
    rewrite (stem_with_suffix base ".htm" eq_refl); [| cbn; lia].
    now destruct base.
Qed.

Lemma found_file_stem_witness :
  In (Path.mk "input" "a.htm") (@html_files_of Demo.world (Demo.converter []))
  /\ exists base,
       (Path.name (Path.mk "input" "a.htm") = base ++ ".html"
        \/ Path.name (Path.mk "input" "a.htm") = base ++ ".htm")
       /\ Path.stem (Path.mk "input" "a.htm")
          = if String.eqb base "" then Path.name (Path.mk "input" "a.htm")
            else base.
Proof.
  assert (I : In (Path.mk "input" "a.htm")
                (@html_files_of Demo.world (Demo.converter [])))
    by (vm_compute; tauto).
  split; [exact I |].
  exact (@found_file_stem Demo.world (Demo.converter [])
           (Path.mk "input" "a.htm") I).
Defined.
